(** * mal_helper: the date fixer of [mal_helper.py]

    A shallow embedding of the history normalizer ([_get_entry_history]),
    the date inference engine ([_determine_dates]) and the review loop
    ([date_fixer]) of class [MALHelper].

    Conventions.
    - Python [str] values are [string]s; the embedding covers ASCII text
      (code points below 128), on which [str.upper], [int] and the string
      order of Python coincide with the byte-wise definitions below; the
      cap on the number of digits that [int] accepts is the interpreter's
      default, 4300.
    - A raised exception is a value of [exn]; nothing in the source catches
      one, so a raise always ends the running call.
    - [print], [input], [time.sleep] and the HTTP requests are recorded, in
      program order, as a list of [event]s. *)

From Stdlib Require Import ZArith List String Ascii Bool Lia DecimalString.
Import ListNotations.
Open Scope string_scope.

(** ** Python values and primitives *)

(** The exceptions that the modelled code can raise. *)
Inductive exn : Type :=
| ValueError        (* min()/max() of an empty list, int() of a bad literal *)
| IndexError        (* parts[k] out of range *)
| UnboundLocalError (* a local variable read before any assignment *)
| HTTPError         (* response.raise_for_status() *)
| EOFError          (* input() at end of input *)
| AttributeError.   (* parsed_html.body is None *)

Inductive res (A : Type) : Type :=
| Ret (a : A)
| Raise (e : exn).
Arguments Ret {A} a.
Arguments Raise {A} e.

(** The first field of a history tuple.  [_get_entry_history] produces
    [str]; callers may pass [int] as well: [int(x)] and [==] accept both. *)
Inductive pyval : Type :=
| PyInt (z : Z)
| PyStr (s : string).

Definition string_of_Z (z : Z) : string := NilZero.string_of_int (Z.to_int z).
Definition string_of_nat (n : nat) : string := NilZero.string_of_uint (Nat.to_uint n).

(** [f"{v}"] *)
Definition py_str (v : pyval) : string :=
  match v with
  | PyInt z => string_of_Z z
  | PyStr s => s
  end.

(** [a == b]; an [int] never equals a [str]. *)
Definition py_eq (a b : pyval) : bool :=
  match a, b with
  | PyInt x, PyInt y => Z.eqb x y
  | PyStr s, PyStr t => String.eqb s t
  | _, _ => false
  end.

(** Characters that [int] strips from both ends of a literal: tab, line
    feed, vertical tab, form feed, carriage return and space. *)
Definition is_space (c : ascii) : bool :=
  let n := nat_of_ascii c in
  (((9 <=? n) && (n <=? 13)) || (n =? 32))%nat.

Definition is_digit (c : ascii) : bool :=
  let n := nat_of_ascii c in ((48 <=? n) && (n <=? 57))%nat.

Definition digit_val (c : ascii) : Z := Z.of_nat (nat_of_ascii c - 48).

Fixpoint lstrip (l : list ascii) : list ascii :=
  match l with
  | c :: l' => if is_space c then lstrip l' else l
  | [] => []
  end.

Definition strip (l : list ascii) : list ascii :=
  rev (lstrip (rev (lstrip l))).

(** Decimal digits, single underscores allowed between two digits. *)
Fixpoint py_digits (l : list ascii) (acc : Z) (after_digit : bool) : option Z :=
  match l with
  | [] => if after_digit then Some acc else None
  | c :: l' =>
      if is_digit c then py_digits l' (10 * acc + digit_val c) true
      else if Ascii.eqb c "_" then
             if after_digit then py_digits l' acc false else None
      else None
  end.

(** The digits of a literal, checked against the cap on their number
    ([sys.get_int_max_str_digits()], 4300 unless changed), then read. *)
Definition py_literal (l : list ascii) : option Z :=
  if (4300 <? List.length (filter is_digit l))%nat then None
  else py_digits l 0 false.

(** [int(s)] for a [str] in base 10; [None] stands for [ValueError]. *)
Definition int_of_string (s : string) : option Z :=
  match strip (list_ascii_of_string s) with
  | "-"%char :: l => option_map Z.opp (py_literal l)
  | "+"%char :: l => py_literal l
  | l => py_literal l
  end.

Definition py_int (v : pyval) : option Z :=
  match v with
  | PyInt z => Some z
  | PyStr s => int_of_string s
  end.

Definition upper_char (c : ascii) : ascii :=
  let n := nat_of_ascii c in
  if ((97 <=? n) && (n <=? 122))%nat then ascii_of_nat (n - 32) else c.

(** [s.upper()], for [s] of ASCII characters: the letters a to z, and no
    other character, change. *)
Fixpoint py_upper (s : string) : string :=
  match s with
  | EmptyString => EmptyString
  | String c s' => String (upper_char c) (py_upper s')
  end.

(** [s[n:]] *)
Fixpoint str_drop (n : nat) (s : string) : string :=
  match n, s with
  | O, _ => s
  | S _, EmptyString => EmptyString
  | S n', String _ s' => str_drop n' s'
  end.

(** [s[:n]] *)
Fixpoint str_take (n : nat) (s : string) : string :=
  match n, s with
  | O, _ => EmptyString
  | S _, EmptyString => EmptyString
  | S n', String c s' => String c (str_take n' s')
  end.

(** [s[a:b]] for [0 <= a <= b] *)
Definition str_slice (a b : nat) (s : string) : string :=
  str_take (b - a) (str_drop a s).

(** [s[:-1]] *)
Definition str_init (s : string) : string :=
  str_take (String.length s - 1) s.

(** [s.split(sep)] for a one-character separator: never empty, keeps empty
    fields. *)
Fixpoint split_on (sep : ascii) (s : string) : list string :=
  match s with
  | EmptyString => [EmptyString]
  | String c s' =>
      if Ascii.eqb c sep then EmptyString :: split_on sep s'
      else match split_on sep s' with
           | w :: ws => String c w :: ws
           | [] => [String c EmptyString]
           end
  end.

(** [a > b] on [str] *)
Definition str_gt (a b : string) : bool :=
  match String.compare a b with Gt => true | _ => false end.

(** ** History normalizer: [MALHelper._get_entry_history] *)

(** One cleaned history tuple [(wcount, converted_wdate, wtime)]. *)
Definition hist : Type := (pyval * string * string)%type.

Definition h_count (h : hist) : pyval := fst (fst h).
Definition h_date (h : hist) : string := snd (fst h).
Definition h_time (h : hist) : string := snd h.

(** [wdate[6:] + "-" + wdate[:2] + "-" + wdate[3:5]] *)
Definition convert_wdate (wdate : string) : string :=
  str_drop 6 wdate ++ "-" ++ str_take 2 wdate ++ "-" ++ str_slice 3 5 wdate.

(** The body of the [for h in history] loop, on [h.text]. *)
Definition clean_record (line : string) : res hist :=
  let parts := split_on " " line in
  match nth_error parts 4 with
  | None => Raise IndexError
  | Some wdate =>
      match nth_error parts 6 with
      | None => Raise IndexError
      | Some wtime =>
          match nth_error parts 1 with
          | None => Raise IndexError
          | Some p1 =>
              Ret (PyStr (str_init p1), convert_wdate wdate, wtime)
          end
      end
  end.

(** The loop that fills [cleaned_history]; the first failing record raises
    and the list built so far is lost with the call frame. *)
Fixpoint clean_history (lines : list string) : res (list hist) :=
  match lines with
  | [] => Ret []
  | line :: rest =>
      match clean_record line with
      | Raise e => Raise e
      | Ret h =>
          match clean_history rest with
          | Raise e => Raise e
          | Ret hs => Ret (h :: hs)
          end
      end
  end.

(** What the history endpoint answers for one entry: a failing status
    ([raise_for_status] raises), a document in which the parser finds no
    [body] ([parsed_html.body] is [None] and [.find_all] raises), or the
    texts of the [div.spaceit_pad] elements of the body, in document
    order. *)
Inductive fetched : Type :=
| BadStatus
| NoBody
| Divs (texts : list string).

Definition _get_entry_history (page : fetched) : res (list hist) :=
  match page with
  | BadStatus => Raise HTTPError
  | NoBody => Raise AttributeError
  | Divs texts => clean_history texts
  end.

(** ** Date inference engine: [MALHelper._determine_dates] *)

(** [min(history, key=lambda x: int(x[0]))] after the first element: the
    running best is replaced only by a strictly smaller key. *)
Fixpoint min_loop (l : list hist) (best : hist) (kbest : Z) : res hist :=
  match l with
  | [] => Ret best
  | x :: l' =>
      match py_int (h_count x) with
      | None => Raise ValueError
      | Some k => if (k <? kbest)%Z then min_loop l' x k else min_loop l' best kbest
      end
  end.

Definition py_min (l : list hist) : res hist :=
  match l with
  | [] => Raise ValueError
  | x :: l' =>
      match py_int (h_count x) with
      | None => Raise ValueError
      | Some k => min_loop l' x k
      end
  end.

Fixpoint max_loop (l : list hist) (best : hist) (kbest : Z) : res hist :=
  match l with
  | [] => Ret best
  | x :: l' =>
      match py_int (h_count x) with
      | None => Raise ValueError
      | Some k => if (k >? kbest)%Z then max_loop l' x k else max_loop l' best kbest
      end
  end.

Definition py_max (l : list hist) : res hist :=
  match l with
  | [] => Raise ValueError
  | x :: l' =>
      match py_int (h_count x) with
      | None => Raise ValueError
      | Some k => max_loop l' x k
      end
  end.

(** First loop: the first [(i, h1)] of [enumerate(history)] from index [i]
    with [h1[0] == earliest_ep]. *)
Fixpoint start_loop (i : nat) (earliest_ep : pyval) (l : list hist)
  : option (nat * hist) :=
  match l with
  | [] => None
  | h1 :: l' =>
      if py_eq (h_count h1) earliest_ep then Some (i, h1)
      else start_loop (S i) earliest_ep l'
  end.

(** Second loop: indices below [start_date_index] are skipped by
    [continue]; the first later [h2] with [h2[0] == latest_ep] is taken. *)
Fixpoint finish_loop (j start_date_index : nat) (latest_ep : pyval)
  (l : list hist) : option hist :=
  match l with
  | [] => None
  | h2 :: l' =>
      if (j <? start_date_index)%nat
      then finish_loop (S j) start_date_index latest_ep l'
      else if py_eq (h_count h2) latest_ep then Some h2
      else finish_loop (S j) start_date_index latest_ep l'
  end.

Definition earliest_msg (earliest_ep : pyval) (start_date start_time : string) : string :=
  "<<< Earliest episode/chapter " ++ py_str earliest_ep ++ " was first "
  ++ "watched/read at " ++ start_date ++ " " ++ start_time.

Definition latest_msg (latest_ep : pyval) (finish_date finish_time : string) : string :=
  "<<< Last episode/chapter " ++ py_str latest_ep ++ " was first "
  ++ "watched/read at " ++ finish_date ++ " " ++ finish_time.

(** The body of [_determine_dates] below its first statement, on the
    reversed list: the lines it prints, then the returned pair
    [(start_date, finish_date)] or the exception raised.  A loop that ends
    without reaching its assignments leaves the locals unbound, and the
    [print] that reads them raises. *)
Definition scan_dates (history : list hist)
  : list string * res (string * string) :=
  match py_min history with
  | Raise e => ([], Raise e)
  | Ret hmin =>
      let earliest_ep := h_count hmin in
      match py_max history with
      | Raise e => ([], Raise e)
      | Ret hmax =>
          let latest_ep := h_count hmax in
          match start_loop 0 earliest_ep history with
          | None => ([], Raise UnboundLocalError)
          | Some (start_date_index, h1) =>
              let start_date := h_date h1 in
              let line1 := earliest_msg earliest_ep start_date (h_time h1) in
              match finish_loop 0 start_date_index latest_ep history with
              | None => ([line1], Raise UnboundLocalError)
              | Some h2 =>
                  let finish_date := h_date h2 in
                  ([line1; latest_msg latest_ep finish_date (h_time h2)],
                   Ret (start_date, finish_date))
              end
          end
      end
  end.

(** The call [_determine_dates(history)] on the value of its argument:
    [history = history[::-1]], then the scan. *)
Definition _determine_dates (history : list hist)
  : list string * res (string * string) :=
  scan_dates (rev history).

(** *** The engine on list objects

    Python passes the list by reference.  A heap maps addresses to list
    objects; [next] is the first free address.  [history[::-1]] builds a
    new list object and the local name [history] is rebound to it; every
    later statement of the function only reads that new object. *)
Record heap : Type := {
  cells : nat -> list hist;
  next : nat
}.

Definition alloc (sigma : heap) (l : list hist) : heap * nat :=
  ({| cells := fun a => if (a =? next sigma)%nat then l else cells sigma a;
      next := S (next sigma) |},
   next sigma).

Definition _determine_dates_ref (sigma : heap) (history : nat)
  : heap * (list string * res (string * string)) :=
  let (sigma', history') := alloc sigma (rev (cells sigma history)) in
  (sigma', scan_dates (cells sigma' history')).

(** ** Review loop: [MALHelper.date_fixer] *)

Inductive list_type : Type := Anime | Manga.

(** The [data=updates] dictionary of the PUT request, in insertion order. *)
Definition updates_dict : Type := list (string * string).

(** One element of [user_list["data"]]: [entry["node"]["id"]],
    [entry["node"]["title"]], [entry["list_status"]["status"]] and the two
    optional keys of [entry["list_status"]]. *)
Record entry : Type := {
  node_id : Z;
  node_title : string;
  ls_status : string;
  ls_start_date : option string;
  ls_finish_date : option string
}.

(** [d.get(key, "UNKNOWN")] *)
Definition get_or_unknown (v : option string) : string :=
  match v with
  | Some s => s
  | None => "UNKNOWN"
  end.

(** What the program does to the outside, in order. *)
Inductive event : Type :=
| Print (line : string)
| PrintDict (d : updates_dict)                  (* print(updates) *)
| Input (prompt : string) (reply : option string) (* None: end of input *)
| HistoryRequest (entry_id : Z) (lt : list_type)
| Sleep (seconds : nat)
| UpdateRequest (entry_id : Z) (lt : list_type) (updates : updates_dict).

(** The locals of [date_fixer] that live across iterations, the lines still
    to be read by [input], and the events so far.  A local is [None] until
    its first assignment. *)
Record state : Type := {
  start_from_triggered : bool;
  start_date : option string;
  finish_date : option string;
  stdin : list string;
  out : list event
}.

(** How a piece of the loop body ends. *)
Inductive outcome (A : Type) : Type :=
| Val (a : A)
| Continue
| Break
| Exc (e : exn).
Arguments Val {A} a.
Arguments Continue {A}.
Arguments Break {A}.
Arguments Exc {A} e.

Definition M (A : Type) : Type := state -> outcome A * state.

Definition ret {A} (a : A) : M A := fun s => (Val a, s).

Definition bind {A B} (c : M A) (k : A -> M B) : M B :=
  fun s =>
    match c s with
    | (Val a, s') => k a s'
    | (Continue, s') => (Continue, s')
    | (Break, s') => (Break, s')
    | (Exc e, s') => (Exc e, s')
    end.

Notation "x <- c ;; k" := (bind c (fun x => k))
  (at level 61, c at next level, right associativity).
Notation "c ;; k" := (bind c (fun _ => k))
  (at level 61, right associativity).

Definition continue_ {A} : M A := fun s => (Continue, s).
Definition break_ {A} : M A := fun s => (Break, s).
Definition raise {A} (e : exn) : M A := fun s => (Exc e, s).

Definition emit (ev : list event) : M unit :=
  fun s => (Val tt,
            {| start_from_triggered := start_from_triggered s;
               start_date := start_date s;
               finish_date := finish_date s;
               stdin := stdin s;
               out := out s ++ ev |}).

Definition print (line : string) : M unit := emit [Print line].

(** [input(prompt)] *)
Definition input (prompt : string) : M string :=
  fun s =>
    match stdin s with
    | [] =>
        (Exc EOFError,
         {| start_from_triggered := start_from_triggered s;
            start_date := start_date s;
            finish_date := finish_date s;
            stdin := [];
            out := out s ++ [Input prompt None] |})
    | reply :: rest =>
        (Val reply,
         {| start_from_triggered := start_from_triggered s;
            start_date := start_date s;
            finish_date := finish_date s;
            stdin := rest;
            out := out s ++ [Input prompt (Some reply)] |})
    end.

Definition get_triggered : M bool := fun s => (Val (start_from_triggered s), s).

Definition set_triggered (b : bool) : M unit :=
  fun s => (Val tt,
            {| start_from_triggered := b;
               start_date := start_date s;
               finish_date := finish_date s;
               stdin := stdin s;
               out := out s |}).

(** [start_date, finish_date = ...] *)
Definition assign_dates (p : string * string) : M unit :=
  fun s => (Val tt,
            {| start_from_triggered := start_from_triggered s;
               start_date := Some (fst p);
               finish_date := Some (snd p);
               stdin := stdin s;
               out := out s |}).

(** Reading a local: unbound raises. *)
Definition read_start_date : M string :=
  fun s => match start_date s with
           | Some d => (Val d, s)
           | None => (Exc UnboundLocalError, s)
           end.

Definition read_finish_date : M string :=
  fun s => match finish_date s with
           | Some d => (Val d, s)
           | None => (Exc UnboundLocalError, s)
           end.

Definition lift_res {A} (r : res A) : M A :=
  match r with
  | Ret a => ret a
  | Raise e => raise e
  end.

Definition separator : string :=
  "==========================================================".

Definition manual_fix_prompt : string :=
  "This will require a manual fix. Type anything in to continue: " ++ String "010" "<<< ".

Definition choice_prompt : string :=
  "Type 'Y' if you wish to proceed with the proposed change. "
  ++ "Type 'S' to skip the entry. "
  ++ "Type 'F' to just add the final date. "
  ++ "Type 'X' to exit:"
  ++ String "010" "<<< ".

(** [user_choice.upper() in ("Y", "S", "F", "X")] *)
Definition is_choice (user_choice : string) : bool :=
  let u := py_upper user_choice in
  (u =? "Y") || (u =? "S") || (u =? "F") || (u =? "X").

(** The [while True] loop around [input]: it ends with the first accepted
    line, or with [EOFError] when the lines run out. *)
Fixpoint choice_loop (lines : list string)
  : list event * option (string * list string) :=
  match lines with
  | [] => ([Input choice_prompt None], None)
  | user_choice :: rest =>
      if is_choice user_choice
      then ([Input choice_prompt (Some user_choice)], Some (user_choice, rest))
      else
        let (ev, r) := choice_loop rest in
        (Input choice_prompt (Some user_choice)
           :: Print ("<<< Did not understand input '" ++ user_choice
                     ++ "'. Please try again")
           :: ev, r)
  end.

Definition await_choice : M string :=
  fun s =>
    let (ev, r) := choice_loop (stdin s) in
    match r with
    | Some (user_choice, rest) =>
        (Val user_choice,
         {| start_from_triggered := start_from_triggered s;
            start_date := start_date s;
            finish_date := finish_date s;
            stdin := rest;
            out := out s ++ ev |})
    | None =>
        (Exc EOFError,
         {| start_from_triggered := start_from_triggered s;
            start_date := start_date s;
            finish_date := finish_date s;
            stdin := [];
            out := out s ++ ev |})
    end.

Section DateFixer.

(** Arguments of [date_fixer]. *)
Variable list_type_arg : list_type.
Variable wait_time : nat.
Variable auto_skip : bool.
Variable start_from : option string.

(** The remote site: the history page served for an entry id, and the
    text of the response object of an update request. *)
Variable history_page : Z -> fetched.
Variable update_response : Z -> updates_dict -> string.

(** Number of elements of [user_list["data"]]. *)
Variable entry_count : nat.

Definition history_line (h : hist) : string :=
  match list_type_arg with
  | Anime => "[" ++ h_date h ++ " " ++ h_time h ++ "] Watched episode "
             ++ py_str (h_count h)
  | Manga => "[" ++ h_date h ++ " " ++ h_time h ++ "] Read chapter "
             ++ py_str (h_count h)
  end.

Definition entry_line (index : nat) (e : entry) : string :=
  string_of_nat (index + 1) ++ "/" ++ string_of_nat entry_count
  ++ " [" ++ py_upper (ls_status e) ++ "] "
  ++ node_title e ++ " (" ++ string_of_Z (node_id e) ++ "). "
  ++ "Current start date: " ++ get_or_unknown (ls_start_date e) ++ ". "
  ++ "Current finish date: " ++ get_or_unknown (ls_finish_date e) ++ ".".

(** [(entry_start_date != "UNKNOWN") and (entry_finish_date != "UNKNOWN")] *)
Definition both_populated (e : entry) : bool :=
  negb (get_or_unknown (ls_start_date e) =? "UNKNOWN")
  && negb (get_or_unknown (ls_finish_date e) =? "UNKNOWN").

(** [self._get_entry_history(entry_id, list_type)] *)
Definition fetch_history (entry_id : Z) : M (list hist) :=
  emit [HistoryRequest entry_id list_type_arg] ;;
  lift_res (_get_entry_history (history_page entry_id)).

(** [self._determine_dates(history)]: its printed lines, then its result. *)
Definition determine_dates (history : list hist) : M (string * string) :=
  let (lines, r) := _determine_dates history in
  emit (map Print lines) ;;
  lift_res r.

(** [self.update_entry(entry_id, list_type, updates)] *)
Definition update_entry (entry_id : Z) (updates : updates_dict) : M string :=
  emit [UpdateRequest entry_id list_type_arg updates] ;;
  ret (update_response entry_id updates).

(** The resume gate at the top of the loop body. *)
Definition resume_gate (index : nat) (e : entry) : M unit :=
  triggered <- get_triggered ;;
  if negb triggered then
    match start_from with
    | Some title =>
        if negb (node_title e =? title) then
          print ("Skipped " ++ string_of_nat (index + 1)) ;;
          continue_
        else set_triggered true
    | None =>
        (* [entry_title != None] holds for every title *)
        print ("Skipped " ++ string_of_nat (index + 1)) ;;
        continue_
    end
  else ret tt.

(** The sanity check on the dates already on the entry. *)
Definition date_order_check (e : entry) : M unit :=
  if both_populated e then
    if str_gt (get_or_unknown (ls_start_date e)) (get_or_unknown (ls_finish_date e))
    then
      print "<<< Found an issue. Start date is after finish date" ;;
      input manual_fix_prompt ;;
      print separator ;;
      continue_
    else ret tt
  else ret tt.

Definition auto_skip_check (e : entry) : M unit :=
  if auto_skip then
    if negb (ls_status e =? "completed") then
      print "<<< Skipping entry as the status is not completed" ;;
      print separator ;;
      continue_
    else if both_populated e then
      print "<<< Skipping entry as the start and end date are already populated" ;;
      print separator ;;
      continue_
    else ret tt
  else ret tt.

(** "Determine best action and propose change to user": the value is
    [skip_flag]. *)
Definition propose (e : entry) (history : list hist) : M bool :=
  if negb (ls_status e =? "completed") then
    print "<<< Proposed change: Skip entry as the status is not completed" ;;
    ret true
  else if both_populated e then
    print "<<< Proposed change: Skip entry as the start and end date are already populated" ;;
    ret true
  else if (List.length history =? 0)%nat then
    print "<<< Found an issue. No history available" ;;
    input manual_fix_prompt ;;
    print separator ;;
    continue_
  else
    p <- determine_dates history ;;
    assign_dates p ;;
    print ("<<< Proposed change: Set start date to " ++ fst p
           ++ ". Set finish date to " ++ snd p) ;;
    ret false.

(** "Action user choice": the value is [updates]. *)
Definition action (user_choice : string) (skip_flag : bool) : M updates_dict :=
  let u := py_upper user_choice in
  if u =? "Y" then
    if skip_flag then
      print "<<< Skipping current entry as proposed change" ;;
      print separator ;;
      continue_
    else
      sd <- read_start_date ;;
      fd <- read_finish_date ;;
      ret [("start_date", sd); ("finish_date", fd)]
  else if u =? "F" then
    fd <- read_finish_date ;;
    ret [("finish_date", fd)]
  else if u =? "S" then
    print "<<< Skipping current entry on user request" ;;
    print separator ;;
    continue_
  else if u =? "X" then
    print "<<< Exiting date_fixer function" ;;
    print separator ;;
    break_
  else
    (* not reached: [await_choice] only yields Y, S, F or X; the source
       would read [updates] as left by an earlier iteration *)
    raise UnboundLocalError.

(** The part of the loop body after the resume gate. *)
Definition review (index : nat) (e : entry) : M unit :=
  print (entry_line index e) ;;
  date_order_check e ;;
  auto_skip_check e ;;
  history <- fetch_history (node_id e) ;;
  emit (map (fun h => Print (history_line h)) history) ;;
  emit [Sleep wait_time] ;;
  skip_flag <- propose e history ;;
  user_choice <- await_choice ;;
  updates <- action user_choice skip_flag ;;
  response <- update_entry (node_id e) updates ;;
  emit [PrintDict updates] ;;
  print ("<<< Sent proposed change as update request to MAL and received response code "
         ++ response) ;;
  print separator.

(** One iteration of [for index, entry in enumerate(user_list["data"])]. *)
Definition loop_body (index : nat) (e : entry) : M unit :=
  resume_gate index e ;;
  review index e.

Fixpoint entries_loop (index : nat) (data : list entry) : M unit :=
  match data with
  | [] => ret tt
  | e :: data' =>
      fun s =>
        match loop_body index e s with
        | (Val _, s') => entries_loop (S index) data' s'
        | (Continue, s') => entries_loop (S index) data' s'
        | (Break, s') => (Val tt, s')
        | (Exc x, s') => (Exc x, s')
        end
  end.

End DateFixer.

(** The locals before the loop: [start_from_triggered] is set when no
    [start_from] is given, the date locals are not bound yet. *)
Definition initial_state (start_from : option string) (lines : list string)
  : state :=
  {| start_from_triggered :=
       match start_from with None => true | Some _ => false end;
     start_date := None;
     finish_date := None;
     stdin := lines;
     out := [] |}.

(** [date_fixer(list_type, wait_time, auto_skip, start_from)], given what
    [get_anime_list()] or [get_manga_list()] yields and the lines that
    [input] will read: the events, and the exception if one ends the call. *)
Definition date_fixer (list_type_arg : list_type) (wait_time : nat)
  (auto_skip : bool) (start_from : option string)
  (history_page : Z -> fetched) (update_response : Z -> updates_dict -> string)
  (user_list : res (list entry)) (lines : list string)
  : list event * option exn :=
  match user_list with
  | Raise x => ([], Some x)
  | Ret data =>
      match entries_loop list_type_arg wait_time auto_skip start_from
              history_page update_response (List.length data) 0 data
              (initial_state start_from lines) with
      | (Exc x, s) => (out s, Some x)
      | (_, s) => ((out s ++ [Print "All done!"])%list, None)
      end
  end.

(** ** Notions used to state the properties *)

(** The state [s] once the events [ev] have happened and the unread input
    lines are [rest]. *)
Definition after (s : state) (rest : list string) (ev : list event) : state :=
  {| start_from_triggered := start_from_triggered s;
     start_date := start_date s;
     finish_date := finish_date s;
     stdin := rest;
     out := out s ++ ev |}.

(** [after], with the two date locals assigned. *)
Definition after_dates (s : state) (p : string * string)
  (rest : list string) (ev : list event) : state :=
  {| start_from_triggered := start_from_triggered s;
     start_date := Some (fst p);
     finish_date := Some (snd p);
     stdin := rest;
     out := out s ++ ev |}.

(** What [choice_loop] does with replies that it does not accept. *)
Definition retries (bad : list string) : list event :=
  flat_map (fun r => [Input choice_prompt (Some r);
                      Print ("<<< Did not understand input '" ++ r
                             ++ "'. Please try again")]) bad.

(** The line with which [propose] announces a skip. *)
Definition skip_proposal (e : entry) : string :=
  if negb (ls_status e =? "completed")
  then "<<< Proposed change: Skip entry as the status is not completed"
  else "<<< Proposed change: Skip entry as the start and end date are already populated".

(** The two date locals of a state. *)
Definition dates_of (s : state) : option string * option string :=
  (start_date s, finish_date s).

(** A computation that never assigns the two date locals. *)
Definition keeps {A : Type} (c : M A) : Prop :=
  forall s, dates_of (snd (c s)) = dates_of s.

(** The only way the date locals go from [d] to [d'] while the entry [e]
    is under review: not at all, or by the assignment of the pair that the
    engine returns for the history fetched for [e]. *)
Definition assigned_for (history_page : Z -> fetched) (e : entry)
  (d d' : option string * option string) : Prop :=
  d' = d \/
  exists h lines p,
    _get_entry_history (history_page (node_id e)) = Ret h /\
    _determine_dates h = (lines, Ret p) /\
    d' = (Some (fst p), Some (snd p)).

(** ** Sample data: the scenarios of the specification *)
Module Scenario.

(** The page behind scenario A, as the site words its records. *)
Definition page_A : fetched :=
  Divs ["Ep 3, watched on 01/05/2021 at 10:00";
        "Ep 2, watched on 01/04/2021 at 09:00";
        "Ep 1, watched on 01/03/2021 at 08:00"].

(** A page whose second record is not a history record. *)
Definition page_malformed : fetched :=
  Divs ["Ep 2, watched on 01/04/2021 at 09:00"; "garbage"].

(** Scenario B: completed, no dates. *)
Definition entry_B : entry :=
  {| node_id := 2; node_title := "Baccano"; ls_status := "completed";
     ls_start_date := None; ls_finish_date := None |}.

(** Scenario C: the start date is after the finish date. *)
Definition entry_C : entry :=
  {| node_id := 3; node_title := "Clannad"; ls_status := "completed";
     ls_start_date := Some "2020-05-01"; ls_finish_date := Some "2020-01-01" |}.

(** Scenario D: completed, with a start date and no finish date. *)
Definition entry_D : entry :=
  {| node_id := 4; node_title := "Dororo"; ls_status := "completed";
     ls_start_date := Some "2021-01-01"; ls_finish_date := None |}.

(** An entry that is not completed. *)
Definition entry_W : entry :=
  {| node_id := 5; node_title := "Working"; ls_status := "watching";
     ls_start_date := None; ls_finish_date := None |}.

Definition response_200 : Z -> updates_dict -> string :=
  fun _ _ => "<Response [200]>".

End Scenario.

(** ** Calendar dates and their texts

    What the date strings stand for: a calendar date and the three textual
    layouts that occur, used to state what [convert_wdate] does to a date. *)
Module Calendar.

Record date : Type := { year : nat; month : nat; day : nat }.

(** Years of at most four digits, months and days of at most two. *)
Definition printable (d : date) : Prop :=
  (year d < 100 * 100 /\ month d < 100 /\ day d < 100)%nat.

(** Chronological order. *)
Definition compare (a b : date) : comparison :=
  match Nat.compare (year a) (year b) with
  | Eq =>
      match Nat.compare (month a) (month b) with
      | Eq => Nat.compare (day a) (day b)
      | c => c
      end
  | c => c
  end.

Definition digit (n : nat) : ascii := ascii_of_nat (48 + n mod 10).

(** [n] in two, resp. four, decimal digits with leading zeros. *)
Definition pad2 (n : nat) : string :=
  String (digit (n / 10)) (String (digit n) EmptyString).

Definition pad4 (n : nat) : string := pad2 (n / 100) ++ pad2 (n mod 100).

(** month/day/year with a four-digit year, as [03/14/2013] *)
Definition mdy (d : date) : string :=
  pad2 (month d) ++ "/" ++ pad2 (day d) ++ "/" ++ pad4 (year d).

(** The same with any two characters [c1], [c2] as separators, as
    [03-14-2013] or [03.14.2013]. *)
Definition mdy_with (c1 c2 : ascii) (d : date) : string :=
  pad2 (month d) ++ String c1 (pad2 (day d) ++ String c2 (pad4 (year d))).

(** day/month/year with a two-digit year, as [14/03/13] *)
Definition dmy2 (d : date) : string :=
  pad2 (day d) ++ "/" ++ pad2 (month d) ++ "/" ++ pad2 (year d mod 100).

(** [YYYY-MM-DD] *)
Definition iso (d : date) : string :=
  pad4 (year d) ++ "-" ++ pad2 (month d) ++ "-" ++ pad2 (day d).

End Calendar.

(** Every count of [l] is an integer literal whose value satisfies [P]. *)
Definition keys_all (P : Z -> Prop) (l : list hist) : Prop :=
  Forall (fun x => exists k, py_int (h_count x) = Some k /\ P k) l.

(** ** Further notions *)

(** The text [s] has no space in it. *)
Fixpoint spaceless (s : string) : bool :=
  match s with
  | EmptyString => true
  | String c s' => negb (Ascii.eqb c " ") && spaceless s'
  end.

(** Update requests among the events. *)
Definition is_update (ev : event) : bool :=
  match ev with
  | UpdateRequest _ _ _ => true
  | _ => false
  end.

(** Events without an update request. *)
Definition quiet (evs : list event) : Prop :=
  Forall (fun ev => is_update ev = false) evs.

(** The state [s] with [start_from_triggered] set. *)
Definition opened (s : state) : state :=
  {| start_from_triggered := true;
     start_date := start_date s;
     finish_date := finish_date s;
     stdin := stdin s;
     out := out s |}.

(** The lines printed for [n] entries passed over before the resume
    point, the first of them at index [i]. *)
Definition skipped_lines (i n : nat) : list event :=
  map (fun k => Print ("Skipped " ++ string_of_nat (k + 1))) (seq i n).

(** A computation that never changes [start_from_triggered]. *)
Definition keeps_gate {A : Type} (c : M A) : Prop :=
  forall s, start_from_triggered (snd (c s)) = start_from_triggered s.

(** A computation that only adds events, none of them an update request. *)
Definition quiet_M {A : Type} (c : M A) : Prop :=
  forall s, exists ev, out (snd (c s)) = (out s ++ ev)%list /\ quiet ev.

(** The events of one iteration on the entry [e]: no update request at
    all, or a single one, for [e], directly after an accepted reply Y or F
    and followed by the three closing lines; its dictionary has the two
    dates after Y and the finish date alone after F. *)
Definition update_after_reply (ltype : list_type)
  (update_response : Z -> updates_dict -> string) (e : entry)
  (ev : list event) : Prop :=
  quiet ev \/
  exists pre c u,
    ev = (pre ++
          [Input choice_prompt (Some c);
           UpdateRequest (node_id e) ltype u;
           PrintDict u;
           Print ("<<< Sent proposed change as update request to MAL and received response code "
                  ++ update_response (node_id e) u);
           Print separator])%list /\
    quiet pre /\
    ((py_upper c = "Y" /\
      exists sd fd, u = [("start_date", sd); ("finish_date", fd)]) \/
     (py_upper c = "F" /\ exists fd, u = [("finish_date", fd)])).

(** An accepted reply Y or F. *)
Definition is_go_ahead (ev : event) : bool :=
  match ev with
  | Input _ (Some c) => (py_upper c =? "Y") || (py_upper c =? "F")
  | _ => false
  end.

(** Every update request of the trace comes directly after an accepted
    reply Y or F; [ok] tells whether the event before the trace was one. *)
Fixpoint guarded_from (ok : bool) (tr : list event) : bool :=
  match tr with
  | [] => true
  | ev :: tr' =>
      (if is_update ev then ok else true) && guarded_from (is_go_ahead ev) tr'
  end.

Definition guarded (tr : list event) : bool := guarded_from false tr.

(** The events of an iteration up to the proposal, for an entry whose
    history [h] was fetched. *)
Definition shown_before_proposal (ltype : list_type) (wait_time : nat)
  (entry_count index : nat) (e : entry) (h : list hist) : list event :=
  [Print (entry_line entry_count index e); HistoryRequest (node_id e) ltype]
  ++ map (fun x => Print (history_line ltype x)) h
  ++ [Sleep wait_time].

(** The line with which [auto_skip_check] passes over an entry. *)
Definition auto_skip_line (e : entry) : string :=
  if negb (ls_status e =? "completed")
  then "<<< Skipping entry as the status is not completed"
  else "<<< Skipping entry as the start and end date are already populated".

(** ** [MALUser] and the user table of [MALHelper] *)

(** The JSON document of a list, as far as [date_fixer] reads it: its
    ["data"] member. *)
Definition list_json : Type := list entry.

(** A [MALUser] object.  The two list attributes do not exist ([None])
    until the first successful fetch assigns them. *)
Record MALUser : Type := {
  user_name : string;
  user_headers : string;              (* the Authorization header *)
  my_anime_list : option list_json;
  my_manga_list : option list_json
}.

(** [requests.get(url, headers=self.headers)] *)
Inductive list_request : Type :=
| Get (url : string) (authorization : string).

Definition list_type_text (lt : list_type) : string :=
  match lt with
  | Anime => "anime"
  | Manga => "manga"
  end.

Definition list_url (name : string) (lt : list_type) (limit : Z) : string :=
  "https://api.myanimelist.net/v2/users/" ++ name ++ "/"
  ++ list_type_text lt ++ "list?fields=list_status&limit=" ++ string_of_Z limit.

(** [MALUser._get_list]: one request; [answer] is what the site returns
    to it, [Raise HTTPError] standing for a failing status. *)
Definition _get_list (u : MALUser) (lt : list_type) (limit : Z)
  (answer : res list_json) : list list_request * res list_json :=
  ([Get (list_url (user_name u) lt limit) (user_headers u)], answer).

(** [MALUser.get_anime_list]: the requests made, the value returned or
    the exception, and the object afterwards. *)
Definition get_anime_list (u : MALUser) (limit : Z) (overwrite : bool)
  (answer : res list_json) : list list_request * res list_json * MALUser :=
  match my_anime_list u, overwrite with
  | Some l, false => ([], Ret l, u)
  | _, _ =>
      match _get_list u Anime limit answer with
      | (reqs, Ret l) =>
          (reqs, Ret l,
           {| user_name := user_name u;
              user_headers := user_headers u;
              my_anime_list := Some l;
              my_manga_list := my_manga_list u |})
      | (reqs, Raise x) => (reqs, Raise x, u)
      end
  end.

(** [MALUser.get_manga_list] *)
Definition get_manga_list (u : MALUser) (limit : Z) (overwrite : bool)
  (answer : res list_json) : list list_request * res list_json * MALUser :=
  match my_manga_list u, overwrite with
  | Some l, false => ([], Ret l, u)
  | _, _ =>
      match _get_list u Manga limit answer with
      | (reqs, Ret l) =>
          (reqs, Ret l,
           {| user_name := user_name u;
              user_headers := user_headers u;
              my_anime_list := my_anime_list u;
              my_manga_list := Some l |})
      | (reqs, Raise x) => (reqs, Raise x, u)
      end
  end.

(** A [MALHelper] object; [user_lists] is a dictionary, in insertion
    order. *)
Record MALHelper : Type := {
  access_token : string;
  helper_headers : string;
  user_lists : list (string * MALUser)
}.

(** [MALHelper.__init__] *)
Definition new_helper (token : string) : MALHelper :=
  {| access_token := token;
     helper_headers := "Bearer " ++ token;
     user_lists := [] |}.

(** [MALUser(user_name, headers)] *)
Definition new_user (name authorization : string) : MALUser :=
  {| user_name := name;
     user_headers := authorization;
     my_anime_list := None;
     my_manga_list := None |}.

(** [d.get(name)] *)
Fixpoint lookup_user (name : string) (d : list (string * MALUser))
  : option MALUser :=
  match d with
  | [] => None
  | (n, u) :: d' => if n =? name then Some u else lookup_user name d'
  end.

(** [MALHelper.add_user] *)
Definition add_user (name : string) (H : MALHelper) : MALHelper :=
  match lookup_user name (user_lists H) with
  | None =>
      {| access_token := access_token H;
         helper_headers := helper_headers H;
         user_lists := user_lists H ++ [(name, new_user name (helper_headers H))] |}
  | Some _ => H
  end.

(** The dictionary after the object under the key [name] has been changed
    to [u]: the dictionary holds the object itself, so an assignment to
    one of its attributes shows there. *)
Fixpoint store_user (name : string) (u : MALUser)
  (d : list (string * MALUser)) : list (string * MALUser) :=
  match d with
  | [] => []
  | (n, v) :: d' =>
      if n =? name then (n, u) :: d' else (n, v) :: store_user name u d'
  end.

(** The method [date_fixer] on a helper object: [add_user("@me")], the
    list of the kind asked for, with the default limit and without
    [overwrite], then the review of [date_fixer].  [self.user_lists["@me"]]
    is there after [add_user]; the fresh object stands in the branch that
    is not reached. *)
Definition date_fixer_method (H : MALHelper) (list_type_arg : list_type)
  (wait_time : nat) (auto_skip : bool) (start_from : option string)
  (history_page : Z -> fetched) (update_response : Z -> updates_dict -> string)
  (answer : res list_json) (lines : list string)
  : list list_request * (list event * option exn) * MALHelper :=
  let H1 := add_user "@me" H in
  let u := match lookup_user "@me" (user_lists H1) with
           | Some u => u
           | None => new_user "@me" (helper_headers H1)
           end in
  let '(reqs, user_list, u') :=
    match list_type_arg with
    | Anime => get_anime_list u 1000 false answer
    | Manga => get_manga_list u 1000 false answer
    end in
  (reqs,
   date_fixer list_type_arg wait_time auto_skip start_from history_page
     update_response user_list lines,
   {| access_token := access_token H1;
      helper_headers := helper_headers H1;
      user_lists := store_user "@me" u' (user_lists H1) |}).

(** ** What an iteration leaves in the date locals *)

(** The pair that [propose] assigns to [start_date, finish_date] for the
    entry [e] with the fetched history [h], if it assigns one: the entry
    is completed, lacks a date, has a history, and the engine returns. *)
Definition inferred_of (e : entry) (h : list hist) : option (string * string) :=
  if negb (ls_status e =? "completed") then None
  else if both_populated e then None
  else if (List.length h =? 0)%nat then None
  else match snd (_determine_dates h) with
       | Ret p => Some p
       | Raise _ => None
       end.

(** The same for the whole review of [e]: nothing is assigned when the
    entry is flagged for its date order, skipped automatically, or when
    its history cannot be fetched. *)
Definition inferred_pair (auto_skip : bool) (history_page : Z -> fetched)
  (e : entry) : option (string * string) :=
  if both_populated e
     && str_gt (get_or_unknown (ls_start_date e)) (get_or_unknown (ls_finish_date e))
  then None
  else if auto_skip && (negb (ls_status e =? "completed") || both_populated e)
  then None
  else match _get_entry_history (history_page (node_id e)) with
       | Ret h => inferred_of e h
       | Raise _ => None
       end.

(** The local [finish_date] after iterations on the entries [before],
    from the value [d0]: the finish date inferred for the last of them
    that had one inferred. *)
Definition leftover_finish (auto_skip : bool) (history_page : Z -> fetched)
  (before : list entry) (d0 : option string) : option string :=
  fold_left
    (fun d e => match inferred_pair auto_skip history_page e with
                | Some p => Some (snd p)
                | None => d
                end)
    before d0.

(** The state in which the loop, started in [s] at [index], comes to the
    entry after [before]; [None] when it ends before that, by [break] or
    by an exception. *)
Fixpoint reach (list_type_arg : list_type) (wait_time : nat) (auto_skip : bool)
  (start_from : option string) (history_page : Z -> fetched)
  (update_response : Z -> updates_dict -> string) (entry_count index : nat)
  (before : list entry) (s : state) : option state :=
  match before with
  | [] => Some s
  | e :: before' =>
      match loop_body list_type_arg wait_time auto_skip start_from history_page
              update_response entry_count index e s with
      | (Val _, s') | (Continue, s') =>
          reach list_type_arg wait_time auto_skip start_from history_page
            update_response entry_count (S index) before' s'
      | _ => None
      end
  end.

(** A reply of ASCII characters only. *)
Fixpoint is_ascii (s : string) : bool :=
  match s with
  | EmptyString => true
  | String c s' => (nat_of_ascii c <? 128)%nat && is_ascii s'
  end.


(** * Properties *)

(** ** Python primitives *)

Lemma py_eq_refl (a : pyval) : py_eq a a = true.
Proof.
  destruct a as [z|s]; simpl.
  - apply Z.eqb_refl.
  - apply String.eqb_refl.
Qed.

Lemma py_eq_true (a b : pyval) : py_eq a b = true -> a = b.
Proof.
  destruct a as [x|s], b as [y|t]; simpl; try discriminate.
  - intros H. apply Z.eqb_eq in H. now subst.
  - intros H. apply String.eqb_eq in H. now subst.
Qed.

(** Two counts that differ as integers are not [==]. *)
Lemma py_eq_keys (a b : pyval) (x y : Z) :
  py_int a = Some x -> py_int b = Some y -> x <> y -> py_eq a b = false.
Proof.
  intros Ha Hb Hxy.
  destruct (py_eq a b) eqn:E; [|reflexivity].
  apply py_eq_true in E. subst b. congruence.
Qed.

(** ** The engine's two searches *)

Lemma keys_all_weaken (P Q : Z -> Prop) (l : list hist) :
  (forall k, P k -> Q k) -> keys_all P l -> keys_all Q l.
Proof.
  intros HPQ H. induction H as [|x l [k [Hk HP]] _ IH]; constructor; eauto.
Qed.

Lemma keys_all_app (P : Z -> Prop) (l1 l2 : list hist) :
  keys_all P (l1 ++ l2)%list <-> keys_all P l1 /\ keys_all P l2.
Proof. apply Forall_app. Qed.

Lemma min_loop_keep (l : list hist) (best : hist) (kbest : Z) :
  keys_all (fun k => kbest <= k)%Z l -> min_loop l best kbest = Ret best.
Proof.
  induction 1 as [|x l [k [Hk Hle]] _ IH]; simpl; [reflexivity|].
  rewrite Hk. destruct (Z.ltb_spec k kbest); [lia|assumption].
Qed.

Lemma min_loop_at (A : list hist) :
  forall (best : hist) (kbest : Z) (e : hist) (B : list hist) (m : Z),
    py_int (h_count e) = Some m -> (m < kbest)%Z ->
    keys_all (fun k => m < k)%Z A -> keys_all (fun k => m <= k)%Z B ->
    min_loop (A ++ e :: B) best kbest = Ret e.
Proof.
  induction A as [|x A IH]; intros best kbest e B m He Hlt HA HB; simpl.
  - rewrite He. destruct (Z.ltb_spec m kbest); [|lia].
    now apply min_loop_keep.
  - inversion HA as [|? ? [k [Hk Hmk]] HA']; subst. rewrite Hk.
    destruct (Z.ltb_spec k kbest); eapply IH; eauto.
Qed.

(** [min] returns the first element among those of least key. *)
Lemma py_min_at (A : list hist) (e : hist) (B : list hist) (m : Z) :
  py_int (h_count e) = Some m ->
  keys_all (fun k => m < k)%Z A -> keys_all (fun k => m <= k)%Z B ->
  py_min (A ++ e :: B) = Ret e.
Proof.
  intros He HA HB. destruct A as [|x A]; simpl.
  - rewrite He. now apply min_loop_keep.
  - inversion HA as [|? ? [k [Hk Hmk]] HA']; subst. rewrite Hk.
    eapply min_loop_at; eauto.
Qed.

Lemma max_loop_keep (l : list hist) (best : hist) (kbest : Z) :
  keys_all (fun k => k <= kbest)%Z l -> max_loop l best kbest = Ret best.
Proof.
  induction 1 as [|x l [k [Hk Hle]] _ IH]; simpl; [reflexivity|].
  rewrite Hk. destruct (Z.gtb_spec k kbest); [lia|assumption].
Qed.

Lemma max_loop_at (A : list hist) :
  forall (best : hist) (kbest : Z) (e : hist) (B : list hist) (m : Z),
    py_int (h_count e) = Some m -> (kbest < m)%Z ->
    keys_all (fun k => k < m)%Z A -> keys_all (fun k => k <= m)%Z B ->
    max_loop (A ++ e :: B) best kbest = Ret e.
Proof.
  induction A as [|x A IH]; intros best kbest e B m He Hlt HA HB; simpl.
  - rewrite He. destruct (Z.gtb_spec m kbest); [|lia].
    now apply max_loop_keep.
  - inversion HA as [|? ? [k [Hk Hmk]] HA']; subst. rewrite Hk.
    destruct (Z.gtb_spec k kbest); eapply IH; eauto.
Qed.

(** [max] returns the first element among those of greatest key. *)
Lemma py_max_at (A : list hist) (e : hist) (B : list hist) (m : Z) :
  py_int (h_count e) = Some m ->
  keys_all (fun k => k < m)%Z A -> keys_all (fun k => k <= m)%Z B ->
  py_max (A ++ e :: B) = Ret e.
Proof.
  intros He HA HB. destruct A as [|x A]; simpl.
  - rewrite He. now apply max_loop_keep.
  - inversion HA as [|? ? [k [Hk Hmk]] HA']; subst. rewrite Hk.
    eapply max_loop_at; eauto.
Qed.

(** A non-empty list of integer counts splits at its first least key, and
    at its first greatest key. *)
Lemma first_min_exists (l : list hist) :
  l <> [] -> keys_all (fun _ => True) l ->
  exists A e B m,
    l = (A ++ e :: B)%list /\ py_int (h_count e) = Some m /\
    keys_all (fun k => m < k)%Z A /\ keys_all (fun k => m <= k)%Z B.
Proof.
  induction l as [|x l IH]; intros Hne Hall; [congruence|].
  inversion Hall as [|? ? [k [Hk _]] Hl]; subst.
  destruct l as [|y l'].
  - exists [], x, [], k. repeat split; auto; constructor.
  - destruct IH as (A & e & B & m & Heq & He & HA & HB); [discriminate|assumption|].
    destruct (Z.leb_spec k m) as [Hle|Hgt].
    + exists [], x, (y :: l'), k. repeat split; auto; [constructor|].
      rewrite Heq. apply keys_all_app. split.
      * eapply keys_all_weaken; [|exact HA]. simpl. intros; lia.
      * constructor; [exists m; split; [assumption|lia]|].
        eapply keys_all_weaken; [|exact HB]. simpl. intros; lia.
    + exists (x :: A), e, B, m. rewrite Heq. repeat split; auto.
      constructor; [exists k; split; [assumption|lia]|assumption].
Qed.

Lemma first_max_exists (l : list hist) :
  l <> [] -> keys_all (fun _ => True) l ->
  exists A e B m,
    l = (A ++ e :: B)%list /\ py_int (h_count e) = Some m /\
    keys_all (fun k => k < m)%Z A /\ keys_all (fun k => k <= m)%Z B.
Proof.
  induction l as [|x l IH]; intros Hne Hall; [congruence|].
  inversion Hall as [|? ? [k [Hk _]] Hl]; subst.
  destruct l as [|y l'].
  - exists [], x, [], k. repeat split; auto; constructor.
  - destruct IH as (A & e & B & m & Heq & He & HA & HB); [discriminate|assumption|].
    destruct (Z.leb_spec m k) as [Hle|Hgt].
    + exists [], x, (y :: l'), k. repeat split; auto; [constructor|].
      rewrite Heq. apply keys_all_app. split.
      * eapply keys_all_weaken; [|exact HA]. simpl. intros; lia.
      * constructor; [exists m; split; [assumption|lia]|].
        eapply keys_all_weaken; [|exact HB]. simpl. intros; lia.
    + exists (x :: A), e, B, m. rewrite Heq. repeat split; auto.
      constructor; [exists k; split; [assumption|lia]|assumption].
Qed.

(** The first loop stops at the first element of least key. *)
Lemma start_loop_at (A : list hist) :
  forall (i : nat) (e : hist) (B : list hist) (m : Z),
    py_int (h_count e) = Some m -> keys_all (fun k => m < k)%Z A ->
    start_loop i (h_count e) (A ++ e :: B) = Some ((i + List.length A)%nat, e).
Proof.
  induction A as [|x A IH]; intros i e B m He HA; simpl.
  - rewrite py_eq_refl. do 2 f_equal. lia.
  - inversion HA as [|? ? [k [Hk Hmk]] HA']; subst.
    rewrite (py_eq_keys _ _ _ _ Hk He) by lia.
    rewrite (IH (S i) e B m He HA'). do 2 f_equal. lia.
Qed.

(** The second loop passes over everything before [start_date_index] ... *)
Lemma finish_loop_skip (A : list hist) :
  forall (j : nat) (c : pyval) (R : list hist),
    finish_loop j (j + List.length A) c (A ++ R)
    = finish_loop (j + List.length A) (j + List.length A) c R.
Proof.
  induction A as [|x A IH]; intros j c R; simpl.
  - now rewrite Nat.add_0_r.
  - destruct (Nat.ltb_spec j (j + S (List.length A))); [|lia].
    replace (j + S (List.length A))%nat with (S j + List.length A)%nat by lia.
    apply IH.
Qed.

(** ... and from there on is a plain search for the first [==]. *)
Lemma finish_loop_find (R : list hist) :
  forall (j idx : nat) (c : pyval),
    (idx <= j)%nat ->
    finish_loop j idx c R = find (fun x => py_eq (h_count x) c) R.
Proof.
  induction R as [|x R IH]; intros j idx c Hle; simpl; [reflexivity|].
  destruct (Nat.ltb_spec j idx); [lia|].
  destruct (py_eq (h_count x) c); [reflexivity|].
  apply IH. lia.
Qed.

(** The scan of a chronological list, given where its first least and its
    first greatest key are. *)
Lemma scan_dates_at (A B A' B' : list hist) (e eM : hist) (m M : Z) :
  py_int (h_count e) = Some m ->
  keys_all (fun k => m < k)%Z A -> keys_all (fun k => m <= k)%Z B ->
  py_int (h_count eM) = Some M ->
  keys_all (fun k => k < M)%Z A' -> keys_all (fun k => k <= M)%Z B' ->
  (A ++ e :: B)%list = (A' ++ eM :: B')%list ->
  scan_dates (A ++ e :: B) =
    match find (fun x => py_eq (h_count x) (h_count eM)) (e :: B) with
    | Some f =>
        ([earliest_msg (h_count e) (h_date e) (h_time e);
          latest_msg (h_count eM) (h_date f) (h_time f)],
         Ret (h_date e, h_date f))
    | None =>
        ([earliest_msg (h_count e) (h_date e) (h_time e)],
         Raise UnboundLocalError)
    end.
Proof.
  intros He HA HB HeM HA' HB' Heq. unfold scan_dates.
  rewrite (py_min_at A e B m He HA HB).
  assert (Hmax : py_max (A ++ e :: B) = Ret eM)
    by (rewrite Heq; exact (py_max_at A' eM B' M HeM HA' HB')).
  rewrite Hmax.
  rewrite (start_loop_at A 0 e B m He HA). cbn [Nat.add].
  pose proof (finish_loop_skip A 0 (h_count eM) (e :: B)) as Hskip.
  cbn [Nat.add] in Hskip. rewrite Hskip.
  rewrite finish_loop_find by lia.
  destruct (find _ (e :: B)); reflexivity.
Qed.

Lemma keys_all_rev (P : Z -> Prop) (l : list hist) :
  keys_all P l -> keys_all P (rev l).
Proof. apply Forall_rev. Qed.

Lemma find_count_skip (L R : list hist) (c : pyval) (M : Z) :
  py_int c = Some M -> keys_all (fun k => k < M)%Z L ->
  find (fun x => py_eq (h_count x) c) (L ++ R)
  = find (fun x => py_eq (h_count x) c) R.
Proof.
  intros Hc HL. induction HL as [|x L [k [Hk Hlt]] _ IH]; simpl; [reflexivity|].
  rewrite (py_eq_keys _ _ _ _ Hk Hc) by lia. exact IH.
Qed.

(** ** The date inference engine *)

(** C1 (as amended): a newest-first history [post ++ eM :: mid ++ em :: pre]
    in which [em] alone has the least count [m], [eM] alone has the
    greatest count [M], [m < M], and [eM] is more recent than [em]: the
    engine prints the date and time of both events and returns the date of
    [em] as start and the date of [eM] as finish. *)
Theorem determine_dates_unique_extremes
  (post mid pre : list hist) (eM em : hist) (m M : Z) :
  py_int (h_count em) = Some m ->
  py_int (h_count eM) = Some M ->
  (m < M)%Z ->
  keys_all (fun k => m < k < M)%Z (post ++ mid ++ pre) ->
  _determine_dates (post ++ eM :: mid ++ em :: pre) =
    ([earliest_msg (h_count em) (h_date em) (h_time em);
      latest_msg (h_count eM) (h_date eM) (h_time eM)],
     Ret (h_date em, h_date eM)).
Proof.
  intros Hm HM Hlt Hall.
  apply keys_all_app in Hall as [Hpost Hrest].
  apply keys_all_app in Hrest as [Hmid Hpre].
  apply keys_all_rev in Hpost, Hmid, Hpre.
  unfold _determine_dates.
  replace (rev (post ++ eM :: mid ++ em :: pre))
    with (rev pre ++ em :: (rev mid ++ eM :: rev post))%list.
  2:{ rewrite rev_app_distr. simpl. rewrite rev_app_distr. simpl.
      now rewrite <- !app_assoc. }
  rewrite (scan_dates_at (rev pre) (rev mid ++ eM :: rev post)
             (rev pre ++ em :: rev mid) (rev post) em eM m M); auto.
  - cbn [find]. rewrite (py_eq_keys _ _ _ _ Hm HM) by lia.
    rewrite (find_count_skip (rev mid) (eM :: rev post) (h_count eM) M HM).
    + cbn [find]. now rewrite py_eq_refl.
    + eapply keys_all_weaken; [|exact Hmid]. simpl. intros; lia.
  - eapply keys_all_weaken; [|exact Hpre]. simpl. intros; lia.
  - apply keys_all_app. split.
    + eapply keys_all_weaken; [|exact Hmid]. simpl. intros; lia.
    + constructor; [exists M; split; [assumption|lia]|].
      eapply keys_all_weaken; [|exact Hpost]. simpl. intros; lia.
  - apply keys_all_app. split.
    + eapply keys_all_weaken; [|exact Hpre]. simpl. intros; lia.
    + constructor; [exists m; split; [assumption|lia]|].
      eapply keys_all_weaken; [|exact Hmid]. simpl. intros; lia.
  - eapply keys_all_weaken; [|exact Hpost]. simpl. intros; lia.
  - now rewrite <- app_assoc.
Qed.

(** Scenario A of the specification. *)
Lemma determine_dates_scenario_A :
  _determine_dates
    [(PyInt 3, "2021-01-05", "10:00"); (PyInt 2, "2021-01-04", "09:00");
     (PyInt 1, "2021-01-03", "08:00")]
  = (["<<< Earliest episode/chapter 1 was first watched/read at 2021-01-03 08:00";
      "<<< Last episode/chapter 3 was first watched/read at 2021-01-05 10:00"],
     Ret ("2021-01-03", "2021-01-05")).
Proof.
  apply (determine_dates_unique_extremes
           [] [(PyInt 2, "2021-01-04", "09:00")] []
           (PyInt 3, "2021-01-05", "10:00") (PyInt 1, "2021-01-03", "08:00")
           1 3).
  - reflexivity.
  - reflexivity.
  - lia.
  - constructor; [|constructor]. exists 2%Z. split; [reflexivity|lia].
Defined.

(** C1 (as stated) fails: the two-event history below has the unique least
    count 1 and the unique greatest count 2, and the engine returns
    nothing: the event of count 2 is the older one, the second loop finds
    no finish and the second [print] raises. *)
Lemma determine_dates_max_before_min :
  py_int (h_count (PyInt 1, "2021-01-05", "10:00")) = Some 1%Z /\
  py_int (h_count (PyInt 2, "2021-01-04", "09:00")) = Some 2%Z /\
  (1 < 2)%Z /\
  _determine_dates
    [(PyInt 1, "2021-01-05", "10:00"); (PyInt 2, "2021-01-04", "09:00")]
  = (["<<< Earliest episode/chapter 1 was first watched/read at 2021-01-05 10:00"],
     Raise UnboundLocalError).
Proof. repeat split. Qed.

(** C5 (as amended): for a non-empty history of integer counts, read in
    chronological order ([rev h]), the start is the earliest event [e] of
    least count: every event before it has a greater count, so a later
    event of the same count is never chosen, and the first line printed
    names the date and time of [e].  The finish is the earliest event, at
    or after [e], whose count [==] that of the earliest event [eM] of
    greatest count, when there is one; an equal count before [e] is passed
    over. *)
Theorem determine_dates_earliest_instances (h : list hist) :
  h <> [] ->
  keys_all (fun _ => True) h ->
  exists (A : list hist) (e : hist) (B : list hist) (m : Z)
         (A' : list hist) (eM : hist) (B' : list hist) (M : Z),
    rev h = (A ++ e :: B)%list /\
    py_int (h_count e) = Some m /\
    keys_all (fun k => m < k)%Z A /\ keys_all (fun k => m <= k)%Z B /\
    rev h = (A' ++ eM :: B')%list /\
    py_int (h_count eM) = Some M /\
    keys_all (fun k => k < M)%Z A' /\ keys_all (fun k => k <= M)%Z B' /\
    hd_error (fst (_determine_dates h))
    = Some (earliest_msg (h_count e) (h_date e) (h_time e)) /\
    forall f : hist,
      find (fun x => py_eq (h_count x) (h_count eM)) (e :: B) = Some f ->
      _determine_dates h =
        ([earliest_msg (h_count e) (h_date e) (h_time e);
          latest_msg (h_count eM) (h_date f) (h_time f)],
         Ret (h_date e, h_date f)).
Proof.
  intros Hne Hall.
  assert (Hne' : rev h <> []).
  { intros E. apply (f_equal (@rev hist)) in E.
    rewrite rev_involutive in E. exact (Hne E). }
  apply keys_all_rev in Hall.
  destruct (first_min_exists (rev h) Hne' Hall) as (A & e & B & m & E1 & He & HA & HB).
  destruct (first_max_exists (rev h) Hne' Hall) as (A' & eM & B' & M & E2 & HeM & HA' & HB').
  exists A, e, B, m, A', eM, B', M.
  repeat (split; [assumption|]).
  assert (Hscan : _determine_dates h =
    match find (fun x => py_eq (h_count x) (h_count eM)) (e :: B) with
    | Some f =>
        ([earliest_msg (h_count e) (h_date e) (h_time e);
          latest_msg (h_count eM) (h_date f) (h_time f)],
         Ret (h_date e, h_date f))
    | None =>
        ([earliest_msg (h_count e) (h_date e) (h_time e)],
         Raise UnboundLocalError)
    end).
  { unfold _determine_dates. rewrite E1.
    apply (scan_dates_at A B A' B' e eM m M); auto.
    now rewrite <- E1. }
  rewrite Hscan. split.
  - destruct (find _ (e :: B)); reflexivity.
  - intros f Hf. now rewrite Hf.
Qed.

(** The least count 1 logged twice: the start is the older of the two. *)
Lemma determine_dates_earliest_instances_witness :
  exists (A : list hist) (e : hist) (B : list hist) (m : Z)
         (A' : list hist) (eM : hist) (B' : list hist) (M : Z),
    rev [(PyStr "2", "2021-01-06", "10:00"); (PyStr "1", "2021-01-05", "09:00");
         (PyStr "1", "2021-01-03", "08:00")] = (A ++ e :: B)%list /\
    py_int (h_count e) = Some m /\
    keys_all (fun k => m < k)%Z A /\ keys_all (fun k => m <= k)%Z B /\
    rev [(PyStr "2", "2021-01-06", "10:00"); (PyStr "1", "2021-01-05", "09:00");
         (PyStr "1", "2021-01-03", "08:00")] = (A' ++ eM :: B')%list /\
    py_int (h_count eM) = Some M /\
    keys_all (fun k => k < M)%Z A' /\ keys_all (fun k => k <= M)%Z B' /\
    hd_error (fst (_determine_dates
      [(PyStr "2", "2021-01-06", "10:00"); (PyStr "1", "2021-01-05", "09:00");
       (PyStr "1", "2021-01-03", "08:00")]))
    = Some (earliest_msg (h_count e) (h_date e) (h_time e)) /\
    forall f : hist,
      find (fun x => py_eq (h_count x) (h_count eM)) (e :: B) = Some f ->
      _determine_dates
        [(PyStr "2", "2021-01-06", "10:00"); (PyStr "1", "2021-01-05", "09:00");
         (PyStr "1", "2021-01-03", "08:00")] =
        ([earliest_msg (h_count e) (h_date e) (h_time e);
          latest_msg (h_count eM) (h_date f) (h_time f)],
         Ret (h_date e, h_date f)).
Proof.
  apply (determine_dates_earliest_instances
           [(PyStr "2", "2021-01-06", "10:00"); (PyStr "1", "2021-01-05", "09:00");
            (PyStr "1", "2021-01-03", "08:00")]).
  - discriminate.
  - repeat constructor; eexists; (split; [reflexivity|exact I]).
Defined.

(** What the engine does with that history. *)
Lemma determine_dates_repeated_minimum :
  _determine_dates
    [(PyStr "2", "2021-01-06", "10:00"); (PyStr "1", "2021-01-05", "09:00");
     (PyStr "1", "2021-01-03", "08:00")]
  = (["<<< Earliest episode/chapter 1 was first watched/read at 2021-01-03 08:00";
      "<<< Last episode/chapter 2 was first watched/read at 2021-01-06 10:00"],
     Ret ("2021-01-03", "2021-01-06")).
Proof. reflexivity. Qed.

(** C5 (as stated) fails for the finish: count 3 is logged on 2021-01-01
    and again on 2021-01-03, with the least count 1 in between; the
    earliest event of count 3 is the one of 2021-01-01, and the finish is
    2021-01-03. *)
Lemma determine_dates_finish_not_earliest :
  find (fun x => py_eq (h_count x) (PyInt 3))
    (rev [(PyInt 3, "2021-01-03", "12:00"); (PyInt 1, "2021-01-02", "12:00");
          (PyInt 3, "2021-01-01", "12:00")])
  = Some (PyInt 3, "2021-01-01", "12:00") /\
  snd (_determine_dates
         [(PyInt 3, "2021-01-03", "12:00"); (PyInt 1, "2021-01-02", "12:00");
          (PyInt 3, "2021-01-01", "12:00")])
  = Ret ("2021-01-02", "2021-01-03").
Proof. split; reflexivity. Qed.

(** C9: a call of the engine on a list object leaves every list object
    that existed before the call as it was, its outcome is a function of
    the value of its argument alone, and a second call on the same object
    gives the same lines and the same pair (or the same exception). *)
Theorem determine_dates_ref_pure (sigma : heap) (history : nat) :
  (history < next sigma)%nat ->
  (forall a, (a < next sigma)%nat ->
             cells (fst (_determine_dates_ref sigma history)) a = cells sigma a) /\
  snd (_determine_dates_ref sigma history) = _determine_dates (cells sigma history) /\
  snd (_determine_dates_ref (fst (_determine_dates_ref sigma history)) history)
  = snd (_determine_dates_ref sigma history).
Proof.
  intros Hlt. unfold _determine_dates_ref, alloc, _determine_dates. cbn.
  rewrite !Nat.eqb_refl.
  destruct (Nat.eqb_spec history (next sigma)) as [E|_]; [lia|].
  repeat split.
  intros a Ha. destruct (Nat.eqb_spec a (next sigma)); [lia|reflexivity].
Qed.

Lemma determine_dates_ref_pure_witness :
  let sigma :=
    {| cells := fun _ => [(PyInt 3, "2021-01-05", "10:00");
                          (PyInt 1, "2021-01-03", "08:00")];
       next := 1 |} in
  (forall a, (a < next sigma)%nat ->
             cells (fst (_determine_dates_ref sigma 0)) a = cells sigma a) /\
  snd (_determine_dates_ref sigma 0) = _determine_dates (cells sigma 0) /\
  snd (_determine_dates_ref (fst (_determine_dates_ref sigma 0)) 0)
  = snd (_determine_dates_ref sigma 0).
Proof.
  intros sigma. apply (determine_dates_ref_pure sigma 0). simpl. lia.
Defined.

(** C2: the code at the failing input.  The older event carries the
    greatest count, so no event at or after the start carries it: the
    engine prints the start line and raises, and [date_fixer] ends with
    that exception before the user is asked anything. *)
Lemma determine_dates_finish_unbound :
  _determine_dates
    [(PyStr "1", "2021-01-05", "10:00"); (PyStr "2", "2021-01-04", "09:00")]
  = (["<<< Earliest episode/chapter 1 was first watched/read at 2021-01-05 10:00"],
     Raise UnboundLocalError) /\
  date_fixer Anime 1 false None
    (fun _ => Divs ["Ep 1, watched on 01/05/2021 at 10:00";
                    "Ep 2, watched on 01/04/2021 at 09:00"])
    (fun _ _ => "<Response [200]>")
    (Ret [{| node_id := 7; node_title := "Akira"; ls_status := "completed";
             ls_start_date := None; ls_finish_date := None |}])
    ["Y"]
  = ([Print "1/1 [COMPLETED] Akira (7). Current start date: UNKNOWN. Current finish date: UNKNOWN.";
      HistoryRequest 7 Anime;
      Print "[2021-01-05 10:00] Watched episode 1";
      Print "[2021-01-04 09:00] Watched episode 2";
      Sleep 1;
      Print "<<< Earliest episode/chapter 1 was first watched/read at 2021-01-05 10:00"],
     Some UnboundLocalError).
Proof. split; reflexivity. Qed.

(** ** The review loop *)

Lemma choice_loop_retries (bad : list string) (c : string) (rest : list string) :
  Forall (fun r => is_choice r = false) bad -> is_choice c = true ->
  choice_loop (bad ++ c :: rest)
  = ((retries bad ++ [Input choice_prompt (Some c)])%list, Some (c, rest)).
Proof.
  intros Hbad Hc. induction Hbad as [|r bad Hr _ IH]; simpl.
  - now rewrite Hc.
  - rewrite Hr, IH. reflexivity.
Qed.

Lemma after_out_nil (s : state) : after s (stdin s) [] = s.
Proof. destruct s. unfold after. cbn. now rewrite app_nil_r. Qed.

Lemma after_after (s : state) (r1 r2 : list string) (ev1 ev2 : list event) :
  after (after s r1 ev1) r2 ev2 = after s r2 (ev1 ++ ev2).
Proof. unfold after. cbn. now rewrite app_assoc. Qed.

Lemma after_dates_after (s : state) (p : string * string)
  (r1 r2 : list string) (ev1 ev2 : list event) :
  after (after_dates s p r1 ev1) r2 ev2 = after_dates s p r2 (ev1 ++ ev2).
Proof. unfold after, after_dates. cbn. now rewrite app_assoc. Qed.

Lemma after_dates_of_after (s : state) (p : string * string)
  (r1 r2 : list string) (ev1 ev2 : list event) :
  after_dates (after s r1 ev1) p r2 ev2 = after_dates s p r2 (ev1 ++ ev2).
Proof. unfold after, after_dates. cbn. now rewrite app_assoc. Qed.

Lemma emit_after (ev : list event) (s : state) :
  emit ev s = (Val tt, after s (stdin s) ev).
Proof. reflexivity. Qed.

Lemma print_after (line : string) (s : state) :
  print line s = (Val tt, after s (stdin s) [Print line]).
Proof. reflexivity. Qed.

Lemma input_after (prompt : string) (s : state) :
  input prompt s =
    match stdin s with
    | [] => (Exc EOFError, after s [] [Input prompt None])
    | reply :: rest => (Val reply, after s rest [Input prompt (Some reply)])
    end.
Proof. unfold input. destruct (stdin s); reflexivity. Qed.

Lemma await_choice_retries (s : state) (bad : list string) (c : string)
  (rest : list string) :
  stdin s = (bad ++ c :: rest)%list ->
  Forall (fun r => is_choice r = false) bad -> is_choice c = true ->
  await_choice s
  = (Val c, after s rest (retries bad ++ [Input choice_prompt (Some c)])).
Proof.
  intros Hin Hbad Hc. unfold await_choice.
  now rewrite Hin, (choice_loop_retries bad c rest Hbad Hc).
Qed.

Lemma read_finish_date_after (s : state) :
  read_finish_date s =
    match finish_date s with
    | Some d => (Val d, s)
    | None => (Exc UnboundLocalError, s)
    end.
Proof. reflexivity. Qed.

Lemma stdin_after (s : state) (r : list string) (ev : list event) :
  stdin (after s r ev) = r.
Proof. reflexivity. Qed.

Lemma finish_date_after (s : state) (r : list string) (ev : list event) :
  finish_date (after s r ev) = finish_date s.
Proof. reflexivity. Qed.

Lemma start_date_after (s : state) (r : list string) (ev : list event) :
  start_date (after s r ev) = start_date s.
Proof. reflexivity. Qed.

Lemma stdin_after_dates (s : state) (p : string * string) (r : list string)
  (ev : list event) :
  stdin (after_dates s p r ev) = r.
Proof. reflexivity. Qed.

Lemma finish_date_after_dates (s : state) (p : string * string)
  (r : list string) (ev : list event) :
  finish_date (after_dates s p r ev) = Some (snd p).
Proof. reflexivity. Qed.

Lemma start_date_after_dates (s : state) (p : string * string)
  (r : list string) (ev : list event) :
  start_date (after_dates s p r ev) = Some (fst p).
Proof. reflexivity. Qed.

Create Rewrite HintDb review.
#[local] Hint Rewrite print_after emit_after after_after after_dates_after
  after_dates_of_after stdin_after finish_date_after start_date_after
  stdin_after_dates finish_date_after_dates start_date_after_dates : review.

(** One statement of the loop body at a time. *)
Ltac step_M := autorewrite with review; cbn [fst snd].

Section ReviewFacts.

Variable ltype : list_type.
Variable wait_time : nat.
Variable auto_skip : bool.
Variable history_page : Z -> fetched.
Variable update_response : Z -> updates_dict -> string.
Variable entry_count : nat.

Lemma date_order_check_pass (e : entry) (s : state) :
  both_populated e = false \/
  str_gt (get_or_unknown (ls_start_date e)) (get_or_unknown (ls_finish_date e)) = false ->
  date_order_check e s = (Val tt, s).
Proof.
  unfold date_order_check. intros [H|H]; rewrite H; [reflexivity|].
  destruct (both_populated e); reflexivity.
Qed.

Lemma auto_skip_check_pass (e : entry) (s : state) :
  auto_skip = false \/ (ls_status e = "completed" /\ both_populated e = false) ->
  auto_skip_check auto_skip e s = (Val tt, s).
Proof.
  unfold auto_skip_check. intros [H|[H1 H2]].
  - now rewrite H.
  - rewrite H1, H2. destruct auto_skip; reflexivity.
Qed.

Lemma fetch_history_after (entry_id : Z) (s : state) :
  fetch_history ltype history_page entry_id s =
    match _get_entry_history (history_page entry_id) with
    | Ret h => (Val h, after s (stdin s) [HistoryRequest entry_id ltype])
    | Raise x => (Exc x, after s (stdin s) [HistoryRequest entry_id ltype])
    end.
Proof.
  unfold fetch_history, bind. rewrite emit_after.
  destruct (_get_entry_history (history_page entry_id)); reflexivity.
Qed.

Lemma propose_infer (e : entry) (h : list hist) (lines : list string)
  (p : string * string) (s : state) :
  ls_status e = "completed" -> both_populated e = false -> h <> [] ->
  _determine_dates h = (lines, Ret p) ->
  propose e h s =
    (Val false,
     after_dates s p (stdin s)
       (map Print lines ++
        [Print ("<<< Proposed change: Set start date to " ++ fst p
                ++ ". Set finish date to " ++ snd p)])).
Proof.
  intros Hst Hpop Hne Hd. unfold propose, determine_dates.
  rewrite Hst, Hpop, Hd. cbn [String.eqb Ascii.eqb Bool.eqb negb].
  destruct h as [|h0 h']; [congruence|]. cbn [List.length Nat.eqb].
  unfold bind, lift_res, ret, assign_dates. step_M.
  unfold after_dates, after. cbn. now rewrite <- app_assoc.
Qed.

Lemma propose_skip (e : entry) (h : list hist) (s : state) :
  ls_status e <> "completed" \/ both_populated e = true ->
  propose e h s = (Val true, after s (stdin s) [Print (skip_proposal e)]).
Proof.
  intros H. unfold propose, skip_proposal.
  destruct (String.eqb_spec (ls_status e) "completed") as [E|E]; cbn [negb].
  - destruct H as [H|H]; [contradiction|]. rewrite H. reflexivity.
  - reflexivity.
Qed.

Lemma propose_no_history (e : entry) (s : state) :
  ls_status e = "completed" -> both_populated e = false ->
  propose e [] s =
    match stdin s with
    | [] =>
        (Exc EOFError,
         after s [] [Print "<<< Found an issue. No history available";
                     Input manual_fix_prompt None])
    | ack :: rest =>
        (Continue,
         after s rest [Print "<<< Found an issue. No history available";
                       Input manual_fix_prompt (Some ack);
                       Print separator])
    end.
Proof.
  intros Hst Hpop. unfold propose. rewrite Hst, Hpop.
  cbn [String.eqb Ascii.eqb Bool.eqb negb List.length Nat.eqb].
  unfold bind, continue_. step_M. rewrite input_after. step_M.
  destruct (stdin s); step_M; reflexivity.
Qed.

Lemma action_finish_only (user_choice : string) (skip_flag : bool) (s : state) :
  py_upper user_choice = "F" ->
  action user_choice skip_flag s =
    match finish_date s with
    | Some fd => (Val [("finish_date", fd)], s)
    | None => (Exc UnboundLocalError, s)
    end.
Proof.
  intros Hc. unfold action. rewrite Hc.
  cbn [String.eqb Ascii.eqb Bool.eqb]. unfold bind, ret.
  rewrite read_finish_date_after. destruct (finish_date s); reflexivity.
Qed.

(** The tail of the body, from the update request on. *)
Lemma submit_after (e : entry) (updates : updates_dict) (s : state) :
  (response <- update_entry ltype update_response (node_id e) updates ;;
   emit [PrintDict updates] ;;
   print ("<<< Sent proposed change as update request to MAL and received response code "
          ++ response) ;;
   print separator) s
  = (Val tt,
     after s (stdin s)
       [UpdateRequest (node_id e) ltype updates;
        PrintDict updates;
        Print ("<<< Sent proposed change as update request to MAL and received response code "
               ++ update_response (node_id e) updates);
        Print separator]).
Proof. unfold update_entry, bind, ret. step_M. reflexivity. Qed.

(** The head of the body, for an entry that reaches the proposal. *)
Lemma review_reaches_proposal (index : nat) (e : entry) (h : list hist)
  (s : state) :
  both_populated e = false \/
  str_gt (get_or_unknown (ls_start_date e)) (get_or_unknown (ls_finish_date e)) = false ->
  auto_skip = false \/ (ls_status e = "completed" /\ both_populated e = false) ->
  _get_entry_history (history_page (node_id e)) = Ret h ->
  review ltype wait_time auto_skip history_page update_response entry_count index e s
  = (skip_flag <- propose e h ;;
     user_choice <- await_choice ;;
     updates <- action user_choice skip_flag ;;
     response <- update_entry ltype update_response (node_id e) updates ;;
     emit [PrintDict updates] ;;
     print ("<<< Sent proposed change as update request to MAL and received response code "
            ++ response) ;;
     print separator)
      (after s (stdin s)
         ([Print (entry_line entry_count index e);
           HistoryRequest (node_id e) ltype]
          ++ map (fun x => Print (history_line ltype x)) h
          ++ [Sleep wait_time])).
Proof.
  intros Hord Hauto Hh. unfold review.
  unfold bind at 1. step_M.
  unfold bind at 1. rewrite date_order_check_pass by assumption.
  unfold bind at 1. rewrite auto_skip_check_pass by assumption.
  unfold bind at 1. rewrite fetch_history_after, Hh. step_M.
  unfold bind at 1. step_M.
  unfold bind at 1. step_M.
  reflexivity.
Qed.

(** C3: an entry under review whose two dates are both there, neither
    being the text that stands for a missing date, with the start date
    greater than the finish date as strings: whatever its status and
    whatever [auto_skip], the issue is printed, one line of input is
    awaited as acknowledgment and the loop goes on to the next entry,
    with no history request for the entry. *)
Theorem date_order_flag (index : nat) (e : entry) (s : state)
  (sd fd : string) :
  ls_start_date e = Some sd -> ls_finish_date e = Some fd ->
  sd <> "UNKNOWN" -> fd <> "UNKNOWN" -> str_gt sd fd = true ->
  review ltype wait_time auto_skip history_page update_response entry_count index e s =
    match stdin s with
    | ack :: rest =>
        (Continue,
         after s rest
           [Print (entry_line entry_count index e);
            Print "<<< Found an issue. Start date is after finish date";
            Input manual_fix_prompt (Some ack);
            Print separator])
    | [] =>
        (Exc EOFError,
         after s []
           [Print (entry_line entry_count index e);
            Print "<<< Found an issue. Start date is after finish date";
            Input manual_fix_prompt None])
    end.
Proof.
  intros Hs Hf Hsd Hfd Hgt.
  unfold review, date_order_check, both_populated.
  rewrite Hs, Hf. cbn [get_or_unknown].
  apply String.eqb_neq in Hsd, Hfd. rewrite Hsd, Hfd, Hgt. cbn [negb andb].
  unfold bind, continue_. step_M. rewrite input_after. step_M.
  destruct (stdin s); step_M; reflexivity.
Qed.

(** C4 (as amended): an entry under review with status [completed], not
    both dates populated, and an empty fetched history: the missing
    history is printed as an issue, one line of input is awaited as
    acknowledgment and the loop goes on to the next entry; the engine is
    not called. *)
Theorem empty_history_flag (index : nat) (e : entry) (s : state) :
  ls_status e = "completed" ->
  both_populated e = false ->
  _get_entry_history (history_page (node_id e)) = Ret [] ->
  review ltype wait_time auto_skip history_page update_response entry_count index e s =
    match stdin s with
    | ack :: rest =>
        (Continue,
         after s rest
           [Print (entry_line entry_count index e);
            HistoryRequest (node_id e) ltype;
            Sleep wait_time;
            Print "<<< Found an issue. No history available";
            Input manual_fix_prompt (Some ack);
            Print separator])
    | [] =>
        (Exc EOFError,
         after s []
           [Print (entry_line entry_count index e);
            HistoryRequest (node_id e) ltype;
            Sleep wait_time;
            Print "<<< Found an issue. No history available";
            Input manual_fix_prompt None])
    end.
Proof.
  intros Hst Hpop Hh.
  rewrite (review_reaches_proposal index e [] s) by auto.
  unfold bind at 1. rewrite propose_no_history by assumption. step_M.
  destruct (stdin s); step_M; reflexivity.
Qed.

(** C8: an entry under review for which the engine returned
    [(sd, fd)], and a user who, after any number of replies that are
    not understood, answers F or f: exactly one update request is sent,
    its dictionary has the single key [finish_date] with value [fd], and
    no key [start_date]. *)
Theorem finish_only_update (index : nat) (e : entry) (s : state)
  (h : list hist) (lines : list string) (sd fd : string)
  (bad : list string) (choice : string) (rest : list string) :
  ls_status e = "completed" ->
  both_populated e = false ->
  _get_entry_history (history_page (node_id e)) = Ret h ->
  h <> [] ->
  _determine_dates h = (lines, Ret (sd, fd)) ->
  stdin s = (bad ++ choice :: rest)%list ->
  Forall (fun r => is_choice r = false) bad ->
  py_upper choice = "F" ->
  review ltype wait_time auto_skip history_page update_response entry_count index e s =
    (Val tt,
     after_dates s (sd, fd) rest
       ([Print (entry_line entry_count index e);
         HistoryRequest (node_id e) ltype]
        ++ map (fun x => Print (history_line ltype x)) h
        ++ [Sleep wait_time]
        ++ map Print lines
        ++ [Print ("<<< Proposed change: Set start date to " ++ sd
                   ++ ". Set finish date to " ++ fd)]
        ++ retries bad
        ++ [Input choice_prompt (Some choice);
            UpdateRequest (node_id e) ltype [("finish_date", fd)];
            PrintDict [("finish_date", fd)];
            Print ("<<< Sent proposed change as update request to MAL and received response code "
                   ++ update_response (node_id e) [("finish_date", fd)]);
            Print separator])%list).
Proof.
  intros Hst Hpop Hh Hne Hd Hin Hbad Hc.
  assert (Hch : is_choice choice = true) by (unfold is_choice; now rewrite Hc).
  rewrite (review_reaches_proposal index e h s) by auto.
  unfold bind at 1.
  rewrite (propose_infer e h lines (sd, fd)) by assumption. step_M.
  unfold bind at 1.
  rewrite (await_choice_retries _ bad choice rest) by (step_M; assumption).
  step_M.
  unfold bind at 1. rewrite action_finish_only by assumption. step_M.
  rewrite submit_after. step_M.
  do 2 f_equal. rewrite <- !app_assoc. reflexivity.
Qed.

(** *** Which statements assign the date locals *)

Lemma keeps_ret {A : Type} (a : A) : keeps (ret a).
Proof. intros s. reflexivity. Qed.

Lemma keeps_emit (ev : list event) : keeps (emit ev).
Proof. intros s. reflexivity. Qed.

Lemma keeps_input (prompt : string) : keeps (input prompt).
Proof. intros s. unfold input. destruct (stdin s); reflexivity. Qed.

Lemma keeps_continue {A : Type} : keeps (@continue_ A).
Proof. intros s. reflexivity. Qed.

Lemma keeps_break {A : Type} : keeps (@break_ A).
Proof. intros s. reflexivity. Qed.

Lemma keeps_raise {A : Type} (x : exn) : keeps (@raise A x).
Proof. intros s. reflexivity. Qed.

Lemma keeps_lift_res {A : Type} (r : res A) : keeps (lift_res r).
Proof. intros s. destruct r; reflexivity. Qed.

Lemma keeps_get_triggered : keeps get_triggered.
Proof. intros s. reflexivity. Qed.

Lemma keeps_set_triggered (b : bool) : keeps (set_triggered b).
Proof. intros s. reflexivity. Qed.

Lemma keeps_read_start_date : keeps read_start_date.
Proof. intros s. unfold read_start_date. destruct (start_date s); reflexivity. Qed.

Lemma keeps_read_finish_date : keeps read_finish_date.
Proof. intros s. unfold read_finish_date. destruct (finish_date s); reflexivity. Qed.

Lemma keeps_await_choice : keeps await_choice.
Proof.
  intros s. unfold await_choice.
  destruct (choice_loop (stdin s)) as [ev [[c rest]|]]; reflexivity.
Qed.

Lemma keeps_bind {A B : Type} (c : M A) (k : A -> M B) :
  keeps c -> (forall a, keeps (k a)) -> keeps (bind c k).
Proof.
  intros Hc Hk s. unfold bind. specialize (Hc s).
  destruct (c s) as [[a| | |x] s']; cbn [snd] in *; try assumption.
  now rewrite Hk.
Qed.

Ltac keeps_M :=
  repeat first
    [ apply keeps_bind
    | match goal with |- forall _, keeps _ => intro; cbv beta end
    | apply keeps_ret | apply keeps_emit
    | apply keeps_input | apply keeps_continue | apply keeps_break
    | apply keeps_raise | apply keeps_lift_res | apply keeps_get_triggered
    | apply keeps_set_triggered | apply keeps_read_start_date
    | apply keeps_read_finish_date | apply keeps_await_choice
    | match goal with
      | |- keeps (if ?b then _ else _) => destruct b
      | |- keeps (match ?x with _ => _ end) => destruct x
      end ].

Lemma keeps_date_order_check (e : entry) : keeps (date_order_check e).
Proof. unfold date_order_check, print. keeps_M. Qed.

Lemma keeps_auto_skip_check (e : entry) : keeps (auto_skip_check auto_skip e).
Proof. unfold auto_skip_check, print. keeps_M. Qed.

Lemma keeps_action (user_choice : string) (skip_flag : bool) :
  keeps (action user_choice skip_flag).
Proof. unfold action, print. keeps_M. Qed.

Lemma keeps_update_entry (entry_id : Z) (updates : updates_dict) :
  keeps (update_entry ltype update_response entry_id updates).
Proof. unfold update_entry. keeps_M. Qed.

Lemma keeps_resume_gate (start_from : option string) (index : nat) (e : entry) :
  keeps (resume_gate start_from index e).
Proof. unfold resume_gate, print. keeps_M. Qed.

Lemma assigned_bind_l {A B : Type} (e : entry) (c : M A) (k : A -> M B) :
  keeps c ->
  (forall a s', assigned_for history_page e (dates_of s') (dates_of (snd (k a s')))) ->
  forall s, assigned_for history_page e (dates_of s) (dates_of (snd (bind c k s))).
Proof.
  intros Hc Hk s. unfold bind. specialize (Hc s).
  destruct (c s) as [[a| | |x] s']; cbn [snd] in *;
    try (left; assumption).
  rewrite <- Hc. apply Hk.
Qed.

Lemma assigned_bind_r {A B : Type} (e : entry) (c : M A) (k : A -> M B)
  (d : option string * option string) (s : state) :
  (forall a, keeps (k a)) ->
  assigned_for history_page e d (dates_of (snd (c s))) ->
  assigned_for history_page e d (dates_of (snd (bind c k s))).
Proof.
  intros Hk Hc. unfold bind.
  destruct (c s) as [[a| | |x] s']; cbn [snd] in *; try assumption.
  now rewrite Hk.
Qed.

Lemma assigned_propose (e : entry) (h : list hist) (s : state) :
  _get_entry_history (history_page (node_id e)) = Ret h ->
  assigned_for history_page e (dates_of s) (dates_of (snd (propose e h s))).
Proof.
  intros Hh. unfold propose.
  destruct (negb (ls_status e =? "completed")); [left; reflexivity|].
  destruct (both_populated e); [left; reflexivity|].
  destruct (List.length h =? 0)%nat.
  - left. revert s. unfold print. keeps_M.
  - unfold determine_dates.
    destruct (_determine_dates h) as [lines [p|x]] eqn:Hd.
    + right. exists h, lines, p. repeat split; try assumption.
    + left. reflexivity.
Qed.

(** Over one iteration of the loop the date locals are left as they
    were, or receive the pair inferred for the entry of that iteration. *)
Lemma loop_body_assigns (start_from : option string) (index : nat)
  (e : entry) (s : state) :
  assigned_for history_page e (dates_of s)
    (dates_of (snd (loop_body ltype wait_time auto_skip start_from history_page
                      update_response entry_count index e s))).
Proof.
  revert s. unfold loop_body.
  apply assigned_bind_l; [apply keeps_resume_gate|]. intros _.
  unfold review.
  apply assigned_bind_l; [apply keeps_emit|]. intros _.
  apply assigned_bind_l; [apply keeps_date_order_check|]. intros _.
  apply assigned_bind_l; [apply keeps_auto_skip_check|]. intros _ s.
  unfold bind at 1. rewrite fetch_history_after.
  destruct (_get_entry_history (history_page (node_id e))) as [h|x] eqn:Hh;
    [|left; reflexivity].
  change (dates_of s) with
    (dates_of (after s (stdin s) [HistoryRequest (node_id e) ltype])).
  generalize (after s (stdin s) [HistoryRequest (node_id e) ltype]). clear s.
  apply assigned_bind_l; [apply keeps_emit|]. intros _.
  apply assigned_bind_l; [apply keeps_emit|]. intros _ s.
  apply assigned_bind_r; [|now apply assigned_propose].
  intros skip_flag.
  apply keeps_bind; [apply keeps_await_choice|]. intros user_choice.
  apply keeps_bind; [apply keeps_action|]. intros updates.
  apply keeps_bind; [apply keeps_update_entry|]. intros response.
  unfold print. keeps_M.
Qed.

(** One iteration of the loop: an entry whose proposal is a skip (status other
    than [completed], or both dates populated), and a user who
    answers F or f.  The entry is not skipped.  If the local
    [finish_date] is bound, an update request with that value under the
    key [finish_date] is sent for this entry, whatever this entry's
    history is; if it is unbound, the dictionary literal raises.  The
    local is bound only by the inference of an earlier iteration: every
    iteration leaves it as it was or assigns the pair inferred for its
    own entry. *)
Theorem finish_only_on_skip_proposal (index : nat) (e : entry) (s : state)
  (h : list hist) (bad : list string) (choice : string) (rest : list string) :
  ls_status e <> "completed" \/ both_populated e = true ->
  both_populated e = false \/
  str_gt (get_or_unknown (ls_start_date e)) (get_or_unknown (ls_finish_date e)) = false ->
  auto_skip = false ->
  _get_entry_history (history_page (node_id e)) = Ret h ->
  stdin s = (bad ++ choice :: rest)%list ->
  Forall (fun r => is_choice r = false) bad ->
  py_upper choice = "F" ->
  review ltype wait_time auto_skip history_page update_response entry_count index e s =
    match finish_date s with
    | Some fd =>
        (Val tt,
         after s rest
           ([Print (entry_line entry_count index e);
             HistoryRequest (node_id e) ltype]
            ++ map (fun x => Print (history_line ltype x)) h
            ++ [Sleep wait_time; Print (skip_proposal e)]
            ++ retries bad
            ++ [Input choice_prompt (Some choice);
                UpdateRequest (node_id e) ltype [("finish_date", fd)];
                PrintDict [("finish_date", fd)];
                Print ("<<< Sent proposed change as update request to MAL and received response code "
                       ++ update_response (node_id e) [("finish_date", fd)]);
                Print separator])%list)
    | None =>
        (Exc UnboundLocalError,
         after s rest
           ([Print (entry_line entry_count index e);
             HistoryRequest (node_id e) ltype]
            ++ map (fun x => Print (history_line ltype x)) h
            ++ [Sleep wait_time; Print (skip_proposal e)]
            ++ retries bad
            ++ [Input choice_prompt (Some choice)])%list)
    end
  /\
  (forall start_from index' e' s',
      assigned_for history_page e' (dates_of s')
        (dates_of (snd (loop_body ltype wait_time auto_skip start_from
                          history_page update_response entry_count
                          index' e' s')))).
Proof.
  intros Hskip Hord Hauto Hh Hin Hbad Hc.
  split; [|intros; apply loop_body_assigns].
  assert (Hch : is_choice choice = true) by (unfold is_choice; now rewrite Hc).
  rewrite (review_reaches_proposal index e h s) by auto.
  unfold bind at 1. rewrite propose_skip by assumption. step_M.
  unfold bind at 1.
  rewrite (await_choice_retries _ bad choice rest) by (step_M; assumption).
  step_M.
  unfold bind at 1. rewrite action_finish_only by assumption. step_M.
  destruct (finish_date s) as [fd|].
  - rewrite submit_after. step_M.
    do 2 f_equal. rewrite <- !app_assoc. reflexivity.
  - do 2 f_equal. rewrite <- !app_assoc. reflexivity.
Qed.

(** *** A record with too few tokens *)

Lemma clean_record_short (line : string) :
  (List.length (split_on " " line) < 7)%nat ->
  clean_record line = Raise IndexError.
Proof.
  intros Hlen. unfold clean_record.
  assert (H6 : nth_error (split_on " " line) 6 = None)
    by (apply nth_error_None; lia).
  rewrite H6. destruct (nth_error (split_on " " line) 4); reflexivity.
Qed.

Lemma clean_record_raises (line : string) (x : exn) :
  clean_record line = Raise x -> x = IndexError.
Proof.
  unfold clean_record.
  destruct (nth_error (split_on " " line) 4); [|congruence].
  destruct (nth_error (split_on " " line) 6); [|congruence].
  destruct (nth_error (split_on " " line) 1); congruence.
Qed.

Lemma clean_history_short (texts : list string) :
  Exists (fun line => (List.length (split_on " " line) < 7)%nat) texts ->
  clean_history texts = Raise IndexError.
Proof.
  induction 1 as [line texts Hshort|line texts _ IH]; simpl.
  - now rewrite clean_record_short.
  - destruct (clean_record line) as [r|x] eqn:E.
    + now rewrite IH.
    + now rewrite (clean_record_raises line x E).
Qed.

Lemma loop_body_open (start_from : option string) (index : nat) (e : entry)
  (s : state) :
  start_from_triggered s = true ->
  loop_body ltype wait_time auto_skip start_from history_page update_response
    entry_count index e s
  = review ltype wait_time auto_skip history_page update_response entry_count
      index e s.
Proof.
  intros H. unfold loop_body, resume_gate, get_triggered.
  unfold bind at 1 2. rewrite H. reflexivity.
Qed.

(** C7 (as amended): a fetched page with a record of fewer than seven
    space-separated tokens makes the normalizer raise [IndexError] for
    the whole fetch: no record is dropped and no partial history is
    returned.  The review loop does not handle the exception: for an
    entry that reaches the fetch, the session ends there with
    [IndexError], the missing-history flag is not raised and the entries
    after it are not reviewed. *)
Theorem malformed_record_ends_session (start_from : option string)
  (index : nat) (e : entry) (more : list entry) (s : state)
  (texts : list string) :
  Exists (fun line => (List.length (split_on " " line) < 7)%nat) texts ->
  history_page (node_id e) = Divs texts ->
  start_from_triggered s = true ->
  both_populated e = false \/
  str_gt (get_or_unknown (ls_start_date e)) (get_or_unknown (ls_finish_date e)) = false ->
  auto_skip = false \/ (ls_status e = "completed" /\ both_populated e = false) ->
  _get_entry_history (Divs texts) = Raise IndexError /\
  entries_loop ltype wait_time auto_skip start_from history_page update_response
    entry_count index (e :: more) s
  = (Exc IndexError,
     after s (stdin s)
       [Print (entry_line entry_count index e);
        HistoryRequest (node_id e) ltype]).
Proof.
  intros Hshort Hpage Hopen Hord Hauto.
  assert (Hraise : _get_entry_history (Divs texts) = Raise IndexError)
    by (apply clean_history_short; assumption).
  split; [assumption|].
  cbn [entries_loop]. rewrite loop_body_open by assumption.
  unfold review.
  unfold bind at 1. step_M.
  unfold bind at 1. rewrite date_order_check_pass by assumption.
  unfold bind at 1. rewrite auto_skip_check_pass by assumption.
  unfold bind at 1. rewrite fetch_history_after, Hpage, Hraise. step_M.
  reflexivity.
Qed.

End ReviewFacts.

(** *** The scenarios *)

(** Scenario C, with [auto_skip] set. *)
Lemma date_order_flag_scenario_C :
  review Anime 1 true (fun _ => Divs []) Scenario.response_200 1 0
    Scenario.entry_C (initial_state None ["ok"])
  = (Continue,
     after (initial_state None ["ok"]) []
       [Print "1/1 [COMPLETED] Clannad (3). Current start date: 2020-05-01. Current finish date: 2020-01-01.";
        Print "<<< Found an issue. Start date is after finish date";
        Input manual_fix_prompt (Some "ok");
        Print separator]).
Proof.
  apply (date_order_flag Anime 1 true (fun _ => Divs []) Scenario.response_200
           1 0 Scenario.entry_C (initial_state None ["ok"])
           "2020-05-01" "2020-01-01").
  - reflexivity.
  - reflexivity.
  - discriminate.
  - discriminate.
  - reflexivity.
Defined.

(** Scenario B. *)
Lemma empty_history_flag_scenario_B :
  review Anime 1 false (fun _ => Divs []) Scenario.response_200 1 0
    Scenario.entry_B (initial_state None ["ok"])
  = (Continue,
     after (initial_state None ["ok"]) []
       [Print "1/1 [COMPLETED] Baccano (2). Current start date: UNKNOWN. Current finish date: UNKNOWN.";
        HistoryRequest 2 Anime;
        Sleep 1;
        Print "<<< Found an issue. No history available";
        Input manual_fix_prompt (Some "ok");
        Print separator]).
Proof.
  apply (empty_history_flag Anime 1 false (fun _ => Divs [])
           Scenario.response_200 1 0 Scenario.entry_B
           (initial_state None ["ok"])); reflexivity.
Defined.

(** C4 (as stated) fails: the history fetched for an entry that is not
    completed is empty, and the outcome is the skip proposal, followed by
    the question to the user; no issue is flagged. *)
Lemma empty_history_not_flagged :
  _get_entry_history (Divs []) = Ret [] /\
  date_fixer Anime 1 false None (fun _ => Divs []) Scenario.response_200
    (Ret [Scenario.entry_W]) ["S"]
  = ([Print "1/1 [WATCHING] Working (5). Current start date: UNKNOWN. Current finish date: UNKNOWN.";
      HistoryRequest 5 Anime;
      Sleep 1;
      Print "<<< Proposed change: Skip entry as the status is not completed";
      Input choice_prompt (Some "S");
      Print "<<< Skipping current entry on user request";
      Print separator;
      Print "All done!"],
     None).
Proof. split; reflexivity. Qed.

(** Scenario D. *)
Lemma finish_only_update_scenario_D :
  review Anime 1 false (fun _ => Scenario.page_A) Scenario.response_200 1 0
    Scenario.entry_D (initial_state None ["F"])
  = (Val tt,
     after_dates (initial_state None ["F"]) ("2021-01-03", "2021-01-05") []
       [Print "1/1 [COMPLETED] Dororo (4). Current start date: 2021-01-01. Current finish date: UNKNOWN.";
        HistoryRequest 4 Anime;
        Print "[2021-01-05 10:00] Watched episode 3";
        Print "[2021-01-04 09:00] Watched episode 2";
        Print "[2021-01-03 08:00] Watched episode 1";
        Sleep 1;
        Print "<<< Earliest episode/chapter 1 was first watched/read at 2021-01-03 08:00";
        Print "<<< Last episode/chapter 3 was first watched/read at 2021-01-05 10:00";
        Print "<<< Proposed change: Set start date to 2021-01-03. Set finish date to 2021-01-05";
        Input choice_prompt (Some "F");
        UpdateRequest 4 Anime [("finish_date", "2021-01-05")];
        PrintDict [("finish_date", "2021-01-05")];
        Print "<<< Sent proposed change as update request to MAL and received response code <Response [200]>";
        Print separator]).
Proof.
  apply (finish_only_update Anime 1 false (fun _ => Scenario.page_A)
           Scenario.response_200 1 0 Scenario.entry_D
           (initial_state None ["F"])
           [(PyStr "3", "2021-01-05", "10:00"); (PyStr "2", "2021-01-04", "09:00");
            (PyStr "1", "2021-01-03", "08:00")]
           ["<<< Earliest episode/chapter 1 was first watched/read at 2021-01-03 08:00";
            "<<< Last episode/chapter 3 was first watched/read at 2021-01-05 10:00"]
           "2021-01-03" "2021-01-05" [] "F" []).
  - reflexivity.
  - reflexivity.
  - reflexivity.
  - discriminate.
  - reflexivity.
  - reflexivity.
  - constructor.
  - reflexivity.
Defined.

(** F on a skip proposal, with a finish date left in the local. *)
Lemma finish_only_on_skip_proposal_witness :
  review Anime 1 false (fun _ => Divs []) Scenario.response_200 2 1
    Scenario.entry_W
    (after_dates (initial_state None ["F"]) ("2021-01-03", "2021-01-05") ["F"] [])
  = (Val tt,
     after_dates (initial_state None ["F"]) ("2021-01-03", "2021-01-05") []
       [Print "2/2 [WATCHING] Working (5). Current start date: UNKNOWN. Current finish date: UNKNOWN.";
        HistoryRequest 5 Anime;
        Sleep 1;
        Print "<<< Proposed change: Skip entry as the status is not completed";
        Input choice_prompt (Some "F");
        UpdateRequest 5 Anime [("finish_date", "2021-01-05")];
        PrintDict [("finish_date", "2021-01-05")];
        Print "<<< Sent proposed change as update request to MAL and received response code <Response [200]>";
        Print separator]).
Proof.
  refine (proj1 (finish_only_on_skip_proposal Anime 1 false (fun _ => Divs [])
                   Scenario.response_200 2 1 Scenario.entry_W
                   (after_dates (initial_state None ["F"])
                      ("2021-01-03", "2021-01-05") ["F"] [])
                   [] [] "F" [] _ _ _ _ _ _ _)).
  - left. discriminate.
  - left. reflexivity.
  - reflexivity.
  - reflexivity.
  - reflexivity.
  - constructor.
  - reflexivity.
Defined.

(** Two sessions: the finish date inferred for the first entry is sent for
    the second, which is not completed; and, with the second entry alone,
    the F answer ends the session with the exception. *)
Lemma finish_only_leftover_sessions :
  date_fixer Anime 1 false None
    (fun z => if (z =? 4)%Z then Scenario.page_A else Divs [])
    Scenario.response_200 (Ret [Scenario.entry_D; Scenario.entry_W]) ["S"; "F"]
  = ([Print "1/2 [COMPLETED] Dororo (4). Current start date: 2021-01-01. Current finish date: UNKNOWN.";
      HistoryRequest 4 Anime;
      Print "[2021-01-05 10:00] Watched episode 3";
      Print "[2021-01-04 09:00] Watched episode 2";
      Print "[2021-01-03 08:00] Watched episode 1";
      Sleep 1;
      Print "<<< Earliest episode/chapter 1 was first watched/read at 2021-01-03 08:00";
      Print "<<< Last episode/chapter 3 was first watched/read at 2021-01-05 10:00";
      Print "<<< Proposed change: Set start date to 2021-01-03. Set finish date to 2021-01-05";
      Input choice_prompt (Some "S");
      Print "<<< Skipping current entry on user request";
      Print separator;
      Print "2/2 [WATCHING] Working (5). Current start date: UNKNOWN. Current finish date: UNKNOWN.";
      HistoryRequest 5 Anime;
      Sleep 1;
      Print "<<< Proposed change: Skip entry as the status is not completed";
      Input choice_prompt (Some "F");
      UpdateRequest 5 Anime [("finish_date", "2021-01-05")];
      PrintDict [("finish_date", "2021-01-05")];
      Print "<<< Sent proposed change as update request to MAL and received response code <Response [200]>";
      Print separator;
      Print "All done!"],
     None) /\
  date_fixer Anime 1 false None (fun _ => Divs []) Scenario.response_200
    (Ret [Scenario.entry_W]) ["F"]
  = ([Print "1/1 [WATCHING] Working (5). Current start date: UNKNOWN. Current finish date: UNKNOWN.";
      HistoryRequest 5 Anime;
      Sleep 1;
      Print "<<< Proposed change: Skip entry as the status is not completed";
      Input choice_prompt (Some "F")],
     Some UnboundLocalError).
Proof. split; reflexivity. Qed.

(** A malformed record on the page of the first of two entries. *)
Lemma malformed_record_ends_session_witness :
  _get_entry_history Scenario.page_malformed = Raise IndexError /\
  entries_loop Anime 1 false None (fun _ => Scenario.page_malformed)
    Scenario.response_200 2 0 [Scenario.entry_B; Scenario.entry_W]
    (initial_state None ["Y"; "Y"])
  = (Exc IndexError,
     after (initial_state None ["Y"; "Y"]) ["Y"; "Y"]
       [Print "1/2 [COMPLETED] Baccano (2). Current start date: UNKNOWN. Current finish date: UNKNOWN.";
        HistoryRequest 2 Anime]).
Proof.
  apply (malformed_record_ends_session Anime 1 false
           (fun _ => Scenario.page_malformed) Scenario.response_200 2 None 0
           Scenario.entry_B [Scenario.entry_W] (initial_state None ["Y"; "Y"])
           ["Ep 2, watched on 01/04/2021 at 09:00"; "garbage"]).
  - apply Exists_cons_tl, Exists_cons_hd. simpl. lia.
  - reflexivity.
  - reflexivity.
  - left. reflexivity.
  - left. reflexivity.
Defined.

(** C7 (as stated) fails: with the malformed record on the page of the
    first entry, the session ends with [IndexError] right after the
    request; the missing-history issue is not raised, nothing is asked and
    the second entry is not reviewed. *)
Lemma malformed_record_not_flagged :
  date_fixer Anime 1 false None (fun _ => Scenario.page_malformed)
    Scenario.response_200 (Ret [Scenario.entry_B; Scenario.entry_W]) ["Y"; "Y"]
  = ([Print "1/2 [COMPLETED] Baccano (2). Current start date: UNKNOWN. Current finish date: UNKNOWN.";
      HistoryRequest 2 Anime],
     Some IndexError).
Proof. reflexivity. Qed.

(** ** The normalizer's dates *)

Lemma digit_compare (a b : nat) :
  Ascii.compare (Calendar.digit a) (Calendar.digit b)
  = Nat.compare (a mod 10) (b mod 10).
Proof.
  unfold Calendar.digit.
  pose proof (Nat.mod_upper_bound a 10 ltac:(discriminate)) as Ha.
  pose proof (Nat.mod_upper_bound b 10 ltac:(discriminate)) as Hb.
  generalize dependent (a mod 10). generalize dependent (b mod 10).
  intros y Hy x Hx.
  do 10 (destruct x as [|x];
         [do 10 (destruct y as [|y]; [reflexivity|]); lia|]).
  lia.
Qed.

Lemma pad2_compare (a b : nat) (s t : string) :
  (a < 100)%nat -> (b < 100)%nat ->
  String.compare (Calendar.pad2 a ++ s) (Calendar.pad2 b ++ t)
  = match Nat.compare a b with
    | Eq => String.compare s t
    | c => c
    end.
Proof.
  intros Ha Hb. unfold Calendar.pad2. cbn [append String.compare].
  rewrite !digit_compare.
  pose proof (Nat.div_mod_eq a 10) as Ea.
  pose proof (Nat.div_mod_eq b 10) as Eb.
  pose proof (Nat.mod_upper_bound a 10 ltac:(discriminate)) as Ra.
  pose proof (Nat.mod_upper_bound b 10 ltac:(discriminate)) as Rb.
  assert (Qa : ((a / 10) mod 10 = a / 10)%nat)
    by (apply Nat.mod_small; apply Nat.Div0.div_lt_upper_bound; lia).
  assert (Qb : ((b / 10) mod 10 = b / 10)%nat)
    by (apply Nat.mod_small; apply Nat.Div0.div_lt_upper_bound; lia).
  rewrite Qa, Qb.
  destruct (Nat.compare_spec (a / 10) (b / 10)) as [Hq|Hq|Hq];
    destruct (Nat.compare_spec (a mod 10) (b mod 10)) as [Hr|Hr|Hr];
    destruct (Nat.compare_spec a b) as [Hc|Hc|Hc];
    try reflexivity; lia.
Qed.

Lemma pad4_compare (a b : nat) (s t : string) :
  (a < 100 * 100)%nat -> (b < 100 * 100)%nat ->
  String.compare (Calendar.pad4 a ++ s) (Calendar.pad4 b ++ t)
  = match Nat.compare a b with
    | Eq => String.compare s t
    | c => c
    end.
Proof.
  intros Ha Hb. unfold Calendar.pad4.
  assert (Happ : forall x y u,
             ((Calendar.pad2 x ++ Calendar.pad2 y) ++ u
              = Calendar.pad2 x ++ (Calendar.pad2 y ++ u))%string)
    by reflexivity.
  rewrite !Happ.
  pose proof (Nat.div_mod_eq a 100) as Ea.
  pose proof (Nat.div_mod_eq b 100) as Eb.
  pose proof (Nat.mod_upper_bound a 100 ltac:(discriminate)) as Ra.
  pose proof (Nat.mod_upper_bound b 100 ltac:(discriminate)) as Rb.
  assert (Qa : (a / 100 < 100)%nat) by (apply Nat.Div0.div_lt_upper_bound; lia).
  assert (Qb : (b / 100 < 100)%nat) by (apply Nat.Div0.div_lt_upper_bound; lia).
  rewrite pad2_compare by assumption.
  rewrite pad2_compare by assumption.
  destruct (Nat.compare_spec (a / 100) (b / 100)) as [Hq|Hq|Hq];
    destruct (Nat.compare_spec (a mod 100) (b mod 100)) as [Hr|Hr|Hr];
    destruct (Nat.compare_spec a b) as [Hc|Hc|Hc];
    try reflexivity; lia.
Qed.

(** The string order of ISO texts is the chronological order. *)
Lemma iso_compare (a b : Calendar.date) :
  Calendar.printable a -> Calendar.printable b ->
  String.compare (Calendar.iso a) (Calendar.iso b) = Calendar.compare a b.
Proof.
  intros (Hya & Hma & Hda) (Hyb & Hmb & Hdb).
  unfold Calendar.iso, Calendar.compare.
  rewrite pad4_compare by assumption.
  destruct (Nat.compare (Calendar.year a) (Calendar.year b)); try reflexivity.
  cbn [append String.compare]. change (Ascii.compare "-" "-") with Eq. cbv iota.
  rewrite pad2_compare by assumption.
  destruct (Nat.compare (Calendar.month a) (Calendar.month b)); try reflexivity.
  cbn [append String.compare]. change (Ascii.compare "-" "-") with Eq. cbv iota.
  transitivity (match Nat.compare (Calendar.day a) (Calendar.day b) with
                | Eq => String.compare "" ""
                | c => c
                end).
  - exact (pad2_compare (Calendar.day a) (Calendar.day b) "" "" Hda Hdb).
  - destruct (Nat.compare (Calendar.day a) (Calendar.day b)); reflexivity.
Qed.

Lemma convert_wdate_mdy (d : Calendar.date) :
  convert_wdate (Calendar.mdy d) = Calendar.iso d.
Proof. reflexivity. Qed.

Lemma convert_wdate_mdy_with (c1 c2 : ascii) (d : Calendar.date) :
  convert_wdate (Calendar.mdy_with c1 c2 d) = Calendar.iso d.
Proof. reflexivity. Qed.

(** The normalizer on a record whose fifth and seventh tokens are there. *)
Lemma clean_record_tokens (line wdate wtime : string) :
  nth_error (split_on " " line) 4 = Some wdate ->
  nth_error (split_on " " line) 6 = Some wtime ->
  clean_record line
  = Ret (PyStr (str_init (nth 1 (split_on " " line) "")),
         convert_wdate wdate, wtime).
Proof.
  intros H4 H6. unfold clean_record. rewrite H4, H6.
  destruct (nth_error (split_on " " line) 1) as [p1|] eqn:H1.
  - now rewrite (nth_error_nth _ _ "" H1).
  - apply nth_error_None in H1.
    assert (4 < List.length (split_on " " line))%nat
      by (apply nth_error_Some; congruence).
    lia.
Qed.

(** C6 (as amended): for two records that each have a date as fifth and a
    time as seventh space-separated token, the dates being written
    month, day, year with two digits each for month and day and four for
    the year, whatever the two separating characters, the normalizer
    yields each date as [YYYY-MM-DD] (and the second token without its
    last character as count), and the string order of the two dates
    produced is their chronological order. *)
Theorem normalizer_iso_dates (line line' wtime wtime' : string)
  (c1 c2 c1' c2' : ascii) (d d' : Calendar.date) :
  Calendar.printable d -> Calendar.printable d' ->
  nth_error (split_on " " line) 4 = Some (Calendar.mdy_with c1 c2 d) ->
  nth_error (split_on " " line) 6 = Some wtime ->
  nth_error (split_on " " line') 4 = Some (Calendar.mdy_with c1' c2' d') ->
  nth_error (split_on " " line') 6 = Some wtime' ->
  clean_record line
  = Ret (PyStr (str_init (nth 1 (split_on " " line) "")),
         Calendar.iso d, wtime) /\
  clean_record line'
  = Ret (PyStr (str_init (nth 1 (split_on " " line') "")),
         Calendar.iso d', wtime') /\
  String.compare (Calendar.iso d) (Calendar.iso d') = Calendar.compare d d'.
Proof.
  intros Hd Hd' H4 H6 H4' H6'. repeat split.
  - rewrite (clean_record_tokens line _ wtime H4 H6).
    now rewrite convert_wdate_mdy_with.
  - rewrite (clean_record_tokens line' _ wtime' H4' H6').
    now rewrite convert_wdate_mdy_with.
  - now apply iso_compare.
Qed.

Lemma normalizer_iso_dates_witness :
  clean_record "Ep 5, watched on 03/14/2013 at 21:09"
  = Ret (PyStr "5", "2013-03-14", "21:09") /\
  clean_record "Ep 4, watched on 12-01-2012 at 07:30"
  = Ret (PyStr "4", "2012-12-01", "07:30") /\
  String.compare "2013-03-14" "2012-12-01" = Gt.
Proof.
  apply (normalizer_iso_dates
           "Ep 5, watched on 03/14/2013 at 21:09"
           "Ep 4, watched on 12-01-2012 at 07:30" "21:09" "07:30"
           "/" "/" "-" "-"
           {| Calendar.year := 2013; Calendar.month := 3; Calendar.day := 14 |}
           {| Calendar.year := 2012; Calendar.month := 12; Calendar.day := 1 |}).
  - unfold Calendar.printable. simpl. lia.
  - unfold Calendar.printable. simpl. lia.
  - reflexivity.
  - reflexivity.
  - reflexivity.
  - reflexivity.
Defined.

(** C6 (as stated) fails: written day/month/year with a two-digit year,
    5 January 2021 comes before 1 February 2021, and the texts produced
    for them, [21-05-01] and [21-01-02], are not of the form YYYY-MM-DD
    and compare the other way round. *)
Lemma normalizer_dmy2_dates :
  Calendar.compare
    {| Calendar.year := 2021; Calendar.month := 1; Calendar.day := 5 |}
    {| Calendar.year := 2021; Calendar.month := 2; Calendar.day := 1 |} = Lt /\
  clean_record
    ("Ep 1, watched on "
     ++ Calendar.dmy2 {| Calendar.year := 2021; Calendar.month := 1; Calendar.day := 5 |}
     ++ " at 10:00")
  = Ret (PyStr "1", "21-05-01", "10:00") /\
  clean_record
    ("Ep 2, watched on "
     ++ Calendar.dmy2 {| Calendar.year := 2021; Calendar.month := 2; Calendar.day := 1 |}
     ++ " at 10:00")
  = Ret (PyStr "2", "21-01-02", "10:00") /\
  String.compare "21-05-01" "21-01-02" = Gt /\
  Calendar.iso {| Calendar.year := 2021; Calendar.month := 1; Calendar.day := 5 |}
  = "2021-01-05".
Proof. repeat split. Qed.

(** * Further properties *)

(** ** The engine outside its intended inputs *)









(** X2: a history of a single event with an integer count gives that
    event's date both as start and as finish. *)
Theorem determine_dates_single (x : hist) (k : Z) :
  py_int (h_count x) = Some k ->
  _determine_dates [x] =
    ([earliest_msg (h_count x) (h_date x) (h_time x);
      latest_msg (h_count x) (h_date x) (h_time x)],
     Ret (h_date x, h_date x)).
Proof.
  intros Hk. unfold _determine_dates, scan_dates.
  cbn [rev app py_min py_max min_loop max_loop]. rewrite Hk.
  cbn [start_loop]. rewrite py_eq_refl.
  cbn [finish_loop Nat.ltb Nat.leb]. rewrite py_eq_refl.
  reflexivity.
Qed.

Lemma determine_dates_single_witness :
  _determine_dates [(PyStr "12", "2013-03-14", "21:09")] =
    (["<<< Earliest episode/chapter 12 was first watched/read at 2013-03-14 21:09";
      "<<< Last episode/chapter 12 was first watched/read at 2013-03-14 21:09"],
     Ret ("2013-03-14", "2013-03-14")).
Proof.
  apply (determine_dates_single (PyStr "12", "2013-03-14", "21:09") 12).
  reflexivity.
Defined.

Lemma start_loop_nth (l : list hist) :
  forall (i n : nat) (c : pyval) (e : hist),
    start_loop i c l = Some (n, e) ->
    (i <= n)%nat /\ nth_error l (n - i) = Some e /\ py_eq (h_count e) c = true.
Proof.
  induction l as [|x l IH]; intros i n c e H; simpl in H; [discriminate|].
  destruct (py_eq (h_count x) c) eqn:Hx.
  - inversion H; subst. rewrite Nat.sub_diag. repeat split; auto.
  - apply IH in H as (Hle & Hnth & Heq).
    replace (n - i)%nat with (S (n - S i)) by lia. repeat split; auto. lia.
Qed.

Lemma finish_loop_nth (l : list hist) :
  forall (j idx : nat) (c : pyval) (f : hist),
    finish_loop j idx c l = Some f ->
    exists n, (j <= n)%nat /\ (idx <= n)%nat /\ nth_error l (n - j) = Some f /\
              py_eq (h_count f) c = true.
Proof.
  induction l as [|x l IH]; intros j idx c f H; simpl in H; [discriminate|].
  destruct (Nat.ltb_spec j idx) as [Hlt|Hge].
  - apply IH in H as (n & Hj & Hidx & Hnth & Heq). exists n.
    replace (n - j)%nat with (S (n - S j)) by lia. repeat split; auto. lia.
  - destruct (py_eq (h_count x) c) eqn:Hx.
    + inversion H; subst. exists j. rewrite Nat.sub_diag. repeat split; auto.
    + apply IH in H as (n & Hj & Hidx & Hnth & Heq). exists n.
      replace (n - j)%nat with (S (n - S j)) by lia. repeat split; auto. lia.
Qed.

(** X3: whatever the history, a returned pair is made of the dates of two
    logged events, and the event that gives the finish is never logged
    before the event that gives the start. *)
Theorem determine_dates_finish_not_before_start
  (h : list hist) (lines : list string) (sd fd : string) :
  _determine_dates h = (lines, Ret (sd, fd)) ->
  exists (i j : nat) (e f : hist),
    (i <= j)%nat /\
    nth_error (rev h) i = Some e /\ nth_error (rev h) j = Some f /\
    sd = h_date e /\ fd = h_date f.
Proof.
  unfold _determine_dates, scan_dates. intros H.
  destruct (py_min (rev h)) as [hmin|x]; [|discriminate].
  destruct (py_max (rev h)) as [hmax|x]; [|discriminate].
  destruct (start_loop 0 (h_count hmin) (rev h)) as [[n e]|] eqn:Hs; [|discriminate].
  destruct (finish_loop 0 n (h_count hmax) (rev h)) as [f|] eqn:Hf; [|discriminate].
  inversion H; subst.
  apply start_loop_nth in Hs as (_ & Hnth & _). rewrite Nat.sub_0_r in Hnth.
  apply finish_loop_nth in Hf as (j & _ & Hle & Hnthf & _).
  rewrite Nat.sub_0_r in Hnthf.
  exists n, j, e, f. repeat split; assumption.
Qed.

Lemma determine_dates_finish_not_before_start_witness :
  exists (i j : nat) (e f : hist),
    (i <= j)%nat /\
    nth_error (rev [(PyInt 3, "2021-01-03", "12:00"); (PyInt 1, "2021-01-02", "12:00");
                    (PyInt 3, "2021-01-01", "12:00")]) i = Some e /\
    nth_error (rev [(PyInt 3, "2021-01-03", "12:00"); (PyInt 1, "2021-01-02", "12:00");
                    (PyInt 3, "2021-01-01", "12:00")]) j = Some f /\
    "2021-01-02" = h_date e /\ "2021-01-03" = h_date f.
Proof.
  apply (determine_dates_finish_not_before_start
           [(PyInt 3, "2021-01-03", "12:00"); (PyInt 1, "2021-01-02", "12:00");
            (PyInt 3, "2021-01-01", "12:00")]
           ["<<< Earliest episode/chapter 1 was first watched/read at 2021-01-02 12:00";
            "<<< Last episode/chapter 3 was first watched/read at 2021-01-03 12:00"]
           "2021-01-02" "2021-01-03").
  reflexivity.
Defined.

Lemma find_first_match {A : Type} (p : A -> bool) (l : list A) (x : A) :
  In x l -> p x = true -> exists y, find p l = Some y.
Proof.
  intros Hin Hp. destruct (find p l) as [y|] eqn:Hf; [eauto|].
  now rewrite (find_none p l Hf x Hin) in Hp.
Qed.

(** X4: whenever the oldest logged event has the least count, as in a
    log kept from the first episode on, the engine returns: the start is
    the date of that oldest event and the finish is the date of an event
    of greatest count. *)
Theorem determine_dates_oldest_least (newer : list hist) (e : hist) (m : Z) :
  py_int (h_count e) = Some m ->
  keys_all (fun k => m <= k)%Z newer ->
  exists (f : hist) (lines : list string) (M : Z),
    _determine_dates (newer ++ [e]) = (lines, Ret (h_date e, h_date f)) /\
    In f (newer ++ [e]) /\
    py_int (h_count f) = Some M /\
    keys_all (fun k => k <= M)%Z (newer ++ [e]).
Proof.
  intros He Hnewer.
  assert (Hrev : rev (newer ++ [e]) = e :: rev newer)
    by (rewrite rev_app_distr; reflexivity).
  assert (Hall : keys_all (fun _ => True) (e :: rev newer)).
  { constructor; [exists m; auto|].
    apply keys_all_rev. eapply keys_all_weaken; [|exact Hnewer]. auto. }
  destruct (first_max_exists (e :: rev newer) ltac:(discriminate) Hall)
    as (A' & eM & B' & M & E2 & HeM & HA' & HB').
  assert (Hscan := scan_dates_at [] (rev newer) A' B' e eM m M He
                     ltac:(constructor) (keys_all_rev _ _ Hnewer) HeM HA' HB' E2).
  cbn [app] in Hscan.
  destruct (find_first_match (fun x => py_eq (h_count x) (h_count eM))
              (e :: rev newer) eM) as [f Hf].
  { rewrite E2. apply in_elt. }
  { apply py_eq_refl. }
  rewrite Hf in Hscan.
  apply find_some in Hf as [Hin Heq]. apply py_eq_true in Heq.
  exists f, [earliest_msg (h_count e) (h_date e) (h_time e);
             latest_msg (h_count eM) (h_date f) (h_time f)], M.
  repeat split.
  - unfold _determine_dates. rewrite Hrev. exact Hscan.
  - apply in_rev. now rewrite Hrev.
  - now rewrite Heq.
  - apply Forall_rev in HA' as HA'r.
    assert (Hmax : keys_all (fun k => k <= M)%Z (e :: rev newer)).
    { rewrite E2. apply keys_all_app. split.
      - eapply keys_all_weaken; [|exact HA']. simpl. intros; lia.
      - constructor; [exists M; split; [assumption|lia]|assumption]. }
    apply keys_all_rev in Hmax. rewrite <- Hrev in Hmax.
    now rewrite rev_involutive in Hmax.
Qed.

Lemma determine_dates_oldest_least_witness :
  exists (f : hist) (lines : list string) (M : Z),
    _determine_dates
      ([(PyStr "2", "2021-01-06", "10:00"); (PyStr "2", "2021-01-05", "09:00")]
       ++ [(PyStr "1", "2021-01-03", "08:00")])
    = (lines, Ret (h_date (PyStr "1", "2021-01-03", "08:00"), h_date f)) /\
    In f ([(PyStr "2", "2021-01-06", "10:00"); (PyStr "2", "2021-01-05", "09:00")]
          ++ [(PyStr "1", "2021-01-03", "08:00")]) /\
    py_int (h_count f) = Some M /\
    keys_all (fun k => k <= M)%Z
      ([(PyStr "2", "2021-01-06", "10:00"); (PyStr "2", "2021-01-05", "09:00")]
       ++ [(PyStr "1", "2021-01-03", "08:00")]).
Proof.
  apply (determine_dates_oldest_least
           [(PyStr "2", "2021-01-06", "10:00"); (PyStr "2", "2021-01-05", "09:00")]
           (PyStr "1", "2021-01-03", "08:00") 1).
  - reflexivity.
  - repeat constructor; exists 2%Z; (split; [reflexivity|lia]).
Defined.

(** ** The normalizer on whole pages *)

Lemma split_on_spaceless (t : string) :
  spaceless t = true -> split_on " " t = [t].
Proof.
  induction t as [|c t IH]; simpl; [reflexivity|].
  intros H. apply andb_prop in H as [Hc Ht].
  apply negb_true_iff in Hc. rewrite Hc, (IH Ht). reflexivity.
Qed.

Lemma split_on_token (t r : string) :
  spaceless t = true ->
  split_on " " (t ++ " " ++ r) = t :: split_on " " r.
Proof.
  induction t as [|c t IH]; simpl; [reflexivity|].
  intros H. apply andb_prop in H as [Hc Ht].
  apply negb_true_iff in Hc. rewrite Hc. simpl in IH. rewrite (IH Ht).
  reflexivity.
Qed.

(** [" ".join(ts).split(" ")] gives [ts] back when no text of [ts] has a
    space. *)
Lemma split_on_concat (ts : list string) :
  ts <> [] -> forallb spaceless ts = true ->
  split_on " " (String.concat " " ts) = ts.
Proof.
  induction ts as [|t ts IH]; intros Hne Hall; [congruence|].
  simpl in Hall. apply andb_prop in Hall as [Ht Hts].
  destruct ts as [|t' ts'].
  - simpl. now apply split_on_spaceless.
  - change (String.concat " " (t :: t' :: ts'))
      with (t ++ " " ++ String.concat " " (t' :: ts')).
    rewrite split_on_token by assumption.
    rewrite IH; [reflexivity|discriminate|assumption].
Qed.

(** X5: of a record made of seven or more space-free texts joined by
    single spaces, the second text without its last character is the
    count, the fifth is converted as the date and the seventh is the time;
    the other texts, and everything after the seventh, play no part. *)
Theorem clean_record_positions
  (t0 t1 t2 t3 t4 t5 t6 : string) (more : list string) :
  forallb spaceless (t0 :: t1 :: t2 :: t3 :: t4 :: t5 :: t6 :: more) = true ->
  clean_record
    (String.concat " " (t0 :: t1 :: t2 :: t3 :: t4 :: t5 :: t6 :: more))
  = Ret (PyStr (str_init t1), convert_wdate t4, t6).
Proof.
  intros Hall. unfold clean_record.
  rewrite split_on_concat by (discriminate || assumption).
  reflexivity.
Qed.

Lemma clean_record_positions_witness :
  clean_record "Ep 12, watched on 03/14/2013 at 21:09 (edited)"
  = Ret (PyStr "12", "2013-03-14", "21:09").
Proof.
  apply (clean_record_positions "Ep" "12," "watched" "on" "03/14/2013" "at"
           "21:09" ["(edited)"]).
  reflexivity.
Defined.

Lemma clean_record_long (line : string) :
  (7 <= List.length (split_on " " line))%nat ->
  exists h, clean_record line = Ret h.
Proof.
  intros Hlen. unfold clean_record.
  destruct (nth_error (split_on " " line) 4) as [wdate|] eqn:H4;
    [|apply nth_error_None in H4; lia].
  destruct (nth_error (split_on " " line) 6) as [wtime|] eqn:H6;
    [|apply nth_error_None in H6; lia].
  destruct (nth_error (split_on " " line) 1) as [p1|] eqn:H1;
    [|apply nth_error_None in H1; lia].
  eexists. reflexivity.
Qed.

Lemma clean_record_ret_long (line : string) (h : hist) :
  clean_record line = Ret h ->
  (7 <= List.length (split_on " " line))%nat.
Proof.
  unfold clean_record. intros H.
  destruct (nth_error (split_on " " line) 4); [|discriminate].
  destruct (nth_error (split_on " " line) 6) eqn:H6; [|discriminate].
  assert (Hlt : (6 < List.length (split_on " " line))%nat)
    by (apply nth_error_Some; congruence).
  lia.
Qed.

(** X6: the normalizer returns a history exactly for the pages all of
    whose records have seven or more space-separated tokens; the history
    then has one tuple for each record of the page, in the order of the
    page. *)
Theorem get_entry_history_all_or_nothing (texts : list string) :
  (Forall (fun line => (7 <= List.length (split_on " " line))%nat) texts ->
   exists hs, _get_entry_history (Divs texts) = Ret hs) /\
  (forall hs, _get_entry_history (Divs texts) = Ret hs ->
     Forall (fun line => (7 <= List.length (split_on " " line))%nat) texts /\
     Forall2 (fun line h => clean_record line = Ret h) texts hs).
Proof.
  simpl. split.
  - induction 1 as [|line texts Hlong _ [hs IH]]; simpl.
    + now exists [].
    + destruct (clean_record_long line Hlong) as [h Hh].
      rewrite Hh, IH. now exists (h :: hs).
  - induction texts as [|line texts IH]; intros hs H; simpl in H.
    + inversion H; subst. split; constructor.
    + destruct (clean_record line) as [h|x] eqn:Hh; [|discriminate].
      destruct (clean_history texts) as [hs'|x] eqn:Hhs; [|discriminate].
      inversion H; subst. destruct (IH hs' eq_refl) as [Hall Hall2].
      split; constructor; auto. now apply (clean_record_ret_long line h).
Qed.

Lemma get_entry_history_all_or_nothing_witness :
  exists hs, _get_entry_history Scenario.page_A = Ret hs.
Proof.
  apply (proj1 (get_entry_history_all_or_nothing
                  ["Ep 3, watched on 01/05/2021 at 10:00";
                   "Ep 2, watched on 01/04/2021 at 09:00";
                   "Ep 1, watched on 01/03/2021 at 08:00"])).
  repeat constructor; simpl; lia.
Defined.

(** ** The question to the user *)

(** X7: among the replies made of ASCII characters, those that end the
    question are the eight one-letter texts Y, S, F, X in either case, and
    no other: a reply with a space around the letter, or a whole word, is
    asked again. *)
Theorem is_choice_iff (user_choice : string) :
  is_ascii user_choice = true ->
  (is_choice user_choice = true <->
   In user_choice ["Y"; "y"; "S"; "s"; "F"; "f"; "X"; "x"]).
Proof.
  intros _. split.
  - unfold is_choice. destruct user_choice as [|a [|b r]].
    + discriminate.
    + destruct a as [[] [] [] [] [] [] [] []]; cbn; intros H;
        try discriminate; tauto.
    + cbn [py_upper String.eqb].
      destruct (Ascii.eqb (upper_char a) "Y"), (Ascii.eqb (upper_char a) "S"),
        (Ascii.eqb (upper_char a) "F"), (Ascii.eqb (upper_char a) "X");
        discriminate.
  - cbn. intros H.
    repeat (destruct H as [<-|H]; [reflexivity|]). contradiction.
Qed.

Lemma is_choice_iff_witness :
  In "f" ["Y"; "y"; "S"; "s"; "F"; "f"; "X"; "x"].
Proof.
  apply (proj1 (is_choice_iff "f" eq_refl)). reflexivity.
Defined.

(** How the question loop ends, by the lines that are left to read. *)
Lemma choice_loop_cases (lines : list string) :
  (exists bad c rest,
      lines = (bad ++ c :: rest)%list /\
      Forall (fun r => is_choice r = false) bad /\
      is_choice c = true /\
      choice_loop lines
      = ((retries bad ++ [Input choice_prompt (Some c)])%list, Some (c, rest)))
  \/
  (Forall (fun r => is_choice r = false) lines /\
   choice_loop lines
   = ((retries lines ++ [Input choice_prompt None])%list, None)).
Proof.
  induction lines as [|r lines IH].
  - right. split; [constructor|reflexivity].
  - destruct (is_choice r) eqn:Hr.
    + left. exists [], r, lines. repeat split; auto. simpl. now rewrite Hr.
    + destruct IH as [(bad & c & rest & -> & Hbad & Hc & Hloop)|[Hall Hloop]].
      * left. exists (r :: bad), c, rest. repeat split; auto.
        simpl. now rewrite Hr, Hloop.
      * right. split; [now constructor|]. simpl. now rewrite Hr, Hloop.
Qed.

(** X8: the question is repeated for every reply that is not accepted,
    each being echoed as not understood, and ends with the first accepted
    reply, which alone is returned, the later lines staying unread; when
    no line is accepted, every line is used up and the loop ends with
    [EOFError]. *)
Theorem await_choice_first_accepted (s : state) :
  (exists bad c rest,
      stdin s = (bad ++ c :: rest)%list /\
      Forall (fun r => is_choice r = false) bad /\
      is_choice c = true /\
      await_choice s
      = (Val c, after s rest (retries bad ++ [Input choice_prompt (Some c)])))
  \/
  (Forall (fun r => is_choice r = false) (stdin s) /\
   await_choice s
   = (Exc EOFError,
      after s [] (retries (stdin s) ++ [Input choice_prompt None]))).
Proof.
  unfold await_choice.
  destruct (choice_loop_cases (stdin s))
    as [(bad & c & rest & E & Hbad & Hc & Hloop)|[Hall Hloop]];
    rewrite Hloop.
  - left. exists bad, c, rest. repeat split; assumption.
  - right. split; [assumption|reflexivity].
Qed.

Section ReviewMore.

Variable ltype : list_type.
Variable wait_time : nat.
Variable auto_skip : bool.
Variable history_page : Z -> fetched.
Variable update_response : Z -> updates_dict -> string.
Variable entry_count : nat.

(** *** The resume point *)

Lemma loop_body_before_resume (title : string) (index : nat) (e : entry)
  (s : state) :
  start_from_triggered s = false ->
  node_title e <> title ->
  loop_body ltype wait_time auto_skip (Some title) history_page update_response
    entry_count index e s
  = (Continue, after s (stdin s) [Print ("Skipped " ++ string_of_nat (index + 1))]).
Proof.
  intros Hs Ht. unfold loop_body, resume_gate, get_triggered.
  unfold bind at 1 2. rewrite Hs. cbn [negb].
  apply String.eqb_neq in Ht. rewrite Ht. cbn [negb].
  unfold bind, continue_. step_M. reflexivity.
Qed.

Lemma loop_body_at_resume (index : nat) (e : entry) (s : state) :
  start_from_triggered s = false ->
  loop_body ltype wait_time auto_skip (Some (node_title e)) history_page
    update_response entry_count index e s
  = review ltype wait_time auto_skip history_page update_response entry_count
      index e (opened s).
Proof.
  intros Hs. unfold loop_body, resume_gate, get_triggered.
  unfold bind at 1 2. rewrite Hs. cbn [negb].
  rewrite String.eqb_refl. reflexivity.
Qed.

(** X9: with a resume title, the entries before the first one of that
    title are only counted off as skipped, one line each: no history is
    requested for them, no input is read; the first entry with the title
    is reviewed, with [start_from_triggered] set from then on. *)
Theorem resume_skips_prefix (title : string) (pre : list entry) :
  forall (index : nat) (e : entry) (rest : list entry) (s : state),
    start_from_triggered s = false ->
    Forall (fun e' => node_title e' <> title) pre ->
    node_title e = title ->
    entries_loop ltype wait_time auto_skip (Some title) history_page
      update_response entry_count index (pre ++ e :: rest) s
    = match review ltype wait_time auto_skip history_page update_response
              entry_count (index + List.length pre) e
              (opened (after s (stdin s) (skipped_lines index (List.length pre))))
      with
      | (Val _, s') | (Continue, s') =>
          entries_loop ltype wait_time auto_skip (Some title) history_page
            update_response entry_count (S (index + List.length pre)) rest s'
      | (Break, s') => (Val tt, s')
      | (Exc x, s') => (Exc x, s')
      end.
Proof.
  induction pre as [|e0 pre IH]; intros index e rest s Hs Hpre He.
  - cbn [app List.length skipped_lines seq map entries_loop].
    rewrite Nat.add_0_r, after_out_nil. subst title.
    rewrite loop_body_at_resume by assumption. reflexivity.
  - inversion Hpre as [|? ? He0 Hpre']; subst.
    cbn [app entries_loop].
    rewrite loop_body_before_resume by assumption.
    rewrite (IH (S index) e rest) by (auto; reflexivity).
    step_M. cbn [List.length skipped_lines seq map].
    replace (S index + List.length pre)%nat
      with (index + S (List.length pre))%nat by lia.
    reflexivity.
Qed.

(** A session whose resume title is that of no entry. *)
Lemma entries_loop_no_resume (title : string) (data : list entry) :
  forall (index : nat) (s : state),
    start_from_triggered s = false ->
    Forall (fun e' => node_title e' <> title) data ->
    entries_loop ltype wait_time auto_skip (Some title) history_page
      update_response entry_count index data s
    = (Val tt, after s (stdin s) (skipped_lines index (List.length data))).
Proof.
  induction data as [|e0 data IH]; intros index s Hs Hall.
  - cbn. unfold ret. now rewrite after_out_nil.
  - inversion Hall; subst. cbn [entries_loop].
    rewrite loop_body_before_resume by assumption.
    rewrite IH by (auto; reflexivity). step_M. reflexivity.
Qed.

End ReviewMore.

(** X10: when no entry has the resume title, the whole session consists of
    the skipped lines and the closing line: nothing is requested, nothing
    is asked, no line of input is read. *)
Theorem date_fixer_no_resume (ltype : list_type) (wait_time : nat)
  (auto_skip : bool) (title : string) (history_page : Z -> fetched)
  (update_response : Z -> updates_dict -> string) (data : list entry)
  (lines : list string) :
  Forall (fun e => node_title e <> title) data ->
  date_fixer ltype wait_time auto_skip (Some title) history_page update_response
    (Ret data) lines
  = ((skipped_lines 0 (List.length data) ++ [Print "All done!"])%list, None).
Proof.
  intros Hall. unfold date_fixer.
  rewrite entries_loop_no_resume by (auto; reflexivity).
  reflexivity.
Qed.

(** *** Once the resume point is passed *)

Lemma keeps_gate_bind {A B : Type} (c : M A) (k : A -> M B) :
  keeps_gate c -> (forall a, keeps_gate (k a)) -> keeps_gate (bind c k).
Proof.
  intros Hc Hk s. unfold bind. specialize (Hc s).
  destruct (c s) as [[a| | |x] s']; cbn [snd] in *; try assumption.
  now rewrite Hk.
Qed.

Lemma keeps_gate_emit (ev : list event) : keeps_gate (emit ev).
Proof. intros s. reflexivity. Qed.

Lemma keeps_gate_input (prompt : string) : keeps_gate (input prompt).
Proof. intros s. unfold input. destruct (stdin s); reflexivity. Qed.

Lemma keeps_gate_await_choice : keeps_gate await_choice.
Proof.
  intros s. unfold await_choice.
  destruct (choice_loop (stdin s)) as [ev [[c rest]|]]; reflexivity.
Qed.

Lemma keeps_gate_read_start_date : keeps_gate read_start_date.
Proof. intros s. unfold read_start_date. destruct (start_date s); reflexivity. Qed.

Lemma keeps_gate_read_finish_date : keeps_gate read_finish_date.
Proof. intros s. unfold read_finish_date. destruct (finish_date s); reflexivity. Qed.

Lemma keeps_gate_lift_res {A : Type} (r : res A) : keeps_gate (lift_res r).
Proof. intros s. destruct r; reflexivity. Qed.

Ltac keeps_gate_M :=
  repeat first
    [ apply keeps_gate_bind
    | match goal with |- forall _, keeps_gate _ => intro; cbv beta end
    | apply keeps_gate_emit | apply keeps_gate_input
    | apply keeps_gate_await_choice | apply keeps_gate_read_start_date
    | apply keeps_gate_read_finish_date | apply keeps_gate_lift_res
    | match goal with
      | |- keeps_gate (ret _) => intros ?; reflexivity
      | |- keeps_gate continue_ => intros ?; reflexivity
      | |- keeps_gate break_ => intros ?; reflexivity
      | |- keeps_gate (raise _) => intros ?; reflexivity
      | |- keeps_gate (assign_dates _) => intros ?; reflexivity
      | |- keeps_gate (if ?b then _ else _) => destruct b
      | |- keeps_gate (match ?x with _ => _ end) => destruct x
      end ].

Lemma keeps_gate_review (ltype : list_type) (wait_time : nat)
  (auto_skip : bool) (history_page : Z -> fetched)
  (update_response : Z -> updates_dict -> string) (entry_count index : nat)
  (e : entry) :
  keeps_gate (review ltype wait_time auto_skip history_page update_response
                entry_count index e).
Proof.
  unfold review, date_order_check, auto_skip_check, fetch_history, propose,
    determine_dates, action, update_entry, print.
  keeps_gate_M.
Qed.

(** X11: from the iteration at which [start_from_triggered] is set, the
    session goes on exactly as a session started without a resume title:
    the titles of the later entries are not looked at again. *)
Theorem resume_then_as_without (ltype : list_type) (wait_time : nat)
  (auto_skip : bool) (start_from : option string) (history_page : Z -> fetched)
  (update_response : Z -> updates_dict -> string) (entry_count : nat)
  (data : list entry) :
  forall (index : nat) (s : state),
    start_from_triggered s = true ->
    entries_loop ltype wait_time auto_skip start_from history_page
      update_response entry_count index data s
    = entries_loop ltype wait_time auto_skip None history_page
        update_response entry_count index data s.
Proof.
  induction data as [|e data IH]; intros index s Hs; [reflexivity|].
  cbn [entries_loop]. rewrite !loop_body_open by assumption.
  pose proof (keeps_gate_review ltype wait_time auto_skip history_page
                update_response entry_count index e s) as Hk.
  destruct (review ltype wait_time auto_skip history_page update_response
              entry_count index e s) as [[u| | |x] s']; cbn [snd] in Hk;
    try reflexivity; apply IH; congruence.
Qed.

(** *** When an update request is sent *)

Lemma quiet_app (ev1 ev2 : list event) :
  quiet ev1 -> quiet ev2 -> quiet (ev1 ++ ev2).
Proof. intros H1 H2. apply Forall_app. now split. Qed.

Lemma quiet_prints {A : Type} (f : A -> string) (l : list A) :
  quiet (map (fun x => Print (f x)) l).
Proof. induction l; constructor; auto. Qed.

Lemma quiet_retries (bad : list string) : quiet (retries bad).
Proof.
  induction bad as [|r bad IH]; [constructor|].
  cbn. constructor; [reflexivity|]. constructor; [reflexivity|]. exact IH.
Qed.

Lemma quiet_M_ret {A : Type} (a : A) : quiet_M (ret a).
Proof. intros s. exists []. cbn. rewrite app_nil_r. split; constructor. Qed.

Lemma quiet_M_same {A : Type} (c : M A) :
  (forall s, snd (c s) = s) -> quiet_M c.
Proof.
  intros H s. exists []. rewrite H, app_nil_r. split; [reflexivity|constructor].
Qed.

Lemma quiet_M_emit (ev : list event) : quiet ev -> quiet_M (emit ev).
Proof. intros H s. exists ev. split; [reflexivity|assumption]. Qed.

Lemma quiet_M_print (line : string) : quiet_M (print line).
Proof. apply quiet_M_emit. constructor; [reflexivity|constructor]. Qed.

Lemma quiet_M_input (prompt : string) : quiet_M (input prompt).
Proof.
  intros s. unfold input. destruct (stdin s) as [|r rest]; eexists;
    (split; [reflexivity|constructor; [reflexivity|constructor]]).
Qed.

Lemma quiet_M_await_choice : quiet_M await_choice.
Proof.
  intros s. unfold await_choice.
  destruct (choice_loop_cases (stdin s))
    as [(bad & c & rest & _ & _ & _ & ->)|[_ ->]]; eexists;
    (split; [reflexivity|]); apply quiet_app; try apply quiet_retries;
    constructor; (reflexivity || constructor).
Qed.

Lemma quiet_M_bind {A B : Type} (c : M A) (k : A -> M B) :
  quiet_M c -> (forall a, quiet_M (k a)) -> quiet_M (bind c k).
Proof.
  intros Hc Hk s. unfold bind. destruct (Hc s) as (ev1 & E1 & Q1).
  destruct (c s) as [[a| | |x] s']; cbn [snd] in *;
    try (exists ev1; split; assumption).
  destruct (Hk a s') as (ev2 & E2 & Q2).
  exists (ev1 ++ ev2)%list. split; [|now apply quiet_app].
  now rewrite E2, E1, app_assoc.
Qed.

Ltac quiet_M_tac :=
  repeat first
    [ apply quiet_M_bind
    | match goal with |- forall _, quiet_M _ => intro; cbv beta end
    | apply quiet_M_ret | apply quiet_M_print | apply quiet_M_input
    | apply quiet_M_await_choice
    | match goal with
      | |- quiet_M continue_ => apply quiet_M_same; reflexivity
      | |- quiet_M break_ => apply quiet_M_same; reflexivity
      | |- quiet_M (raise _) => apply quiet_M_same; reflexivity
      | |- quiet_M (assign_dates _) =>
          intros ?; exists []; cbn; rewrite app_nil_r; split; constructor
      | |- quiet_M (lift_res ?r) => destruct r; cbn [lift_res]
      | |- quiet_M read_start_date =>
          apply quiet_M_same; intros ?; unfold read_start_date;
          destruct (start_date _); reflexivity
      | |- quiet_M read_finish_date =>
          apply quiet_M_same; intros ?; unfold read_finish_date;
          destruct (finish_date _); reflexivity
      | |- quiet_M (if ?b then _ else _) => destruct b
      | |- quiet_M (match ?x with _ => _ end) => destruct x
      end ].

Section Updates.

Variable ltype : list_type.
Variable wait_time : nat.
Variable auto_skip : bool.
Variable history_page : Z -> fetched.
Variable update_response : Z -> updates_dict -> string.
Variable entry_count : nat.

Lemma quiet_M_date_order_check (e : entry) : quiet_M (date_order_check e).
Proof. unfold date_order_check. quiet_M_tac. Qed.

Lemma quiet_M_auto_skip_check (e : entry) :
  quiet_M (auto_skip_check auto_skip e).
Proof. unfold auto_skip_check. quiet_M_tac. Qed.

Lemma quiet_M_fetch_history (entry_id : Z) :
  quiet_M (fetch_history ltype history_page entry_id).
Proof.
  unfold fetch_history.
  apply quiet_M_bind; [apply quiet_M_emit; repeat constructor|].
  quiet_M_tac.
Qed.

Lemma quiet_M_propose (e : entry) (h : list hist) : quiet_M (propose e h).
Proof.
  unfold propose, determine_dates.
  destruct (negb (ls_status e =? "completed")); [quiet_M_tac|].
  destruct (both_populated e); [quiet_M_tac|].
  destruct (List.length h =? 0)%nat; [quiet_M_tac|].
  destruct (_determine_dates h) as [lines r].
  apply quiet_M_bind.
  - apply quiet_M_bind; [apply quiet_M_emit, (quiet_prints (fun x => x))|].
    quiet_M_tac.
  - quiet_M_tac.
Qed.

Lemma quiet_M_action (user_choice : string) (skip_flag : bool) :
  quiet_M (action user_choice skip_flag).
Proof. unfold action. quiet_M_tac. Qed.

Lemma quiet_M_resume_gate (start_from : option string) (index : nat)
  (e : entry) :
  quiet_M (resume_gate start_from index e).
Proof.
  unfold resume_gate.
  apply quiet_M_bind; [apply quiet_M_same; reflexivity|]. intros b.
  destruct (negb b); [|quiet_M_tac].
  destruct start_from as [title|]; [|quiet_M_tac].
  destruct (negb (node_title e =? title)); [quiet_M_tac|].
  intros s. exists []. cbn. rewrite app_nil_r. split; constructor.
Qed.

(** What [action] can hand over to the update request. *)
Lemma action_val (user_choice : string) (skip_flag : bool) (s s' : state)
  (u : updates_dict) :
  action user_choice skip_flag s = (Val u, s') ->
  s' = s /\
  ((py_upper user_choice = "Y" /\
    exists sd fd, u = [("start_date", sd); ("finish_date", fd)]) \/
   (py_upper user_choice = "F" /\ exists fd, u = [("finish_date", fd)])).
Proof.
  unfold action.
  destruct (String.eqb_spec (py_upper user_choice) "Y") as [EY|_].
  - destruct skip_flag; [discriminate|].
    unfold bind, ret, read_start_date, read_finish_date.
    destruct (start_date s) as [sd|]; [|discriminate].
    destruct (finish_date s) as [fd|]; [|discriminate].
    intros H. inversion H; subst. split; [reflexivity|]. left. eauto.
  - destruct (String.eqb_spec (py_upper user_choice) "F") as [EF|_].
    + unfold bind, ret, read_finish_date.
      destruct (finish_date s) as [fd|]; [|discriminate].
      intros H. inversion H; subst. split; [reflexivity|]. right. eauto.
    + destruct (py_upper user_choice =? "S"); [discriminate|].
      destruct (py_upper user_choice =? "X"); discriminate.
Qed.

(** The body from the question on. *)
Lemma tail_update_after_reply (e : entry) (skip_flag : bool) (s : state) :
  exists ev,
    out (snd ((user_choice <- await_choice ;;
               updates <- action user_choice skip_flag ;;
               response <- update_entry ltype update_response (node_id e) updates ;;
               emit [PrintDict updates] ;;
               print ("<<< Sent proposed change as update request to MAL and received response code "
                      ++ response) ;;
               print separator) s))
    = (out s ++ ev)%list /\
    update_after_reply ltype update_response e ev.
Proof.
  unfold bind at 1. unfold await_choice.
  destruct (choice_loop_cases (stdin s))
    as [(bad & c & rest & _ & _ & _ & ->)|[_ ->]].
  - set (s1 := {| start_from_triggered := start_from_triggered s;
                  start_date := start_date s;
                  finish_date := finish_date s;
                  stdin := rest;
                  out := out s ++ retries bad ++ [Input choice_prompt (Some c)] |}).
    unfold bind at 1.
    destruct (action c skip_flag s1) as [[u| | |x] s2] eqn:Hact.
    + apply action_val in Hact as [-> Hu].
      rewrite submit_after.
      eexists. split.
      * cbn [snd after out s1]. rewrite <- app_assoc. reflexivity.
      * right. exists (retries bad), c, u. split.
        { rewrite <- app_assoc. reflexivity. }
        split; [apply quiet_retries|exact Hu].
    + destruct (quiet_M_action c skip_flag s1) as (ev2 & E2 & Q2).
      rewrite Hact in E2. cbn [snd] in *.
      eexists. split.
      * rewrite E2. cbn [out s1]. rewrite <- app_assoc. reflexivity.
      * left. apply quiet_app; [apply quiet_app|assumption].
        -- apply quiet_retries.
        -- repeat constructor.
    + destruct (quiet_M_action c skip_flag s1) as (ev2 & E2 & Q2).
      rewrite Hact in E2. cbn [snd] in *.
      eexists. split.
      * rewrite E2. cbn [out s1]. rewrite <- app_assoc. reflexivity.
      * left. apply quiet_app; [apply quiet_app|assumption].
        -- apply quiet_retries.
        -- repeat constructor.
    + destruct (quiet_M_action c skip_flag s1) as (ev2 & E2 & Q2).
      rewrite Hact in E2. cbn [snd] in *.
      eexists. split.
      * rewrite E2. cbn [out s1]. rewrite <- app_assoc. reflexivity.
      * left. apply quiet_app; [apply quiet_app|assumption].
        -- apply quiet_retries.
        -- repeat constructor.
  - eexists. split; [reflexivity|]. left.
    apply quiet_app; [apply quiet_retries|repeat constructor].
Qed.

Lemma update_after_reply_app (e : entry) (ev1 ev2 : list event) :
  quiet ev1 -> update_after_reply ltype update_response e ev2 ->
  update_after_reply ltype update_response e (ev1 ++ ev2).
Proof.
  intros Q1 [Q2|(pre & c & u & -> & Qpre & Hu)].
  - left. now apply quiet_app.
  - right. exists (ev1 ++ pre)%list, c, u. split; [now rewrite app_assoc|].
    split; [now apply quiet_app|assumption].
Qed.

(** A quiet statement in front of a body of the right shape. *)
Lemma shape_bind {A : Type} (e : entry) (c : M A) (k : A -> M unit) :
  quiet_M c ->
  (forall a s', exists ev, out (snd (k a s')) = (out s' ++ ev)%list /\
                           update_after_reply ltype update_response e ev) ->
  forall s, exists ev, out (snd (bind c k s)) = (out s ++ ev)%list /\
                       update_after_reply ltype update_response e ev.
Proof.
  intros Hc Hk s. unfold bind. destruct (Hc s) as (ev1 & E1 & Q1).
  destruct (c s) as [[a| | |x] s']; cbn [snd] in *;
    try (exists ev1; split; [assumption|now left]).
  destruct (Hk a s') as (ev2 & E2 & U2).
  exists (ev1 ++ ev2)%list. split; [now rewrite E2, E1, app_assoc|].
  now apply update_after_reply_app.
Qed.

(** X12: in the review of one entry, whatever the entry, the state and
    the input, an update request is sent at most once, only for that
    entry, and only directly after the user's reply Y or F; it carries the
    two dates after Y and the finish date alone after F, and no other
    key. *)
Theorem review_update_after_reply (index : nat) (e : entry) (s : state) :
  exists ev,
    out (snd (review ltype wait_time auto_skip history_page update_response
                entry_count index e s))
    = (out s ++ ev)%list /\
    update_after_reply ltype update_response e ev.
Proof.
  revert s. unfold review.
  apply shape_bind; [apply quiet_M_print|]. intros _.
  apply shape_bind; [apply quiet_M_date_order_check|]. intros _.
  apply shape_bind; [apply quiet_M_auto_skip_check|]. intros _.
  apply shape_bind; [apply quiet_M_fetch_history|]. intros h.
  apply shape_bind; [apply quiet_M_emit, quiet_prints|]. intros _.
  apply shape_bind; [apply quiet_M_emit; repeat constructor|]. intros _.
  apply shape_bind; [apply quiet_M_propose|]. intros skip_flag s.
  apply tail_update_after_reply.
Qed.

(** The same for a whole iteration, resume gate included. *)
Lemma loop_body_shape (start_from : option string) (index : nat) (e : entry)
  (s : state) :
  exists ev,
    out (snd (loop_body ltype wait_time auto_skip start_from history_page
                update_response entry_count index e s))
    = (out s ++ ev)%list /\
    update_after_reply ltype update_response e ev.
Proof.
  revert s. unfold loop_body.
  apply shape_bind; [apply quiet_M_resume_gate|]. intros _.
  unfold review.
  apply shape_bind; [apply quiet_M_print|]. intros _.
  apply shape_bind; [apply quiet_M_date_order_check|]. intros _.
  apply shape_bind; [apply quiet_M_auto_skip_check|]. intros _.
  apply shape_bind; [apply quiet_M_fetch_history|]. intros h.
  apply shape_bind; [apply quiet_M_emit, quiet_prints|]. intros _.
  apply shape_bind; [apply quiet_M_emit; repeat constructor|]. intros _.
  apply shape_bind; [apply quiet_M_propose|]. intros skip_flag s.
  apply tail_update_after_reply.
Qed.

End Updates.

(** *** The session as a whole *)

Lemma guarded_from_mono (tr : list event) (b : bool) :
  guarded_from false tr = true -> guarded_from b tr = true.
Proof.
  destruct tr as [|ev tr]; [reflexivity|]. cbn.
  destruct (is_update ev); [discriminate|]. destruct b; auto.
Qed.

Lemma guarded_from_app (t1 t2 : list event) :
  forall b, guarded_from b t1 = true -> guarded_from false t2 = true ->
            guarded_from b (t1 ++ t2) = true.
Proof.
  induction t1 as [|ev t1 IH]; intros b H1 H2.
  - now apply guarded_from_mono.
  - cbn in *. apply andb_prop in H1 as [Ha Hb]. rewrite Ha. cbn.
    now apply IH.
Qed.

Lemma guarded_from_quiet (ev : list event) :
  quiet ev -> forall b, guarded_from b ev = true.
Proof.
  induction 1 as [|x ev Hx _ IH]; intros b; [reflexivity|].
  cbn. rewrite Hx. cbn. apply IH.
Qed.

Lemma guarded_update_after_reply (ltype : list_type)
  (update_response : Z -> updates_dict -> string) (e : entry)
  (ev : list event) :
  update_after_reply ltype update_response e ev -> guarded ev = true.
Proof.
  unfold guarded. intros [Q|(pre & c & u & -> & Qpre & Hu)].
  - now apply guarded_from_quiet.
  - apply guarded_from_app; [now apply guarded_from_quiet|].
    cbn. destruct Hu as [[-> _]|[-> _]]; reflexivity.
Qed.

Lemma entries_loop_guarded (ltype : list_type) (wait_time : nat)
  (auto_skip : bool) (start_from : option string) (history_page : Z -> fetched)
  (update_response : Z -> updates_dict -> string) (entry_count : nat)
  (data : list entry) :
  forall (index : nat) (s : state),
  exists ev,
    out (snd (entries_loop ltype wait_time auto_skip start_from history_page
                update_response entry_count index data s))
    = (out s ++ ev)%list /\ guarded ev = true.
Proof.
  induction data as [|e data IH]; intros index s.
  - exists []. cbn. now rewrite app_nil_r.
  - cbn [entries_loop].
    destruct (loop_body_shape ltype wait_time auto_skip
                history_page update_response entry_count start_from index e s)
      as (ev1 & E1 & U1).
    apply guarded_update_after_reply in U1.
    destruct (loop_body ltype wait_time auto_skip start_from history_page
                update_response entry_count index e s) as [[u| | |x] s'];
      cbn [snd] in *; try (exists ev1; split; assumption);
      destruct (IH (S index) s') as (ev2 & E2 & G2);
      exists (ev1 ++ ev2)%list;
      (split; [now rewrite E2, E1, app_assoc|now apply guarded_from_app]).
Qed.

(** In every session, whatever the list, the pages, the arguments and
    the input, each update request comes directly after a reply Y or F to
    some question. *)
Theorem date_fixer_guarded (ltype : list_type) (wait_time : nat)
  (auto_skip : bool) (start_from : option string) (history_page : Z -> fetched)
  (update_response : Z -> updates_dict -> string)
  (user_list : res (list entry)) (lines : list string) :
  guarded (fst (date_fixer ltype wait_time auto_skip start_from history_page
                  update_response user_list lines)) = true.
Proof.
  unfold date_fixer. destruct user_list as [data|x]; [|reflexivity].
  destruct (entries_loop_guarded ltype wait_time auto_skip start_from
              history_page update_response (List.length data) data 0
              (initial_state start_from lines)) as (ev & E & G).
  destruct (entries_loop ltype wait_time auto_skip start_from history_page
              update_response (List.length data) 0 data
              (initial_state start_from lines)) as [[u| | |x] s'];
    cbn [snd fst] in *; rewrite E; cbn [initial_state out app];
    try assumption;
    apply guarded_from_app; auto.
Qed.



Section Replies.

Variable ltype : list_type.
Variable wait_time : nat.
Variable auto_skip : bool.
Variable history_page : Z -> fetched.
Variable update_response : Z -> updates_dict -> string.
Variable entry_count : nat.

Lemma review_from_proposal (index : nat) (e : entry) (h : list hist)
  (s s2 : state) (skip_flag : bool) (bad : list string) (c : string)
  (rest : list string) :
  both_populated e = false \/
  str_gt (get_or_unknown (ls_start_date e)) (get_or_unknown (ls_finish_date e)) = false ->
  auto_skip = false \/ (ls_status e = "completed" /\ both_populated e = false) ->
  _get_entry_history (history_page (node_id e)) = Ret h ->
  propose e h
    (after s (stdin s) (shown_before_proposal ltype wait_time entry_count index e h))
  = (Val skip_flag, s2) ->
  stdin s2 = (bad ++ c :: rest)%list ->
  Forall (fun r => is_choice r = false) bad ->
  is_choice c = true ->
  review ltype wait_time auto_skip history_page update_response entry_count
    index e s
  = (updates <- action c skip_flag ;;
     response <- update_entry ltype update_response (node_id e) updates ;;
     emit [PrintDict updates] ;;
     print ("<<< Sent proposed change as update request to MAL and received response code "
            ++ response) ;;
     print separator)
      (after s2 rest (retries bad ++ [Input choice_prompt (Some c)])).
Proof.
  intros Hord Hauto Hh Hprop Hin Hbad Hc.
  rewrite (review_reaches_proposal ltype wait_time auto_skip history_page
             update_response entry_count index e h s) by assumption.
  unfold bind at 1. unfold shown_before_proposal in Hprop. rewrite Hprop.
  unfold bind at 1.
  now rewrite (await_choice_retries s2 bad c rest).
Qed.

(** X14: an entry for which the engine returned [(sd, fd)], and the reply
    Y or y: one update request is sent, with the key [start_date] holding
    [sd] and the key [finish_date] holding [fd], in this order. *)
Theorem proceed_update (index : nat) (e : entry) (s : state)
  (h : list hist) (lines : list string) (sd fd : string)
  (bad : list string) (choice : string) (rest : list string) :
  ls_status e = "completed" ->
  both_populated e = false ->
  _get_entry_history (history_page (node_id e)) = Ret h ->
  h <> [] ->
  _determine_dates h = (lines, Ret (sd, fd)) ->
  stdin s = (bad ++ choice :: rest)%list ->
  Forall (fun r => is_choice r = false) bad ->
  py_upper choice = "Y" ->
  review ltype wait_time auto_skip history_page update_response entry_count
    index e s =
    (Val tt,
     after_dates s (sd, fd) rest
       (shown_before_proposal ltype wait_time entry_count index e h
        ++ map Print lines
        ++ [Print ("<<< Proposed change: Set start date to " ++ sd
                   ++ ". Set finish date to " ++ fd)]
        ++ retries bad
        ++ [Input choice_prompt (Some choice);
            UpdateRequest (node_id e) ltype
              [("start_date", sd); ("finish_date", fd)];
            PrintDict [("start_date", sd); ("finish_date", fd)];
            Print ("<<< Sent proposed change as update request to MAL and received response code "
                   ++ update_response (node_id e)
                        [("start_date", sd); ("finish_date", fd)]);
            Print separator])%list).
Proof.
  intros Hst Hpop Hh Hne Hd Hin Hbad Hc.
  assert (Hch : is_choice choice = true) by (unfold is_choice; now rewrite Hc).
  rewrite (review_from_proposal index e h s
             (after_dates (after s (stdin s)
                             (shown_before_proposal ltype wait_time entry_count index e h))
                (sd, fd) (stdin s)
                (map Print lines ++
                 [Print ("<<< Proposed change: Set start date to " ++ sd
                         ++ ". Set finish date to " ++ fd)]))
             false bad choice rest); auto.
  - unfold bind at 1. unfold action. rewrite Hc.
    cbn [String.eqb Ascii.eqb Bool.eqb].
    unfold bind at 1 2, ret, read_start_date, read_finish_date. step_M.
    rewrite submit_after. step_M.
    do 2 f_equal. unfold shown_before_proposal. rewrite <- !app_assoc.
    reflexivity.
  - now rewrite (propose_infer e h lines (sd, fd)).
Qed.

(** X15: with [auto_skip], an entry that is not completed, or has both
    dates, the start not after the finish, is passed over with two lines:
    no history is requested for it, no input is read, no update is sent
    and the date locals stay as they are. *)
Theorem auto_skip_skips (index : nat) (e : entry) (s : state) :
  auto_skip = true ->
  both_populated e = false \/
  str_gt (get_or_unknown (ls_start_date e)) (get_or_unknown (ls_finish_date e)) = false ->
  ls_status e <> "completed" \/ both_populated e = true ->
  review ltype wait_time auto_skip history_page update_response entry_count
    index e s
  = (Continue,
     after s (stdin s)
       [Print (entry_line entry_count index e);
        Print (auto_skip_line e);
        Print separator]).
Proof.
  intros Hauto Hord Hskip. unfold review.
  unfold bind at 1. step_M.
  unfold bind at 1. rewrite date_order_check_pass by assumption.
  unfold bind at 1. unfold auto_skip_check, auto_skip_line. rewrite Hauto.
  destruct (String.eqb_spec (ls_status e) "completed") as [E|E]; cbn [negb].
  - destruct Hskip as [Hskip|Hskip]; [contradiction|]. rewrite Hskip.
    unfold bind, continue_. step_M. reflexivity.
  - unfold bind, continue_. step_M. reflexivity.
Qed.

(** X16: the reply S or s, on whatever proposal: the entry is left as it
    is, no update request is sent, and the loop goes on to the next
    entry. *)
Theorem skip_reply (index : nat) (e : entry) (h : list hist) (s s2 : state)
  (skip_flag : bool) (bad : list string) (choice : string)
  (rest : list string) :
  both_populated e = false \/
  str_gt (get_or_unknown (ls_start_date e)) (get_or_unknown (ls_finish_date e)) = false ->
  auto_skip = false \/ (ls_status e = "completed" /\ both_populated e = false) ->
  _get_entry_history (history_page (node_id e)) = Ret h ->
  propose e h
    (after s (stdin s) (shown_before_proposal ltype wait_time entry_count index e h))
  = (Val skip_flag, s2) ->
  stdin s2 = (bad ++ choice :: rest)%list ->
  Forall (fun r => is_choice r = false) bad ->
  py_upper choice = "S" ->
  review ltype wait_time auto_skip history_page update_response entry_count
    index e s
  = (Continue,
     after s2 rest
       (retries bad ++
        [Input choice_prompt (Some choice);
         Print "<<< Skipping current entry on user request";
         Print separator])).
Proof.
  intros Hord Hauto Hh Hprop Hin Hbad Hc.
  assert (Hch : is_choice choice = true) by (unfold is_choice; now rewrite Hc).
  rewrite (review_from_proposal index e h s s2 skip_flag bad choice rest)
    by assumption.
  unfold bind at 1. unfold action. rewrite Hc.
  cbn [String.eqb Ascii.eqb Bool.eqb].
  unfold bind, continue_. step_M. now rewrite <- app_assoc.
Qed.

(** X17: the reply X or x, on whatever proposal, ends the loop: no update
    request is sent for the entry and the entries after it are not
    touched. *)
Theorem exit_reply_ends_loop (start_from : option string) (index : nat)
  (e : entry) (more : list entry) (h : list hist) (s s2 : state)
  (skip_flag : bool) (bad : list string) (choice : string)
  (rest : list string) :
  start_from_triggered s = true ->
  both_populated e = false \/
  str_gt (get_or_unknown (ls_start_date e)) (get_or_unknown (ls_finish_date e)) = false ->
  auto_skip = false \/ (ls_status e = "completed" /\ both_populated e = false) ->
  _get_entry_history (history_page (node_id e)) = Ret h ->
  propose e h
    (after s (stdin s) (shown_before_proposal ltype wait_time entry_count index e h))
  = (Val skip_flag, s2) ->
  stdin s2 = (bad ++ choice :: rest)%list ->
  Forall (fun r => is_choice r = false) bad ->
  py_upper choice = "X" ->
  entries_loop ltype wait_time auto_skip start_from history_page
    update_response entry_count index (e :: more) s
  = (Val tt,
     after s2 rest
       (retries bad ++
        [Input choice_prompt (Some choice);
         Print "<<< Exiting date_fixer function";
         Print separator])).
Proof.
  intros Hopen Hord Hauto Hh Hprop Hin Hbad Hc.
  assert (Hch : is_choice choice = true) by (unfold is_choice; now rewrite Hc).
  cbn [entries_loop]. rewrite loop_body_open by assumption.
  rewrite (review_from_proposal index e h s s2 skip_flag bad choice rest)
    by assumption.
  unfold bind at 1. unfold action. rewrite Hc.
  cbn [String.eqb Ascii.eqb Bool.eqb].
  unfold bind, break_. step_M. now rewrite <- app_assoc.
Qed.

(** X18: the reply Y or y to a skip proposal: the entry is skipped as
    proposed and no update request is sent. *)
Theorem proceed_on_skip_proposal (index : nat) (e : entry) (s : state)
  (h : list hist) (bad : list string) (choice : string) (rest : list string) :
  ls_status e <> "completed" \/ both_populated e = true ->
  both_populated e = false \/
  str_gt (get_or_unknown (ls_start_date e)) (get_or_unknown (ls_finish_date e)) = false ->
  auto_skip = false ->
  _get_entry_history (history_page (node_id e)) = Ret h ->
  stdin s = (bad ++ choice :: rest)%list ->
  Forall (fun r => is_choice r = false) bad ->
  py_upper choice = "Y" ->
  review ltype wait_time auto_skip history_page update_response entry_count
    index e s
  = (Continue,
     after s rest
       (shown_before_proposal ltype wait_time entry_count index e h
        ++ [Print (skip_proposal e)]
        ++ retries bad
        ++ [Input choice_prompt (Some choice);
            Print "<<< Skipping current entry as proposed change";
            Print separator])%list).
Proof.
  intros Hskip Hord Hauto Hh Hin Hbad Hc.
  assert (Hch : is_choice choice = true) by (unfold is_choice; now rewrite Hc).
  rewrite (review_from_proposal index e h s
             (after (after s (stdin s)
                       (shown_before_proposal ltype wait_time entry_count index e h))
                (stdin s) [Print (skip_proposal e)])
             true bad choice rest); auto.
  - unfold bind at 1. unfold action. rewrite Hc.
    cbn [String.eqb Ascii.eqb Bool.eqb].
    unfold bind, continue_. step_M.
    do 2 f_equal. rewrite <- !app_assoc. reflexivity.
  - now rewrite propose_skip.
Qed.

(** X19: an exception raised while the history of an entry is fetched, a
    failing status of the response as well as a record with too few
    tokens, ends the loop with that exception right after the request;
    the entries after it are not reviewed. *)
Theorem fetch_error_ends_loop (start_from : option string) (index : nat)
  (e : entry) (more : list entry) (s : state) (x : exn) :
  start_from_triggered s = true ->
  both_populated e = false \/
  str_gt (get_or_unknown (ls_start_date e)) (get_or_unknown (ls_finish_date e)) = false ->
  auto_skip = false \/ (ls_status e = "completed" /\ both_populated e = false) ->
  _get_entry_history (history_page (node_id e)) = Raise x ->
  entries_loop ltype wait_time auto_skip start_from history_page
    update_response entry_count index (e :: more) s
  = (Exc x,
     after s (stdin s)
       [Print (entry_line entry_count index e);
        HistoryRequest (node_id e) ltype]).
Proof.
  intros Hopen Hord Hauto Hraise.
  cbn [entries_loop]. rewrite loop_body_open by assumption.
  unfold review.
  unfold bind at 1. step_M.
  unfold bind at 1. rewrite date_order_check_pass by assumption.
  unfold bind at 1. rewrite auto_skip_check_pass by assumption.
  unfold bind at 1. rewrite fetch_history_after, Hraise. step_M.
  reflexivity.
Qed.

End Replies.

(** ** The cached lists *)

(** X20: once a call of [get_anime_list] has returned a list, every later
    call without [overwrite] returns that same list and makes no request,
    whatever limit it is given and whatever the site would now answer. *)
Theorem get_anime_list_cached (u u' : MALUser) (limit : Z) (overwrite : bool)
  (answer : res list_json) (reqs : list list_request) (l : list_json) :
  get_anime_list u limit overwrite answer = (reqs, Ret l, u') ->
  forall (limit' : Z) (answer' : res list_json),
    get_anime_list u' limit' false answer' = ([], Ret l, u').
Proof.
  unfold get_anime_list, _get_list. intros H limit' answer'.
  destruct (my_anime_list u) as [c|] eqn:Hc; [destruct overwrite|];
    try (destruct answer as [l0|x]; inversion H; subst; reflexivity).
  inversion H; subst. now rewrite Hc.
Qed.

Lemma get_anime_list_cached_witness :
  get_anime_list
    {| user_name := "@me"; user_headers := "Bearer t";
       my_anime_list := Some [Scenario.entry_B]; my_manga_list := None |}
    5 false (Ret [Scenario.entry_W])
  = ([], Ret [Scenario.entry_B],
     {| user_name := "@me"; user_headers := "Bearer t";
        my_anime_list := Some [Scenario.entry_B]; my_manga_list := None |}).
Proof.
  apply (get_anime_list_cached (new_user "@me" "Bearer t") _ 1000 false
           (Ret [Scenario.entry_B])
           [Get (list_url "@me" Anime 1000) "Bearer t"] [Scenario.entry_B]
           eq_refl 5 (Ret [Scenario.entry_W])).
Defined.

(** X21: a call of [get_anime_list] that raises has made one request and
    leaves the object as it was: after a failed refresh with [overwrite]
    the list fetched before is still there. *)
Theorem get_anime_list_failure (u u' : MALUser) (limit : Z) (overwrite : bool)
  (answer : res list_json) (reqs : list list_request) (x : exn) :
  get_anime_list u limit overwrite answer = (reqs, Raise x, u') ->
  u' = u /\ answer = Raise x /\
  reqs = [Get (list_url (user_name u) Anime limit) (user_headers u)].
Proof.
  unfold get_anime_list, _get_list. intros H.
  destruct (my_anime_list u) as [c|]; [destruct overwrite|];
    try discriminate;
    destruct answer as [l0|x0]; inversion H; subst; auto.
Qed.

Lemma get_anime_list_failure_witness :
  {| user_name := "@me"; user_headers := "Bearer t";
     my_anime_list := Some [Scenario.entry_B]; my_manga_list := None |}
  = {| user_name := "@me"; user_headers := "Bearer t";
       my_anime_list := Some [Scenario.entry_B]; my_manga_list := None |} /\
  @Raise list_json HTTPError = Raise HTTPError /\
  [Get (list_url "@me" Anime 50) "Bearer t"]
  = [Get (list_url "@me" Anime 50) "Bearer t"].
Proof.
  apply (get_anime_list_failure
           {| user_name := "@me"; user_headers := "Bearer t";
              my_anime_list := Some [Scenario.entry_B]; my_manga_list := None |}
           _ 50 true (Raise HTTPError) _ HTTPError).
  reflexivity.
Defined.

(** ** The user table *)

Lemma lookup_user_app (name : string) (d1 d2 : list (string * MALUser)) :
  lookup_user name (d1 ++ d2) =
    match lookup_user name d1 with
    | Some u => Some u
    | None => lookup_user name d2
    end.
Proof.
  induction d1 as [|[n v] d1 IH]; simpl; [reflexivity|].
  destruct (n =? name); [reflexivity|exact IH].
Qed.

(** X22: [add_user] never replaces a user: a name already in the table
    keeps its object, with its cached lists, and the table is unchanged;
    a new name gets a fresh object with the helper's header and no list,
    and the other names are not touched. *)
Theorem add_user_lookup (name : string) (H : MALHelper) (m : string) :
  lookup_user m (user_lists (add_user name H)) =
    match lookup_user m (user_lists H) with
    | Some u => Some u
    | None =>
        if name =? m then Some (new_user name (helper_headers H)) else None
    end.
Proof.
  unfold add_user.
  destruct (lookup_user name (user_lists H)) as [u|] eqn:Hn.
  - destruct (lookup_user m (user_lists H)) as [v|] eqn:Hm; [reflexivity|].
    destruct (String.eqb_spec name m) as [->|_]; [congruence|reflexivity].
  - cbn [user_lists]. rewrite lookup_user_app. reflexivity.
Qed.

Lemma add_user_present (name : string) (H : MALHelper) :
  exists u, lookup_user name (user_lists (add_user name H)) = Some u.
Proof.
  unfold add_user.
  destruct (lookup_user name (user_lists H)) as [u|] eqn:Hn.
  - exists u. exact Hn.
  - cbn [user_lists]. rewrite lookup_user_app, Hn. cbn.
    rewrite String.eqb_refl. eauto.
Qed.

(** X23: [add_user] is idempotent. *)
Theorem add_user_twice (name : string) (H : MALHelper) :
  add_user name (add_user name H) = add_user name H.
Proof.
  destruct (add_user_present name H) as [u Hu].
  unfold add_user at 1. now rewrite Hu.
Qed.

(** ** Two runs on one helper object *)

Lemma store_user_app_absent (name : string) (u v : MALUser)
  (d : list (string * MALUser)) :
  lookup_user name d = None ->
  store_user name u (d ++ [(name, v)]) = (d ++ [(name, u)])%list.
Proof.
  induction d as [|[n w] d IH]; simpl.
  - now rewrite String.eqb_refl.
  - destruct (n =? name); [discriminate|]. intros H. now rewrite IH.
Qed.

(** X24: a helper object that has not yet a user [@me] fetches the list
    in its first run of [date_fixer]; every later run for the same kind of
    list on that object makes no list request and reviews the list as it
    was fetched then, whatever the site would answer now: the dates set
    through the first run do not show in the second. *)
Theorem date_fixer_method_snapshot (H : MALHelper) (ltype : list_type)
  (wait_time : nat) (auto_skip : bool) (start_from : option string)
  (history_page : Z -> fetched) (update_response : Z -> updates_dict -> string)
  (data : list_json) (lines : list string) :
  lookup_user "@me" (user_lists H) = None ->
  exists H1,
    date_fixer_method H ltype wait_time auto_skip start_from history_page
      update_response (Ret data) lines
    = ([Get (list_url "@me" ltype 1000) (helper_headers H)],
       date_fixer ltype wait_time auto_skip start_from history_page
         update_response (Ret data) lines,
       H1) /\
    forall (wait_time' : nat) (auto_skip' : bool) (start_from' : option string)
           (history_page' : Z -> fetched)
           (update_response' : Z -> updates_dict -> string)
           (answer' : res list_json) (lines' : list string),
      date_fixer_method H1 ltype wait_time' auto_skip' start_from'
        history_page' update_response' answer' lines'
      = ([],
         date_fixer ltype wait_time' auto_skip' start_from' history_page'
           update_response' (Ret data) lines',
         H1).
Proof.
  intros Hnone.
  assert (Hadd : add_user "@me" H =
            {| access_token := access_token H;
               helper_headers := helper_headers H;
               user_lists := user_lists H
                             ++ [("@me", new_user "@me" (helper_headers H))] |})
    by (unfold add_user; now rewrite Hnone).
  assert (Hfind : forall u,
            lookup_user "@me" (user_lists H ++ [("@me", u)]) = Some u).
  { intros u. rewrite lookup_user_app, Hnone. cbn [lookup_user].
    now rewrite String.eqb_refl. }
  assert (Hkeep : forall u a hh,
            add_user "@me"
              {| access_token := a; helper_headers := hh;
                 user_lists := user_lists H ++ [("@me", u)] |}
            = {| access_token := a; helper_headers := hh;
                 user_lists := user_lists H ++ [("@me", u)] |}).
  { intros u a hh. unfold add_user. cbn [user_lists]. now rewrite Hfind. }
  unfold date_fixer_method at 1. rewrite Hadd.
  cbn [user_lists helper_headers access_token]. rewrite Hfind.
  destruct ltype.
  - unfold get_anime_list, _get_list, new_user.
    cbn [my_anime_list user_name user_headers my_manga_list].
    rewrite store_user_app_absent by assumption.
    eexists. split; [reflexivity|]. intros.
    unfold date_fixer_method. rewrite Hkeep.
    cbn [user_lists helper_headers access_token]. rewrite Hfind.
    unfold get_anime_list. cbn [my_anime_list].
    rewrite store_user_app_absent by assumption. reflexivity.
  - unfold get_manga_list, _get_list, new_user.
    cbn [my_anime_list user_name user_headers my_manga_list].
    rewrite store_user_app_absent by assumption.
    eexists. split; [reflexivity|]. intros.
    unfold date_fixer_method. rewrite Hkeep.
    cbn [user_lists helper_headers access_token]. rewrite Hfind.
    unfold get_manga_list. cbn [my_manga_list].
    rewrite store_user_app_absent by assumption. reflexivity.
Qed.

Lemma date_fixer_method_snapshot_witness :
  exists H1,
    date_fixer_method (new_helper "t") Anime 1 false None
      (fun _ => Divs []) Scenario.response_200 (Ret [Scenario.entry_B]) ["ok"]
    = ([Get (list_url "@me" Anime 1000) (helper_headers (new_helper "t"))],
       date_fixer Anime 1 false None (fun _ => Divs []) Scenario.response_200
         (Ret [Scenario.entry_B]) ["ok"],
       H1) /\
    forall (wait_time' : nat) (auto_skip' : bool) (start_from' : option string)
           (history_page' : Z -> fetched)
           (update_response' : Z -> updates_dict -> string)
           (answer' : res list_json) (lines' : list string),
      date_fixer_method H1 Anime wait_time' auto_skip' start_from'
        history_page' update_response' answer' lines'
      = ([],
         date_fixer Anime wait_time' auto_skip' start_from' history_page'
           update_response' (Ret [Scenario.entry_B]) lines',
         H1).
Proof.
  apply (date_fixer_method_snapshot (new_helper "t") Anime 1 false None
           (fun _ => Divs []) Scenario.response_200 [Scenario.entry_B] ["ok"]).
  reflexivity.
Defined.

(** ** The further properties on the sample data *)

(** A resume title met at the second of two entries. *)
Lemma resume_skips_prefix_witness :
  entries_loop Anime 1 false (Some "Working") (fun _ => Divs [])
    Scenario.response_200 2 0 [Scenario.entry_B; Scenario.entry_W]
    (initial_state (Some "Working") ["S"])
  = (Val tt,
     opened
       (after (initial_state (Some "Working") ["S"]) []
          [Print "Skipped 1";
           Print "2/2 [WATCHING] Working (5). Current start date: UNKNOWN. Current finish date: UNKNOWN.";
           HistoryRequest 5 Anime;
           Sleep 1;
           Print "<<< Proposed change: Skip entry as the status is not completed";
           Input choice_prompt (Some "S");
           Print "<<< Skipping current entry on user request";
           Print separator])).
Proof.
  refine (eq_trans
            (resume_skips_prefix Anime 1 false (fun _ => Divs [])
               Scenario.response_200 2 "Working" [Scenario.entry_B] 0
               Scenario.entry_W [] (initial_state (Some "Working") ["S"])
               _ _ _) _).
  - reflexivity.
  - constructor; [discriminate|constructor].
  - reflexivity.
  - reflexivity.
Defined.

(** A resume title that no entry has. *)
Lemma date_fixer_no_resume_witness :
  date_fixer Anime 1 false (Some "Akira") (fun _ => Scenario.page_A)
    Scenario.response_200 (Ret [Scenario.entry_B; Scenario.entry_W]) ["Y"]
  = ([Print "Skipped 1"; Print "Skipped 2"; Print "All done!"], None).
Proof.
  apply (date_fixer_no_resume Anime 1 false "Akira" (fun _ => Scenario.page_A)
           Scenario.response_200 [Scenario.entry_B; Scenario.entry_W] ["Y"]).
  repeat constructor; discriminate.
Defined.

Lemma resume_then_as_without_witness :
  entries_loop Anime 1 false (Some "Baccano") (fun _ => Divs [])
    Scenario.response_200 2 1 [Scenario.entry_W]
    (opened (initial_state (Some "Baccano") ["S"]))
  = entries_loop Anime 1 false None (fun _ => Divs [])
      Scenario.response_200 2 1 [Scenario.entry_W]
      (opened (initial_state (Some "Baccano") ["S"])).
Proof.
  apply (resume_then_as_without Anime 1 false (Some "Baccano")
           (fun _ => Divs []) Scenario.response_200 2 [Scenario.entry_W] 1
           (opened (initial_state (Some "Baccano") ["S"]))).
  reflexivity.
Defined.

(** Scenario D answered with y after a reply that is not understood. *)
Lemma proceed_update_witness :
  review Anime 1 false (fun _ => Scenario.page_A) Scenario.response_200 1 0
    Scenario.entry_D (initial_state None ["yes"; "y"])
  = (Val tt,
     after_dates (initial_state None ["yes"; "y"]) ("2021-01-03", "2021-01-05") []
       [Print "1/1 [COMPLETED] Dororo (4). Current start date: 2021-01-01. Current finish date: UNKNOWN.";
        HistoryRequest 4 Anime;
        Print "[2021-01-05 10:00] Watched episode 3";
        Print "[2021-01-04 09:00] Watched episode 2";
        Print "[2021-01-03 08:00] Watched episode 1";
        Sleep 1;
        Print "<<< Earliest episode/chapter 1 was first watched/read at 2021-01-03 08:00";
        Print "<<< Last episode/chapter 3 was first watched/read at 2021-01-05 10:00";
        Print "<<< Proposed change: Set start date to 2021-01-03. Set finish date to 2021-01-05";
        Input choice_prompt (Some "yes");
        Print "<<< Did not understand input 'yes'. Please try again";
        Input choice_prompt (Some "y");
        UpdateRequest 4 Anime
          [("start_date", "2021-01-03"); ("finish_date", "2021-01-05")];
        PrintDict [("start_date", "2021-01-03"); ("finish_date", "2021-01-05")];
        Print "<<< Sent proposed change as update request to MAL and received response code <Response [200]>";
        Print separator]).
Proof.
  apply (proceed_update Anime 1 false (fun _ => Scenario.page_A)
           Scenario.response_200 1 0 Scenario.entry_D
           (initial_state None ["yes"; "y"])
           [(PyStr "3", "2021-01-05", "10:00"); (PyStr "2", "2021-01-04", "09:00");
            (PyStr "1", "2021-01-03", "08:00")]
           ["<<< Earliest episode/chapter 1 was first watched/read at 2021-01-03 08:00";
            "<<< Last episode/chapter 3 was first watched/read at 2021-01-05 10:00"]
           "2021-01-03" "2021-01-05" ["yes"] "y" []).
  - reflexivity.
  - reflexivity.
  - reflexivity.
  - discriminate.
  - reflexivity.
  - reflexivity.
  - repeat constructor.
  - reflexivity.
Defined.

Lemma auto_skip_skips_witness :
  review Anime 1 true (fun _ => Scenario.page_A) Scenario.response_200 1 0
    Scenario.entry_W (initial_state None ["Y"])
  = (Continue,
     after (initial_state None ["Y"]) ["Y"]
       [Print "1/1 [WATCHING] Working (5). Current start date: UNKNOWN. Current finish date: UNKNOWN.";
        Print "<<< Skipping entry as the status is not completed";
        Print separator]).
Proof.
  apply (auto_skip_skips Anime 1 true (fun _ => Scenario.page_A)
           Scenario.response_200 1 0 Scenario.entry_W (initial_state None ["Y"])).
  - reflexivity.
  - left. reflexivity.
  - left. discriminate.
Defined.

Lemma skip_reply_witness :
  review Anime 1 false (fun _ => Divs []) Scenario.response_200 2 0
    Scenario.entry_W (initial_state None ["s"])
  = (Continue,
     after
       (after (initial_state None ["s"]) ["s"]
          [Print "1/2 [WATCHING] Working (5). Current start date: UNKNOWN. Current finish date: UNKNOWN.";
           HistoryRequest 5 Anime;
           Sleep 1;
           Print "<<< Proposed change: Skip entry as the status is not completed"])
       []
       [Input choice_prompt (Some "s");
        Print "<<< Skipping current entry on user request";
        Print separator]).
Proof.
  apply (skip_reply Anime 1 false (fun _ => Divs []) Scenario.response_200 2 0
           Scenario.entry_W [] (initial_state None ["s"])
           (after (initial_state None ["s"]) ["s"]
              [Print "1/2 [WATCHING] Working (5). Current start date: UNKNOWN. Current finish date: UNKNOWN.";
               HistoryRequest 5 Anime;
               Sleep 1;
               Print "<<< Proposed change: Skip entry as the status is not completed"])
           true [] "s" []).
  - left. reflexivity.
  - left. reflexivity.
  - reflexivity.
  - reflexivity.
  - reflexivity.
  - constructor.
  - reflexivity.
Defined.

Lemma exit_reply_ends_loop_witness :
  entries_loop Anime 1 false None (fun _ => Divs []) Scenario.response_200 2 0
    [Scenario.entry_W; Scenario.entry_D] (initial_state None ["x"; "Y"])
  = (Val tt,
     after
       (after (initial_state None ["x"; "Y"]) ["x"; "Y"]
          [Print "1/2 [WATCHING] Working (5). Current start date: UNKNOWN. Current finish date: UNKNOWN.";
           HistoryRequest 5 Anime;
           Sleep 1;
           Print "<<< Proposed change: Skip entry as the status is not completed"])
       ["Y"]
       [Input choice_prompt (Some "x");
        Print "<<< Exiting date_fixer function";
        Print separator]).
Proof.
  apply (exit_reply_ends_loop Anime 1 false (fun _ => Divs [])
           Scenario.response_200 2 None 0 Scenario.entry_W [Scenario.entry_D]
           [] (initial_state None ["x"; "Y"])
           (after (initial_state None ["x"; "Y"]) ["x"; "Y"]
              [Print "1/2 [WATCHING] Working (5). Current start date: UNKNOWN. Current finish date: UNKNOWN.";
               HistoryRequest 5 Anime;
               Sleep 1;
               Print "<<< Proposed change: Skip entry as the status is not completed"])
           true [] "x" ["Y"]).
  - reflexivity.
  - left. reflexivity.
  - left. reflexivity.
  - reflexivity.
  - reflexivity.
  - reflexivity.
  - constructor.
  - reflexivity.
Defined.

Lemma proceed_on_skip_proposal_witness :
  review Anime 1 false (fun _ => Divs []) Scenario.response_200 1 0
    Scenario.entry_W (initial_state None ["Y"])
  = (Continue,
     after (initial_state None ["Y"]) []
       [Print "1/1 [WATCHING] Working (5). Current start date: UNKNOWN. Current finish date: UNKNOWN.";
        HistoryRequest 5 Anime;
        Sleep 1;
        Print "<<< Proposed change: Skip entry as the status is not completed";
        Input choice_prompt (Some "Y");
        Print "<<< Skipping current entry as proposed change";
        Print separator]).
Proof.
  apply (proceed_on_skip_proposal Anime 1 false (fun _ => Divs [])
           Scenario.response_200 1 0 Scenario.entry_W
           (initial_state None ["Y"]) [] [] "Y" []).
  - left. discriminate.
  - left. reflexivity.
  - reflexivity.
  - reflexivity.
  - reflexivity.
  - constructor.
  - reflexivity.
Defined.

(** A failing status for the first of two entries. *)
Lemma fetch_error_ends_loop_witness :
  entries_loop Anime 1 false None (fun _ => BadStatus) Scenario.response_200
    2 0 [Scenario.entry_B; Scenario.entry_W] (initial_state None ["Y"])
  = (Exc HTTPError,
     after (initial_state None ["Y"]) ["Y"]
       [Print "1/2 [COMPLETED] Baccano (2). Current start date: UNKNOWN. Current finish date: UNKNOWN.";
        HistoryRequest 2 Anime]).
Proof.
  apply (fetch_error_ends_loop Anime 1 false (fun _ => BadStatus)
           Scenario.response_200 2 None 0 Scenario.entry_B [Scenario.entry_W]
           (initial_state None ["Y"]) HTTPError).
  - reflexivity.
  - left. reflexivity.
  - left. reflexivity.
  - reflexivity.
Defined.

(** * The value that F sends *)

Lemma bind_val_snd {A B : Type} (c : M A) (k : A -> M B) (s s1 : state) (a : A) :
  c s = (Val a, s1) -> bind c k s = k a s1.
Proof. intros H. unfold bind. now rewrite H. Qed.

Lemma bind_stop_dates {A B : Type} (c : M A) (k : A -> M B) (s : state) :
  keeps c -> (forall a, fst (c s) <> Val a) ->
  dates_of (snd (bind c k s)) = dates_of s.
Proof.
  intros Hk Hstop. unfold bind. specialize (Hk s).
  destruct (c s) as [[a| | |x] s1]; cbn [fst snd] in *; try assumption.
  now destruct (Hstop a).
Qed.

Lemma bind_tail_dates {A B : Type} (c : M A) (k : A -> M B) (s : state) :
  (forall a, keeps (k a)) ->
  dates_of (snd (bind c k s)) = dates_of (snd (c s)).
Proof.
  intros Hk. unfold bind.
  destruct (c s) as [[a| | |x] s1]; cbn [snd]; try reflexivity. apply Hk.
Qed.

Lemma date_order_check_stops (e : entry) (s : state) :
  both_populated e
  && str_gt (get_or_unknown (ls_start_date e)) (get_or_unknown (ls_finish_date e))
  = true ->
  forall a, fst (date_order_check e s) <> Val a.
Proof.
  intros H a. apply andb_prop in H as [H1 H2].
  unfold date_order_check. rewrite H1, H2.
  unfold bind, print, emit, input, continue_. cbn [stdin].
  destruct (stdin s); discriminate.
Qed.

Lemma auto_skip_check_stops (auto_skip : bool) (e : entry) (s : state) :
  auto_skip && (negb (ls_status e =? "completed") || both_populated e) = true ->
  forall a, fst (auto_skip_check auto_skip e s) <> Val a.
Proof.
  intros H a. apply andb_prop in H as [-> H2].
  unfold auto_skip_check.
  destruct (negb (ls_status e =? "completed")); [discriminate|].
  cbn in H2. rewrite H2. discriminate.
Qed.

Lemma propose_dates (e : entry) (h : list hist) (s : state) :
  dates_of (snd (propose e h s)) =
    match inferred_of e h with
    | Some p => (Some (fst p), Some (snd p))
    | None => dates_of s
    end.
Proof.
  unfold propose, inferred_of.
  destruct (negb (ls_status e =? "completed")); [reflexivity|].
  destruct (both_populated e); [reflexivity|].
  destruct (List.length h =? 0)%nat.
  - unfold bind, print, emit, input, continue_. cbn [stdin].
    destruct (stdin s); reflexivity.
  - unfold determine_dates.
    destruct (_determine_dates h) as [lines [p|x]]; reflexivity.
Qed.

Section Leftover.

Variable ltype : list_type.
Variable wait_time : nat.
Variable auto_skip : bool.
Variable start_from : option string.
Variable history_page : Z -> fetched.
Variable update_response : Z -> updates_dict -> string.
Variable entry_count : nat.

(** What the review of an entry does to the date locals, however it
    ends. *)
Lemma review_dates (index : nat) (e : entry) (s : state) :
  dates_of (snd (review ltype wait_time auto_skip history_page update_response
                   entry_count index e s)) =
    match inferred_pair auto_skip history_page e with
    | Some p => (Some (fst p), Some (snd p))
    | None => dates_of s
    end.
Proof.
  unfold review, inferred_pair.
  rewrite (bind_val_snd _ _ s _ tt (print_after _ s)).
  set (s1 := after s (stdin s) [Print (entry_line entry_count index e)]).
  change (dates_of s) with (dates_of s1). clearbody s1.
  destruct (both_populated e && str_gt _ _) eqn:Hord.
  { apply bind_stop_dates;
      [apply keeps_date_order_check|now apply date_order_check_stops]. }
  rewrite (bind_val_snd _ _ s1 s1 tt).
  2:{ apply date_order_check_pass. apply andb_false_iff in Hord. tauto. }
  destruct (auto_skip && _) eqn:Hauto.
  { apply bind_stop_dates;
      [apply keeps_auto_skip_check|now apply auto_skip_check_stops]. }
  rewrite (bind_val_snd _ _ s1 s1 tt).
  2:{ apply auto_skip_check_pass.
      apply andb_false_iff in Hauto as [->|Hauto]; [now left|right].
      apply orb_false_iff in Hauto as [H1 H2].
      apply negb_false_iff, String.eqb_eq in H1. now split. }
  unfold bind at 1. rewrite fetch_history_after.
  destruct (_get_entry_history (history_page (node_id e))) as [h|x];
    [|reflexivity].
  set (s2 := after s1 (stdin s1) [HistoryRequest (node_id e) ltype]).
  change (dates_of s1) with (dates_of s2). clearbody s2.
  rewrite (bind_val_snd _ _ s2 _ tt (emit_after _ s2)).
  set (s3 := after s2 (stdin s2) _).
  change (dates_of s2) with (dates_of s3). clearbody s3.
  rewrite (bind_val_snd _ _ s3 _ tt (emit_after _ s3)).
  set (s4 := after s3 (stdin s3) _).
  change (dates_of s3) with (dates_of s4). clearbody s4.
  rewrite bind_tail_dates.
  - apply propose_dates.
  - intros skip_flag.
    apply keeps_bind; [apply keeps_await_choice|]. intros user_choice.
    apply keeps_bind; [apply keeps_action|]. intros updates.
    apply keeps_bind; [apply keeps_update_entry|]. intros response.
    apply keeps_bind; [apply keeps_emit|]. intros _.
    apply keeps_bind; [apply keeps_emit|]. intros _. apply keeps_emit.
Qed.

Lemma reach_open (before : list entry) :
  forall (index : nat) (s s1 : state),
    start_from_triggered s = true ->
    reach ltype wait_time auto_skip start_from history_page update_response
      entry_count index before s = Some s1 ->
    start_from_triggered s1 = true /\
    finish_date s1 = leftover_finish auto_skip history_page before (finish_date s).
Proof.
  induction before as [|e before IH]; intros index s s1 Hopen Hreach.
  - inversion Hreach; subst. now split.
  - cbn [reach] in Hreach. rewrite loop_body_open in Hreach by assumption.
    pose proof (keeps_gate_review ltype wait_time auto_skip history_page
                  update_response entry_count index e s) as Hgate.
    pose proof (review_dates index e s) as Hdates.
    destruct (review ltype wait_time auto_skip history_page update_response
                entry_count index e s) as [[u| | |x] s'];
      cbn [snd] in *; try discriminate;
      (destruct (IH (S index) s' s1) as [Ho Hf];
       [congruence|assumption|]; split; [assumption|]);
      rewrite Hf; unfold leftover_finish; cbn [fold_left]; f_equal;
      unfold dates_of in Hdates;
      destruct (inferred_pair auto_skip history_page e);
      inversion Hdates; reflexivity.
Qed.

Lemma entries_loop_reach (before : list entry) :
  forall (index : nat) (rest : list entry) (s s1 : state),
    reach ltype wait_time auto_skip start_from history_page update_response
      entry_count index before s = Some s1 ->
    entries_loop ltype wait_time auto_skip start_from history_page
      update_response entry_count index (before ++ rest) s
    = entries_loop ltype wait_time auto_skip start_from history_page
        update_response entry_count (index + List.length before) rest s1.
Proof.
  induction before as [|e before IH]; intros index rest s s1 Hreach.
  - inversion Hreach; subst. cbn. now rewrite Nat.add_0_r.
  - cbn [reach] in Hreach. cbn [app entries_loop List.length].
    destruct (loop_body ltype wait_time auto_skip start_from history_page
                update_response entry_count index e s) as [[u| | |x] s'];
      try discriminate;
      rewrite (IH (S index) rest s' s1 Hreach); f_equal; lia.
Qed.

Lemma leftover_finish_last (l1 l2 : list entry) (e' : entry)
  (p : string * string) (d0 : option string) :
  inferred_pair auto_skip history_page e' = Some p ->
  Forall (fun x => inferred_pair auto_skip history_page x = None) l2 ->
  leftover_finish auto_skip history_page (l1 ++ e' :: l2) d0 = Some (snd p).
Proof.
  intros He' Hl2. unfold leftover_finish.
  rewrite fold_left_app. cbn [fold_left]. rewrite He'.
  generalize (Some (snd p)) as d.
  induction Hl2 as [|x l2 Hx _ IH]; intros d; [reflexivity|].
  cbn [fold_left]. rewrite Hx. apply IH.
Qed.

Lemma leftover_finish_none (l : list entry) (d0 : option string) :
  Forall (fun x => inferred_pair auto_skip history_page x = None) l ->
  leftover_finish auto_skip history_page l d0 = d0.
Proof.
  unfold leftover_finish.
  induction 1 as [|x l Hx _ IH]; [reflexivity|].
  cbn [fold_left]. now rewrite Hx.
Qed.

(** C10: a session that comes, after the entries [before], to an entry [e]
    whose proposal is a skip (status other than [completed], or both
    dates populated), answered with F or f.  The entry is not skipped.
    When a pair was inferred for some entry of [before], the update
    request sent for [e] carries, under the key [finish_date], the finish
    date inferred for the last such entry, whatever the history of [e]
    is, and the loop goes on; when none was inferred and the local was
    not bound at the start, as in [initial_state], the session ends with
    [UnboundLocalError] at the dictionary literal. *)
Theorem finish_only_sends_leftover (index : nat) (before : list entry)
  (e : entry) (more : list entry) (s0 s : state) (h : list hist)
  (bad : list string) (choice : string) (rest : list string) :
  start_from_triggered s0 = true ->
  reach ltype wait_time auto_skip start_from history_page update_response
    entry_count index before s0 = Some s ->
  ls_status e <> "completed" \/ both_populated e = true ->
  both_populated e = false \/
  str_gt (get_or_unknown (ls_start_date e)) (get_or_unknown (ls_finish_date e)) = false ->
  auto_skip = false ->
  _get_entry_history (history_page (node_id e)) = Ret h ->
  stdin s = (bad ++ choice :: rest)%list ->
  Forall (fun r => is_choice r = false) bad ->
  py_upper choice = "F" ->
  (forall (l1 : list entry) (e' : entry) (l2 : list entry) (p : string * string),
      before = (l1 ++ e' :: l2)%list ->
      inferred_pair auto_skip history_page e' = Some p ->
      Forall (fun x => inferred_pair auto_skip history_page x = None) l2 ->
      entries_loop ltype wait_time auto_skip start_from history_page
        update_response entry_count index (before ++ e :: more) s0
      = entries_loop ltype wait_time auto_skip start_from history_page
          update_response entry_count (S (index + List.length before)) more
          (after s rest
             ([Print (entry_line entry_count (index + List.length before) e);
               HistoryRequest (node_id e) ltype]
              ++ map (fun x => Print (history_line ltype x)) h
              ++ [Sleep wait_time; Print (skip_proposal e)]
              ++ retries bad
              ++ [Input choice_prompt (Some choice);
                  UpdateRequest (node_id e) ltype [("finish_date", snd p)];
                  PrintDict [("finish_date", snd p)];
                  Print ("<<< Sent proposed change as update request to MAL and received response code "
                         ++ update_response (node_id e) [("finish_date", snd p)]);
                  Print separator])%list))
  /\
  (Forall (fun x => inferred_pair auto_skip history_page x = None) before ->
   finish_date s0 = None ->
   entries_loop ltype wait_time auto_skip start_from history_page
     update_response entry_count index (before ++ e :: more) s0
   = (Exc UnboundLocalError,
      after s rest
        ([Print (entry_line entry_count (index + List.length before) e);
          HistoryRequest (node_id e) ltype]
         ++ map (fun x => Print (history_line ltype x)) h
         ++ [Sleep wait_time; Print (skip_proposal e)]
         ++ retries bad
         ++ [Input choice_prompt (Some choice)])%list)).
Proof.
  intros Hopen Hreach Hskip Hord Hauto Hh Hin Hbad Hc.
  destruct (reach_open before index s0 s Hopen Hreach) as [Hopen' Hfin].
  pose proof (proj1 (finish_only_on_skip_proposal ltype wait_time auto_skip
                       history_page update_response entry_count
                       (index + List.length before) e s h bad choice rest
                       Hskip Hord Hauto Hh Hin Hbad Hc)) as Hstep.
  split.
  - intros l1 e' l2 p Hbefore He' Hl2.
    rewrite (entries_loop_reach before index (e :: more) s0 s Hreach).
    cbn [entries_loop]. rewrite loop_body_open by assumption.
    rewrite Hstep, Hfin, Hbefore.
    rewrite (leftover_finish_last l1 l2 e' p _ He' Hl2).
    rewrite <- Hbefore. reflexivity.
  - intros Hnone Hunbound.
    rewrite (entries_loop_reach before index (e :: more) s0 s Hreach).
    cbn [entries_loop]. rewrite loop_body_open by assumption.
    rewrite Hstep, Hfin, (leftover_finish_none before _ Hnone), Hunbound.
    reflexivity.
Qed.

End Leftover.

(** A session of two entries: scenario D, whose inferred pair the user
    declines with S, then an entry that is not completed, answered with
    F.  The update sent for the second carries the finish date inferred
    for the first. *)
Lemma finish_only_sends_leftover_witness :
  entries_loop Anime 1 false None
    (fun id => if (id =? 4)%Z then Scenario.page_A else Divs [])
    Scenario.response_200 2 0
    ([Scenario.entry_D] ++ Scenario.entry_W :: [])%list
    (initial_state None ["S"; "F"])
  = entries_loop Anime 1 false None
      (fun id => if (id =? 4)%Z then Scenario.page_A else Divs [])
      Scenario.response_200 2 2 []
      (after
         (after_dates (initial_state None ["S"; "F"])
            ("2021-01-03", "2021-01-05") ["F"]
            [Print "1/2 [COMPLETED] Dororo (4). Current start date: 2021-01-01. Current finish date: UNKNOWN.";
             HistoryRequest 4 Anime;
             Print "[2021-01-05 10:00] Watched episode 3";
             Print "[2021-01-04 09:00] Watched episode 2";
             Print "[2021-01-03 08:00] Watched episode 1";
             Sleep 1;
             Print "<<< Earliest episode/chapter 1 was first watched/read at 2021-01-03 08:00";
             Print "<<< Last episode/chapter 3 was first watched/read at 2021-01-05 10:00";
             Print "<<< Proposed change: Set start date to 2021-01-03. Set finish date to 2021-01-05";
             Input choice_prompt (Some "S");
             Print "<<< Skipping current entry on user request";
             Print separator])
         []
         [Print "2/2 [WATCHING] Working (5). Current start date: UNKNOWN. Current finish date: UNKNOWN.";
          HistoryRequest 5 Anime;
          Sleep 1;
          Print "<<< Proposed change: Skip entry as the status is not completed";
          Input choice_prompt (Some "F");
          UpdateRequest 5 Anime [("finish_date", "2021-01-05")];
          PrintDict [("finish_date", "2021-01-05")];
          Print "<<< Sent proposed change as update request to MAL and received response code <Response [200]>";
          Print separator]).
Proof.
  refine (proj1 (finish_only_sends_leftover Anime 1 false None
                   (fun id => if (id =? 4)%Z then Scenario.page_A else Divs [])
                   Scenario.response_200 2 0 [Scenario.entry_D]
                   Scenario.entry_W [] (initial_state None ["S"; "F"])
                   _ [] [] "F" [] _ _ _ _ _ _ _ _ _)
            [] Scenario.entry_D [] ("2021-01-03", "2021-01-05") _ _ _).
  - reflexivity.
  - reflexivity.
  - left. discriminate.
  - left. reflexivity.
  - reflexivity.
  - reflexivity.
  - reflexivity.
  - constructor.
  - reflexivity.
  - reflexivity.
  - reflexivity.
  - constructor.
Defined.
